(** * Lead-funnel agent: cadence scheduler, sweep, inbound routers

    A shallow embedding of the orchestration core of the lead-funnel agent
    (email_engine.py, close_sync.py, agent.py, email_reply_handler.py,
    sms_handler.py, vapi_handler.py, conversation_intelligence.py,
    classifier.py, calendly_check.py) and the properties of its lifecycle
    engine.

    Conventions of the embedding:
    - Python dicts with a fixed set of keys are records whose fields are
      options ([None] = key absent); [d.get(k, dflt)] is [default dflt (k d)].
      The CRM's free-form [custom] dict is a [gmap string string].
    - Python exceptions are the [Raise] case of [result]; effects already
      performed when an exception is raised stay in the world.
    - Everything that leaves the process (Slack posts, e-mails, SMS, CRM
      writes and activity notes) is appended to the world's event trace.
    - Strings are byte strings; the text handled here is ASCII, on which
      [str.lower], [in] and [len] are the functions below.
    - Every HTTP request is answered with a status: exceptions of the
      transport ([requests], the Slack, Twilio and SendGrid clients beyond
      the ones the source catches) and unreadable template files are not
      part of the model, so a run of the model that raises does so through
      a [raise] or a failing lookup of the source.
    - [int] and [str] are CPython's conversions on integers of at most 4300
      decimal digits, the range in which these do not raise. *)

From Stdlib Require Import ZArith String Ascii List Bool Lia DecimalString DecimalPos.
From stdpp Require Import base option gmap strings list.

Local Open Scope Z_scope.

(** ** Python runtime *)

Module Py.

Inductive exn : Type :=
| KeyError (key : string)
| IndexError
| ValueError
| TypeError
| OverflowError
| Exception (msg : string).

Inductive result (A : Type) : Type :=
| Ok (a : A)
| Raise (e : exn).
Arguments Ok {A} a.
Arguments Raise {A} e.

(** Truthiness of a [str]: the empty string is falsy. *)
Definition truthy (s : string) : bool := negb (String.eqb s "").

(** Truthiness of [d.get(k)] for a string-valued key: [None] and [""] are falsy. *)
Definition truthy_opt (o : option string) : bool :=
  match o with Some s => truthy s | None => false end.

Definition is_upper (c : ascii) : bool :=
  (65 <=? nat_of_ascii c)%nat && (nat_of_ascii c <=? 90)%nat.

Definition lower_char (c : ascii) : ascii :=
  if is_upper c then ascii_of_nat (nat_of_ascii c + 32) else c.

(** [s.lower()] *)
Fixpoint lower (s : string) : string :=
  match s with
  | EmptyString => EmptyString
  | String c r => String (lower_char c) (lower r)
  end.

(** [needle in hay] on strings *)
Fixpoint contains (needle hay : string) : bool :=
  match hay with
  | EmptyString => String.prefix needle EmptyString
  | String _ r => String.prefix needle hay || contains needle r
  end.

(** [any(k in text for k in keywords)] *)
Definition any_in (keywords : list string) (text : string) : bool :=
  existsb (fun k => contains k text) keywords.

(** [l[-n:]] for [n > 0] *)
Definition last_n {A} (n : nat) (l : list A) : list A :=
  skipn (length l - n)%nat l.

(** [s[:n]] *)
Definition take_str (n : nat) (s : string) : string := String.substring 0 n s.

(** *** [int(str)] and [str(int)] *)

Definition is_space (c : ascii) : bool :=
  let n := nat_of_ascii c in
  (n =? 32)%nat || ((9 <=? n)%nat && (n <=? 13)%nat)
  || ((28 <=? n)%nat && (n <=? 31)%nat).

Definition is_digit (c : ascii) : bool :=
  (48 <=? nat_of_ascii c)%nat && (nat_of_ascii c <=? 57)%nat.

Definition digit_val (c : ascii) : Z := Z.of_nat (nat_of_ascii c) - 48.

Fixpoint lstrip (s : string) : string :=
  match s with
  | String c r => if is_space c then lstrip r else s
  | EmptyString => EmptyString
  end.

Fixpoint rev_onto (s acc : string) : string :=
  match s with
  | EmptyString => acc
  | String c r => rev_onto r (String c acc)
  end.

Definition strip (s : string) : string :=
  rev_onto (lstrip (rev_onto (lstrip s) EmptyString)) EmptyString.

(** Decimal digits, single underscores allowed between digits. *)
Fixpoint digits (acc : Z) (after_digit : bool) (s : string) : option Z :=
  match s with
  | EmptyString => if after_digit then Some acc else None
  | String c r =>
      if is_digit c then digits (10 * acc + digit_val c) true r
      else if Ascii.eqb c "_" && after_digit then digits acc false r
      else None
  end.

(** [int(s)] for a string [s]; [Raise ValueError] on a malformed literal. *)
Definition int (s : string) : result Z :=
  let parsed :=
    match strip s with
    | String "+" r => digits 0 false r
    | String "-" r => Z.opp <$> digits 0 false r
    | t => digits 0 false t
    end in
  match parsed with Some n => Ok n | None => Raise ValueError end.

(** [str(n)] for an integer [n] *)
Definition str (n : Z) : string := NilZero.string_of_int (Z.to_int n).

(** *** [datetime] *)

(** A [datetime]: microseconds of its wall-clock fields counted from
    0001-01-01T00:00:00, and its UTC offset when it is timezone-aware
    ([tzinfo = None] for a naive value, as [utcnow()] returns). *)
Record datetime : Type := mk_datetime { us : Z; tzinfo : option Z }.

Definition us_per_day : Z := 86400 * 1000000.

(** [datetime.max] is 9999-12-31T23:59:59.999999, on day 3652059. *)
Definition max_us : Z := 3652059 * us_per_day - 1.

Definition in_range (t : Z) : bool := (0 <=? t) && (t <=? max_us).

Definition naive (d : datetime) : Prop := tzinfo d = None.

(** [datetime.utcnow()] at clock reading [clock] *)
Definition utcnow (clock : Z) : datetime := mk_datetime clock None.

(** [d + timedelta(days=n)] *)
Definition add_days (d : datetime) (n : Z) : result datetime :=
  let t := us d + n * us_per_day in
  if in_range t then Ok (mk_datetime t (tzinfo d)) else Raise OverflowError.

(** [a >= b]: comparing a naive with an aware datetime raises [TypeError]. *)
Definition ge (a b : datetime) : result bool :=
  match tzinfo a, tzinfo b with
  | None, None => Ok (us b <=? us a)
  | Some oa, Some ob => Ok (us b - ob <=? us a - oa)
  | _, _ => Raise TypeError
  end.

(** The library functions whose text format is left to the library:
    [datetime.fromisoformat] ([None] = [ValueError]),
    [datetime.isoformat], and the [strftime] rendering used by
    [EmailEngine._format_date]. *)
Class DatetimeLib : Type := {
  fromisoformat : string -> option datetime;
  isoformat : datetime -> string;
  strftime_call : datetime -> string
}.

(** [s.replace(pat, rep)] for a non-empty [pat] *)
Fixpoint replace_from (pat rep s : string) (skip : nat) : string :=
  match s with
  | EmptyString => EmptyString
  | String c r =>
      match skip with
      | S k => replace_from pat rep r k
      | O =>
          if String.prefix pat s
          then rep +:+ replace_from pat rep r (String.length pat - 1)
          else String c (replace_from pat rep r 0)
      end
  end.

Definition replace (pat rep s : string) : string := replace_from pat rep s 0.

(** [s.split(sep)[0]] for a one-character [sep] *)
Fixpoint before_first (sep : ascii) (s : string) : string :=
  match s with
  | EmptyString => EmptyString
  | String c r => if Ascii.eqb c sep then EmptyString else String c (before_first sep r)
  end.

(** the text after the first [sep], when there is one *)
Fixpoint after_first (sep : ascii) (s : string) : option string :=
  match s with
  | EmptyString => None
  | String c r => if Ascii.eqb c sep then Some r else after_first sep r
  end.

Definition dquote : string := String (ascii_of_nat 34) EmptyString.

(** *** The ISO 8601 text of [datetime.isoformat()]

    A concrete [DatetimeLib]: [YYYY-MM-DDTHH:MM:SS], with [.ffffff] when
    the microseconds are not zero and [+HH:MM] for an aware value. This is
    the format the agent writes into the CRM. *)

Definition is_leap (y : Z) : bool :=
  (y mod 4 =? 0) && (negb (y mod 100 =? 0) || (y mod 400 =? 0)).

Definition days_before_year (y : Z) : Z :=
  let p := y - 1 in p * 365 + p / 4 - p / 100 + p / 400.

Definition days_in_month (y m : Z) : Z :=
  match m with
  | 2 => if is_leap y then 29 else 28
  | 4 | 6 | 9 | 11 => 30
  | _ => 31
  end.

Definition days_before_month (y m : Z) : Z :=
  fold_left (fun acc k => acc + days_in_month y (Z.of_nat k))
    (seq 1 (Z.to_nat (m - 1))) 0.

(** day number counted from 0001-01-01 = 0 *)
Definition day_index (y m d : Z) : Z :=
  days_before_year y + days_before_month y m + (d - 1).

(** the inverse of [day_index], after [datetime._ord2ymd] *)
Definition civil_of_day (n0 : Z) : Z * Z * Z :=
  let n400 := n0 / 146097 in let n := n0 mod 146097 in
  let n100 := n / 36524 in let n := n mod 36524 in
  let n4 := n / 1461 in let n := n mod 1461 in
  let n1 := n / 365 in let n := n mod 365 in
  let year := n400 * 400 + 1 + n100 * 100 + n4 * 4 + n1 in
  if (n1 =? 4) || (n100 =? 4) then (year - 1, 12, 31)
  else
    let month := (n + 50) / 32 in
    let preceding := days_before_month year month in
    if preceding >? n
    then (year, month - 1, n - days_before_month year (month - 1) + 1)
    else (year, month, n - preceding + 1).

Definition read_digits : nat -> Z -> string -> option (Z * string) :=
  fix go (k : nat) (acc : Z) (s : string) : option (Z * string) :=
    match k with
    | O => Some (acc, s)
    | S k' =>
        match s with
        | String c r =>
            if is_digit c then go k' (10 * acc + digit_val c) r else None
        | EmptyString => None
        end
    end.

Definition expect (c : ascii) (s : string) : option string :=
  match s with
  | String c' r => if Ascii.eqb c c' then Some r else None
  | EmptyString => None
  end.

Definition parse_fraction (s : string) : option (Z * string) :=
  match s with
  | String "." r => read_digits 6 0 r
  | _ => Some (0, s)
  end.

Definition parse_offset (s : string) : option (option Z) :=
  match s with
  | EmptyString => Some None
  | String sign r =>
      '(hh, r) ← read_digits 2 0 r;
      r ← expect ":" r;
      '(mm, r) ← read_digits 2 0 r;
      guard (r = EmptyString);;
      guard (hh < 24 ∧ mm < 60);;
      let off := (hh * 3600 + mm * 60) * 1000000 in
      if Ascii.eqb sign "+" then Some (Some off)
      else if Ascii.eqb sign "-" then Some (Some (- off))
      else None
  end.

Definition iso_parse (s : string) : option datetime :=
  '(y, s) ← read_digits 4 0 s;
  s ← expect "-" s;
  '(m, s) ← read_digits 2 0 s;
  s ← expect "-" s;
  '(d, s) ← read_digits 2 0 s;
  s ← expect "T" s;
  '(hh, s) ← read_digits 2 0 s;
  s ← expect ":" s;
  '(mi, s) ← read_digits 2 0 s;
  s ← expect ":" s;
  '(ss, s) ← read_digits 2 0 s;
  '(frac, s) ← parse_fraction s;
  tz ← parse_offset s;
  guard (1 ≤ y ∧ 1 ≤ m ≤ 12 ∧ 1 ≤ d ≤ days_in_month y m
         ∧ hh < 24 ∧ mi < 60 ∧ ss < 60);;
  Some (mk_datetime
          (day_index y m d * us_per_day
           + ((hh * 60 + mi) * 60 + ss) * 1000000 + frac) tz).

(** [n] in decimal, zero-padded on the left to [width] digits *)
Definition pad (width : nat) (n : Z) : string :=
  let t := str n in
  string_of_list_ascii (repeat "0"%char (width - String.length t)) +:+ t.

Definition format_offset (off : Z) : string :=
  let a := Z.abs off / 60000000 in
  (if off <? 0 then "-" else "+") +:+ pad 2 (a / 60) +:+ ":" +:+ pad 2 (a mod 60).

Definition iso_format (d : datetime) : string :=
  let '(y, m, dd) := civil_of_day (us d / us_per_day) in
  let r := us d mod us_per_day in
  let secs := r / 1000000 in
  pad 4 y +:+ "-" +:+ pad 2 m +:+ "-" +:+ pad 2 dd +:+ "T"
  +:+ pad 2 (secs / 3600) +:+ ":" +:+ pad 2 (secs / 60 mod 60) +:+ ":"
  +:+ pad 2 (secs mod 60)
  +:+ (if r mod 1000000 =? 0 then "" else "." +:+ pad 6 (r mod 1000000))
  +:+ match tzinfo d with Some off => format_offset off | None => "" end.

Definition weekday_names : list string :=
  ["Monday"; "Tuesday"; "Wednesday"; "Thursday"; "Friday"; "Saturday"; "Sunday"].

Definition month_names : list string :=
  ["January"; "February"; "March"; "April"; "May"; "June"; "July";
   "August"; "September"; "October"; "November"; "December"].

(** [dt.strftime("%A, %B %d at %I:%M %p")] *)
Definition iso_strftime_call (d : datetime) : string :=
  let day := us d / us_per_day in
  let '(y, m, dd) := civil_of_day day in
  let mins := us d mod us_per_day / 60000000 in
  let h := mins / 60 in
  let h12 := if h mod 12 =? 0 then 12 else h mod 12 in
  nth (Z.to_nat (day mod 7)) weekday_names "" +:+ ", "
  +:+ nth (Z.to_nat (m - 1)) month_names "" +:+ " " +:+ pad 2 dd
  +:+ " at " +:+ pad 2 h12 +:+ ":" +:+ pad 2 (mins mod 60)
  +:+ (if h <? 12 then " AM" else " PM").

Definition iso8601 : DatetimeLib :=
  {| fromisoformat := iso_parse;
     isoformat := iso_format;
     strftime_call := iso_strftime_call |}.

(** *** More of [str] *)

Definition is_lower (c : ascii) : bool :=
  (97 <=? nat_of_ascii c)%nat && (nat_of_ascii c <=? 122)%nat.

Definition upper_char (c : ascii) : ascii :=
  if is_lower c then ascii_of_nat (nat_of_ascii c - 32) else c.

(** [s.upper()] *)
Fixpoint upper (s : string) : string :=
  match s with
  | EmptyString => EmptyString
  | String c r => String (upper_char c) (upper r)
  end.

Definition newline : string := String (ascii_of_nat 10) EmptyString.

(** [s.split(sep)] for a one-character [sep]: never the empty list. *)
Fixpoint split_on (sep : ascii) (s : string) : list string :=
  match s with
  | EmptyString => [EmptyString]
  | String c r =>
      if Ascii.eqb c sep then EmptyString :: split_on sep r
      else match split_on sep r with
           | p :: ps => String c p :: ps
           | [] => [String c EmptyString]
           end
  end.

(** [sep.join(l)] *)
Fixpoint join (sep : string) (l : list string) : string :=
  match l with
  | [] => EmptyString
  | [x] => x
  | x :: rest => x +:+ sep +:+ join sep rest
  end.

(** [s.split()]: the maximal runs of non-whitespace characters. *)
Fixpoint words_from (cur : string) (s : string) : list string :=
  match s with
  | EmptyString => if truthy cur then [rev_onto cur EmptyString] else []
  | String c r =>
      if is_space c
      then (if truthy cur then [rev_onto cur EmptyString] else []) ++ words_from EmptyString r
      else words_from (String c cur) r
  end.

Definition words (s : string) : list string := words_from EmptyString s.

(** [l.index(x)]; [ValueError] when [x] is not in [l]. *)
Fixpoint index_of (x : string) (l : list string) : result nat :=
  match l with
  | [] => Raise ValueError
  | y :: rest =>
      if String.eqb x y then Ok O
      else match index_of x rest with Ok i => Ok (S i) | Raise e => Raise e end
  end.

(** [l[i]] for [i >= 0] *)
Definition list_item {A} (l : list A) (i : nat) : result A :=
  match nth_error l i with Some a => Ok a | None => Raise IndexError end.

(** [d[key]] and [d.get(key)] on a dict given by its items *)
Fixpoint assoc {A} (key : string) (items : list (string * A)) : option A :=
  match items with
  | [] => None
  | (k, v) :: rest => if String.eqb k key then Some v else assoc key rest
  end.

End Py.

Import Py.


(** ** Data model *)

(** A contact of a CRM lead. *)
Record contact : Type := mk_contact {
  c_name : option string;
  c_emails : option (list (option string));   (* [{"email": ...}, ...] *)
  c_phones : option (list (option string))    (* [{"phone": ...}, ...] *)
}.

Definition empty_contact : contact := mk_contact None None None.

(** A lead object as the CRM returns it. *)
Record lead : Type := mk_lead {
  l_id : string;
  l_name : option string;
  l_contacts : option (list contact);
  l_custom : option (gmap string string)
}.

(** The standard-format lead dict built by [_extract_lead_data]
    (and accepted as [lead_context] by the conversation layer). *)
Record lead_data : Type := mk_lead_data {
  leadType : option string;
  name : option string;
  email : option string;
  phone : option string;
  company : option string;
  industry : option string;
  goals : option string;
  priority : option string;
  custom : option (gmap string string)
}.

(** [d.get("custom", {}).get(key, dflt)] *)
Definition custom_get (c : option (gmap string string)) (key dflt : string) : string :=
  default dflt (default ∅ c !! key).

(** The booking dict returned by [CalendlyChecker.check_booking]. *)
Record booking : Type := mk_booking {
  b_uri : string;
  b_start_time : string;
  b_location : string
}.

(** One entry of a conversation history. *)
Record message : Type := mk_message {
  m_sender : option string;
  m_text : option string;
  m_timestamp : option string
}.

(** The analysis dict returned by [ConversationIntelligence.analyze_message]
    (all keys of the requested JSON shape present). *)
Record classification : Type := mk_classification {
  intent : string;
  sentiment : string;
  qualification_level : string;
  key_concerns : list string;
  should_escalate : bool;
  escalation_reason : option string;      (* null when there is none *)
  suggested_response : string;
  should_book_call : bool;
  next_action : string;
  subject : option string
}.

(** ** The world outside the process *)

(** Messages posted to the operator channel by the code below, one
    constructor per message text of the source. *)
Inductive notice : Type :=
| ErrorProcessingLead (e : exn)
| ScheduledRunComplete (processed sent bookings escalations : Z)
| LeadCompletedSequence                    (* "No reply after 8 emails - review for closure" *)
| MilestoneEmail4
| LeadConvertedToBooked
| EmailFromUnknownLead (sender subj : string)
| EmailReplyNotice (intent_ sentiment_ action : string)
| EscalationNeeded (reason : option string) (concerns : list string)
| LeadNotInterested
| SmsFromUnknownNumber (sender city state body : string)
| SmsEscalation (reason : option string)
| SmsConversation (lead_name intent_ response : string)
| AiCallCompleted (duration : Z) (summary transcript : string)
| NewBookedLead (start_time : string)
| NewLeadEnteredNurture
| AiCallStarted (reason call_id : string)
| VapiCallFailed (error : string).

(** The HTML bodies handed to SendGrid, one constructor per template. *)
Inductive email_body : Type :=
| BookedAssets (b : booking)
| Nurture (step : Z) (custom_report : string)
| HoldingResponse
| BookingLink (suggested : string)
| AiResponse (suggested : string).

Inductive event : Type :=
| SlackPost (n : notice) (who : option lead_data)
| EmailSend (to_email to_name subj : string) (body : email_body) (accepted : bool)
| SmsSend (to_number body : string) (accepted : bool)
| ClosePut (lead_id : string) (fields : list (string * string)) (applied : bool)
| CloseNote (lead_id note : string) (stored : bool)
| CloseCreate (fields : list (string * string)) (created : option string)
| CloseContactPost (lead_id : string) (c : contact) (stored : bool)
| CloseContactPut (lead_id : string) (c : contact) (stored : bool)
| VapiCall (number customer_name reason : string) (accepted : bool).

(** The process' view of the outside: the clock, the CRM's leads, the
    events emitted so far (newest first) and the number of requests
    issued so far. *)
Record world : Type := mk_world {
  clock : Z;
  crm : gmap string lead;
  trace : list event;
  tick : nat
}.

(** How the external services answer during one unit of work. The
    analyzer's answer is the analysis dict it returns: the parsed JSON of
    the model's reply, or its fallback dict. *)
Class Remote : Type := {
  (** whether the [n]-th request of the run is answered with a success status *)
  http_ok : nat -> bool;
  (** the leads the CRM returns for a search query *)
  close_search : gmap string lead -> string -> list lead;
  (** [CalendlyChecker.check_booking(email)] *)
  check_booking : string -> result (option booking);
  (** [ConversationIntelligence.analyze_message(message, lead_context, history)] *)
  analyze_message : string -> lead_data -> list message -> classification;
  (** [ReportGenerator.generate_report(lead_data, step)] *)
  generate_report : lead_data -> Z -> result string
}.

(** Computations of the process: state passing with exceptions. *)
Definition M (A : Type) : Type := world -> world * result A.

Definition ret {A} (a : A) : M A := fun w => (w, Ok a).

Definition bind {A B} (m : M A) (f : A -> M B) : M B := fun w =>
  match m w with
  | (w', Ok a) => f a w'
  | (w', Raise e) => (w', Raise e)
  end.

Declare Scope py_scope.
Delimit Scope py_scope with py.
Notation "x ← y ; z" := (bind y (fun x => z))
  (at level 20, y at level 100, z at level 200, only parsing) : py_scope.
Notation "y ;; z" := (bind y (fun _ => z))
  (at level 100, z at level 200, only parsing, right associativity) : py_scope.
Local Open Scope py_scope.

Definition raise {A} (e : exn) : M A := fun w => (w, Raise e).

Definition pass : M unit := ret tt.

Definition lift {A} (r : result A) : M A := fun w => (w, r).

(** [try: body except Exception as e: handler(e)] *)
Definition try_except {A} (body : M A) (handler : exn -> M A) : M A := fun w =>
  match body w with
  | (w', Ok a) => (w', Ok a)
  | (w', Raise e) => handler e w'
  end.

Definition get_world : M world := fun w => (w, Ok w).

Definition emit (e : event) : M unit := fun w =>
  (mk_world (clock w) (crm w) (e :: trace w) (tick w), Ok tt).

(** Issue one request; the answer says whether it succeeded. *)
Definition request `{R : Remote} : M bool := fun w =>
  (mk_world (clock w) (crm w) (trace w) (S (tick w)), Ok (http_ok (tick w))).

Definition set_crm (c : gmap string lead) : M unit := fun w =>
  (mk_world (clock w) c (trace w) (tick w), Ok tt).

(** A field [custom.k] of a PUT payload sets [k] in the lead's custom dict;
    other fields (status_id) are not part of this model's lead. *)
Definition custom_key (field : string) : option string :=
  if String.prefix "custom." field
  then Some (String.substring 7 (String.length field - 7) field)
  else None.

Definition apply_fields (fields : list (string * string)) (l : lead) : lead :=
  mk_lead (l_id l) (l_name l) (l_contacts l)
    (Some (fold_left
             (fun c kv => match custom_key kv.1 with
                          | Some k => <[k := kv.2]> c
                          | None => c
                          end)
             fields (default ∅ (l_custom l)))).

(** ** close_sync.py *)

Module close_sync.

(** Whether the request numbered [tick w], a PUT, updates lead [lead_id]:
    the service answers and the lead exists. *)
Definition put_applies `{R : Remote} (w : world) (lead_id : string) : bool :=
  http_ok (tick w) && bool_decide (is_Some (crm w !! lead_id)).

(** [requests.put(f"{base_url}/lead/{lead_id}/", json=payload)]: answers
    whether the status is 200; a successful PUT has updated the lead. *)
Definition put_lead `{R : Remote} (lead_id : string)
    (payload : list (string * string)) : M bool :=
  w ← get_world;
  answered ← request;
  let applied := answered && bool_decide (is_Some (crm w !! lead_id)) in
  (if applied then set_crm (alter (apply_fields payload) lead_id (crm w))
   else pass);;
  emit (ClosePut lead_id payload applied);;
  ret applied.

(** [_log_activity(lead_id, note, metadata)]: posts the note (the posted
    text also carries the timestamp and the rendered metadata); a failed
    POST is swallowed. *)
Definition _log_activity `{R : Remote} (lead_id note : string) : M unit :=
  stored ← request;
  emit (CloseNote lead_id note stored).

(** The payload of [update_lead_state] at clock reading [now]. *)
Definition state_payload `{D : DatetimeLib} (now : Z) (new_state : string)
    : list (string * string) :=
  [("custom.agent_state", new_state);
   ("custom.state_updated_at", isoformat (utcnow now))].

Definition update_lead_state `{D : DatetimeLib} `{R : Remote}
    (lead_id new_state : string) : M unit :=
  w ← get_world;
  ok ← put_lead lead_id (state_payload (clock w) new_state);
  if ok then _log_activity lead_id ("Agent state changed to: " +:+ new_state)
  else raise (Exception "Failed to update lead state").

Definition _get_status_id (status_name : string) : string :=
  if String.eqb status_name "New Lead" then "stat_new"
  else if String.eqb status_name "Contacted" then "stat_contacted"
  else if String.eqb status_name "Qualified" then "stat_qualified"
  else if String.eqb status_name "Closed Won" then "stat_won"
  else if String.eqb status_name "Closed Lost" then "stat_lost"
  else "stat_new".

Definition mark_as_booked `{R : Remote} (lead_id : string) (calendly_event : booking) : M unit :=
  let payload := [("custom.booked", "yes");
                  ("custom.calendly_event_uri", b_uri calendly_event);
                  ("custom.call_scheduled_at", b_start_time calendly_event);
                  ("status_id", _get_status_id "Qualified")] in
  ok ← put_lead lead_id payload;
  if ok then _log_activity lead_id "Calendly booking detected" else pass.

(** The payload of [update_email_tracking] at clock reading [now]. *)
Definition tracking_payload `{D : DatetimeLib} (now : Z) (email_step : Z)
    (email_subject : string) : list (string * string) :=
  [("custom.email_sequence_step", str email_step);
   ("custom.last_email_sent", isoformat (utcnow now));
   ("custom.last_email_subject", email_subject)].

Definition update_email_tracking `{D : DatetimeLib} `{R : Remote}
    (lead_id : string) (email_step : Z) (email_subject : string) : M unit :=
  w ← get_world;
  ok ← put_lead lead_id (tracking_payload (clock w) email_step email_subject);
  if ok then _log_activity lead_id ("Sent email: " +:+ email_subject) else pass.

(** [requests.get(f"{base_url}/lead/", params={"_limit": 1, "query": q})]:
    the first result on status 200, [None] otherwise. *)
Definition search_first `{R : Remote} (query : string) : M (option lead) :=
  w ← get_world;
  answered ← request;
  ret (if answered then head (close_search (crm w) query) else None).

Definition get_lead_by_email `{R : Remote} (addr : string) : M (option lead) :=
  search_first ("email:" +:+ dquote +:+ addr +:+ dquote).

End close_sync.

(** ** slack_bot.py *)

Module slack_bot.

(** [send_notification(message, lead_data)]: the lead block is appended
    when [lead_data] is a non-empty dict; posting never raises. *)
Definition send_notification (n : notice) (who : option lead_data) : M unit :=
  emit (SlackPost n who).

End slack_bot.

(** ** email_engine.py *)

Module email_engine.

(** [_send_email]: [True] when SendGrid answers 200, 201 or 202; any
    exception of the client is caught and gives [False]. *)
Definition _send_email `{R : Remote} (to_email to_name subj : string)
    (body : email_body) : M bool :=
  accepted ← request;
  emit (EmailSend to_email to_name subj body accepted);;
  ret accepted.

(** [_format_date]: the [strftime] rendering, or the input itself when it
    does not parse. *)
Definition _format_date `{D : DatetimeLib} (iso_date : string) : string :=
  match fromisoformat (replace "Z" "+00:00" iso_date) with
  | Some dt => strftime_call dt
  | None => iso_date
  end.

(** [lead_data[key]] *)
Definition item (key : string) (v : option string) : M string :=
  match v with Some s => ret s | None => raise (KeyError key) end.

Definition send_booked_asset_pack `{D : DatetimeLib} `{R : Remote}
    (ld : lead_data) (calendly_event : booking) : M bool :=
  let subj := "Looking forward to our call on " +:+
              _format_date (b_start_time calendly_event) in
  to_email ← item "email" (email ld);
  _send_email to_email (default "" (name ld)) subj (BookedAssets calendly_event).

(** The subject templates of [send_nurture_email], formatted. A step
    outside 1..8 uses the entry of step 1. *)
Definition nurture_subject (ld : lead_data) (step : Z) : string :=
  let company_ := default "similar organizations" (company ld) in
  let industry_ := default "your industry" (industry ld) in
  match step with
  | 2 => "How " +:+ company_ +:+ " achieved results"
  | 3 => "Custom report: " +:+ industry_ +:+ " insights"
  | 4 => "See what others are saying"
  | 5 => "Deep dive: Your personalized analysis"
  | 6 => "Solving the " +:+ industry_ +:+ " challenge"
  | 7 => "Your complete implementation guide"
  | 8 => "Last chance - should we close your file?"
  | _ => "Welcome - Let's transform your practice"
  end.

(** [send_nurture_email]: one send, through the step's template or, when
    the template file is missing, through the fallback body. *)
Definition send_nurture_email `{R : Remote} (ld : lead_data) (step : Z)
    (report_html : option string) : M bool :=
  let subj := nurture_subject ld step in
  to_email ← item "email" (email ld);
  _send_email to_email (default "" (name ld)) subj
    (Nurture step (default "" report_html)).

(** The [schedule] dict of [get_next_email_date]. *)
Definition schedule (step : Z) : option Z :=
  match step with
  | 1 => Some 0
  | 2 => Some 3
  | 3 => Some 7
  | 4 => Some 10
  | 5 => Some 14
  | 6 => Some 17
  | 7 => Some 21
  | 8 => Some 28
  | _ => None
  end.

Definition get_next_email_date (now : Z) (step : Z)
    (last_sent : option datetime) : result datetime :=
  let days_delay := default 0 (schedule step) in
  match last_sent with
  | Some ls => add_days ls days_delay
  | None => add_days (utcnow now) days_delay
  end.

(** [should_send_email(lead_data, step)] at clock reading [now]; every
    exception inside the [try] gives [False]. *)
Definition should_send_email `{D : DatetimeLib} (now : Z)
    (ld : lead_data) (step : Z) : bool :=
  let last_sent_str := custom_get (custom ld) "last_email_sent" "" in
  if negb (truthy last_sent_str) then step =? 1
  else
    match fromisoformat last_sent_str with
    | None => false
    | Some last_sent =>
        match get_next_email_date now step (Some last_sent) with
        | Raise _ => false
        | Ok next_send =>
            match ge (utcnow now) next_send with
            | Raise _ => false
            | Ok b => b
            end
        end
    end.

End email_engine.

(** ** agent.py: the scheduled sweep *)

Module agent.

(** The per-lead result dict of [_process_nurturing_lead]. *)
Record lead_result : Type := mk_lead_result {
  email_sent : bool;
  booking_detected : bool;
  escalated : bool
}.

(** The aggregate returned by [run_scheduled_tasks]. *)
Record sweep_result : Type := mk_sweep_result {
  emails_sent : Z;
  bookings_detected : Z;
  escalations : Z;
  leads_processed : Z
}.

Definition _get_lead_email (l : lead) : result (option string) :=
  match default [] (l_contacts l) with
  | c :: _ =>
      match c_emails c with
      | Some (e :: _) =>
          match e with
          | Some addr => Ok (Some addr)
          | None => Raise (KeyError "email")
          end
      | _ => Ok None
      end
  | [] => Ok None
  end.

(** [_extract_lead_data]: [lead.get("contacts", [{}])[0]] and
    [contact.get("phones", [{}])[0]] index a list that may be empty. *)
Definition _extract_lead_data (l : lead) : result lead_data :=
  match default [empty_contact] (l_contacts l) with
  | [] => Raise IndexError
  | contact :: _ =>
      match _get_lead_email l with
      | Raise e => Raise e
      | Ok addr =>
          match default [None] (c_phones contact) with
          | [] => Raise IndexError
          | ph :: _ =>
              Ok {| leadType := Some (custom_get (l_custom l) "lead_type" "unknown");
                    name := Some (default "Unknown" (c_name contact));
                    email := Some (default "" addr);
                    phone := Some (default "" ph);
                    company := Some (default "Unknown" (l_name l));
                    industry := Some (custom_get (l_custom l) "industry" "");
                    goals := Some (custom_get (l_custom l) "goals" "");
                    priority := Some (custom_get (l_custom l) "priority" "medium");
                    custom := Some (default ∅ (l_custom l)) |}
          end
      end
  end.

Definition _convert_to_booked `{D : DatetimeLib} `{R : Remote}
    (l : lead) (b : booking) : M unit :=
  let lead_id := l_id l in
  ld ← lift (_extract_lead_data l);
  close_sync.mark_as_booked lead_id b;;
  close_sync.update_lead_state lead_id "BOOKED";;
  email_engine.send_booked_asset_pack ld b;;
  slack_bot.send_notification LeadConvertedToBooked (Some ld).

(** [next_step in [3, 5, 7]] *)
Definition report_step (step : Z) : bool :=
  (step =? 3) || (step =? 5) || (step =? 7).

(** [_process_nurturing_lead], from "Check if it's time to send next
    email" on: reached when no booking was detected. *)
Definition next_nurture_step `{D : DatetimeLib} `{R : Remote}
    (l : lead) (current_step : Z) : M lead_result :=
  let lead_id := l_id l in
  let next_step := current_step + 1 in
  if next_step >? 8 then
    (* Sequence complete - notify via Slack *)
    ld ← lift (_extract_lead_data l);
    slack_bot.send_notification LeadCompletedSequence (Some ld);;
    close_sync.update_lead_state lead_id "SEQUENCE_COMPLETE";;
    ret (mk_lead_result false false true)
  else
    (* Check if enough time has passed for next email *)
    ld ← lift (_extract_lead_data l);
    w ← get_world;
    if email_engine.should_send_email (clock w) ld next_step then
      (* Generate custom report for steps 3, 5, 7 *)
      custom_report ←
        (if report_step next_step
         then r ← lift (generate_report ld next_step); ret (Some r)
         else ret None);
      sent ← email_engine.send_nurture_email ld next_step custom_report;
      if sent : bool then
        close_sync.update_email_tracking lead_id next_step
          ("Nurture step " +:+ str next_step);;
        (* Notify on key milestones *)
        (if next_step =? 4
         then slack_bot.send_notification MilestoneEmail4 (Some ld)
         else pass);;
        ret (mk_lead_result true false false)
      else ret (mk_lead_result false false false)
    else ret (mk_lead_result false false false).

Definition _process_nurturing_lead `{D : DatetimeLib} `{R : Remote}
    (l : lead) : M lead_result :=
  addr ← lift (_get_lead_email l);
  current_step ← lift (int (custom_get (l_custom l) "email_sequence_step" "0"));
  (* Check if they booked in the meantime *)
  booked ←
    (if truthy_opt addr then
       found ← lift (check_booking (default "" addr));
       match found with
       | Some b => _convert_to_booked l b;; ret true
       | None => ret false
       end
     else ret false);
  if booked : bool then ret (mk_lead_result false true false)
  else next_nurture_step l current_step.

(** [_get_nurturing_leads]: the placeholder of the source. *)
Definition _get_nurturing_leads : list lead := [].

Definition count (b : bool) : Z := if b then 1 else 0.

(** The loop of [run_scheduled_tasks] over the leads it was given: an
    exception of one lead is reported and the loop goes on. *)
Fixpoint process_leads `{D : DatetimeLib} `{R : Remote}
    (leads : list lead) (results : sweep_result) : M sweep_result :=
  match leads with
  | [] => ret results
  | l :: rest =>
      results' ←
        try_except
          (r ← _process_nurturing_lead l;
           ret (mk_sweep_result
                  (emails_sent results + count (email_sent r))
                  (bookings_detected results + count (booking_detected r))
                  (escalations results + count (escalated r))
                  (leads_processed results + 1)))
          (fun e =>
             slack_bot.send_notification (ErrorProcessingLead e) None;;
             ret results);
      process_leads rest results'
  end.

Definition run_scheduled_tasks_over `{D : DatetimeLib} `{R : Remote}
    (nurturing_leads : list lead) : M sweep_result :=
  results ← process_leads nurturing_leads (mk_sweep_result 0 0 0 0);
  slack_bot.send_notification
    (ScheduledRunComplete (leads_processed results) (emails_sent results)
       (bookings_detected results) (escalations results)) None;;
  ret results.

Definition run_scheduled_tasks `{D : DatetimeLib} `{R : Remote} : M sweep_result :=
  run_scheduled_tasks_over _get_nurturing_leads.

End agent.

(** ** conversation_intelligence.py: the call-trigger policy *)

Module conversation_intelligence.

Definition call_keywords : list string :=
  ["demo"; "pricing"; "price"; "cost"; "how much"].

Definition should_make_call (lead_context : lead_data)
    (conversation_history : list message) : result bool :=
  match int (custom_get (custom lead_context) "email_sequence_step" "0") with
  | Raise e => Raise e
  | Ok email_count =>
      let lead_type := default "" (leadType lead_context) in
      let priority_ := default "" (priority lead_context) in
      (* High priority wholesale leads who haven't booked after 2 emails *)
      if String.eqb lead_type "wholesale" && String.eqb priority_ "high"
         && (email_count >=? 2)
      then Ok true
      (* Any lead with 4+ emails and no booking *)
      else if (email_count >=? 4)
              && negb (String.eqb (custom_get (custom lead_context) "booked" "") "yes")
      then Ok true
      (* Lead asked about demos or pricing in conversation *)
      else Ok (existsb
                 (fun msg => any_in call_keywords (lower (default "" (m_text msg))))
                 (last_n 5 conversation_history))
  end.

End conversation_intelligence.

(** ** email_reply_handler.py: the inbound e-mail router *)

Module email_reply_handler.

(** The SendGrid Inbound Parse payload. *)
Record inbound_email : Type := mk_inbound_email {
  from_ : option string;
  subject_ : option string;
  text_ : option string;
  html_ : option string
}.

(** The status dicts returned by the handler. *)
Inductive reply_status : Type :=
| StatusEscalated (reason : option string)
| StatusBookingSent
| StatusResponseSent (response : string)
| StatusClosed
| StatusHandled (action : string).

Definition _get_lead_email : lead -> result (option string) :=
  agent._get_lead_email.

(** This handler's [_extract_lead_data] guards the empty contact list
    ([contacts[0] if contacts else {}]); the phone lookup is as in agent.py. *)
Definition _extract_lead_data (l : lead) : result lead_data :=
  let contact := default empty_contact (head (default [] (l_contacts l))) in
  match _get_lead_email l with
  | Raise e => Raise e
  | Ok addr =>
      match default [None] (c_phones contact) with
      | [] => Raise IndexError
      | ph :: _ =>
          Ok {| leadType := Some (custom_get (l_custom l) "lead_type" "unknown");
                name := Some (default "Unknown" (c_name contact));
                email := Some (default "" addr);
                phone := Some (default "" ph);
                company := Some (default "Unknown" (l_name l));
                industry := Some (custom_get (l_custom l) "industry" "");
                goals := Some (custom_get (l_custom l) "goals" "");
                priority := Some (custom_get (l_custom l) "priority" "medium");
                custom := Some (default ∅ (l_custom l)) |}
      end
  end.

(** [_get_conversation_history]: the placeholder of the source. *)
Definition _get_conversation_history (lead_id : string) : list message := [].

Definition _save_to_history `{R : Remote} (lead_id sender msg : string) : M unit :=
  close_sync._log_activity lead_id ("Conversation: " +:+ sender).

Definition _handle_based_on_analysis `{D : DatetimeLib} `{R : Remote}
    (l : lead) (ld : lead_data) (analysis : classification)
    (history : list message) : M reply_status :=
  let lead_id := l_id l in
  let action := next_action analysis in
  (* Always notify Slack of replies *)
  slack_bot.send_notification
    (EmailReplyNotice (intent analysis) (sentiment analysis) action) (Some ld);;
  if should_escalate analysis then
    slack_bot.send_notification
      (EscalationNeeded (escalation_reason analysis) (key_concerns analysis))
      (Some ld);;
    close_sync._log_activity lead_id "Escalated to Josh";;
    (* Send holding response *)
    to_email ← email_engine.item "email" (email ld);
    to_name ← email_engine.item "name" (name ld);
    email_engine._send_email to_email to_name
      ("Re: " +:+ default "Your inquiry" (subject analysis)) HoldingResponse;;
    ret (StatusEscalated (escalation_reason analysis))
  else if String.eqb action "book_call" then
    (* Send booking link *)
    to_name ← email_engine.item "name" (name ld);
    to_email ← email_engine.item "email" (email ld);
    email_engine._send_email to_email to_name "Re: Let's schedule a call"
      (BookingLink (suggested_response analysis));;
    close_sync._log_activity lead_id "Sent booking link via email reply";;
    ret StatusBookingSent
  else if String.eqb action "send_response" then
    to_name ← email_engine.item "name" (name ld);
    to_email ← email_engine.item "email" (email ld);
    email_engine._send_email to_email to_name "Re: Your question"
      (AiResponse (suggested_response analysis));;
    close_sync._log_activity lead_id ("AI Response Sent: " +:+ intent analysis);;
    _save_to_history lead_id "Agent" (suggested_response analysis);;
    ret (StatusResponseSent (suggested_response analysis))
  else if String.eqb action "end_conversation" then
    close_sync.update_lead_state lead_id "CLOSED_LOST";;
    slack_bot.send_notification LeadNotInterested (Some ld);;
    ret StatusClosed
  else ret (StatusHandled action).

(** The address between the first [<] and the following [>], when the
    sender has the form [Name <address>]. *)
Definition clean_address (from_email : string) : string :=
  match after_first "<" from_email with
  | Some r => before_first ">" (before_first "<" r)
  | None => from_email
  end.

Definition handle_inbound_email `{D : DatetimeLib} `{R : Remote}
    (payload : inbound_email) : M reply_status :=
  let from_email := clean_address (lower (default "" (from_ payload))) in
  let subj := default "" (subject_ payload) in
  let body := if truthy (default "" (text_ payload))
              then default "" (text_ payload)
              else default "" (html_ payload) in
  (* Find lead in Close CRM *)
  found ← close_sync.get_lead_by_email from_email;
  match found with
  | None =>
      slack_bot.send_notification (EmailFromUnknownLead from_email subj) None;;
      ret (StatusEscalated (Some "unknown_lead"))
  | Some l =>
      ld ← lift (_extract_lead_data l);
      let conversation_history := _get_conversation_history (l_id l) in
      let analysis := analyze_message body ld conversation_history in
      close_sync._log_activity (l_id l) ("Inbound Email Reply: " +:+ subj);;
      (if String.eqb (custom_get (custom ld) "agent_state" "") "NURTURING"
       then close_sync.update_lead_state (l_id l) "ENGAGED"
       else pass);;
      _handle_based_on_analysis l ld analysis conversation_history
  end.

End email_reply_handler.

(** ** sms_handler.py: the inbound SMS router *)

Module sms_handler.

(** The Twilio webhook payload. *)
Record inbound_sms : Type := mk_inbound_sms {
  From : option string;
  Body : option string;
  FromCity : option string;
  FromState : option string
}.

(** A TwiML messaging response: the messages it carries. *)
Inductive twiml : Type := Twiml (messages : list string).

Definition _create_twiml_response (msg : string) : twiml :=
  Twiml (if truthy msg then [msg] else []).

Definition _send_sms `{R : Remote} (to_number msg : string) : M bool :=
  accepted ← request;
  emit (SmsSend to_number msg accepted);;
  ret accepted.

Definition clean_phone (phone_number : string) : string :=
  replace " " "" (replace "-" "" (replace "+1" "" phone_number)).

Definition _find_lead_by_phone `{R : Remote} (phone_number : string) : M (option lead) :=
  close_sync.search_first ("phone:" +:+ clean_phone phone_number).

Definition _extract_lead_data : lead -> result lead_data :=
  email_reply_handler._extract_lead_data.

(** [_get_sms_history]: the placeholder of the source. *)
Definition _get_sms_history (lead_id : string) : list message := [].

Definition unknown_number_reply : string :=
  "Hi! Thanks for texting Hume. I don't have you in our system yet. " +:+
  "Could you share your name and company? Or book a call: https://calendly.com/josh-myhumehealth".

Definition holding_reply (lead_name : string) : string :=
  "Hi " +:+ lead_name +:+
  ", great question! Josh will text you back within the hour to discuss this personally.".

Definition booking_reply (suggested : string) : string :=
  suggested +:+ String (ascii_of_nat 10) (String (ascii_of_nat 10)
    "Book here: https://calendly.com/josh-myhumehealth").

Definition default_reply : string :=
  "Thanks for reaching out! I'm Josh's AI assistant. How can I help? (Or book a call: https://calendly.com/josh-myhumehealth)".

Definition _handle_sms_analysis `{R : Remote}
    (l : lead) (ld : lead_data) (analysis : classification)
    (history : list message) : M string :=
  if should_escalate analysis then
    (* Escalate but send helpful holding response *)
    slack_bot.send_notification (SmsEscalation (escalation_reason analysis)) (Some ld);;
    lead_name ← email_engine.item "name" (name ld);
    ret (holding_reply lead_name)
  else if String.eqb (next_action analysis) "book_call" then
    ret (booking_reply (suggested_response analysis))
  else if String.eqb (next_action analysis) "send_response" then
    let response := suggested_response analysis in
    ret (if (300 <? String.length response)%nat
         then take_str 297 response +:+ "..."
         else response)
  else ret default_reply.

Definition handle_inbound_sms `{D : DatetimeLib} `{R : Remote}
    (payload : inbound_sms) : M twiml :=
  let from_number := default "" (From payload) in
  let message_body := default "" (Body payload) in
  let from_city := default "" (FromCity payload) in
  let from_state := default "" (FromState payload) in
  (* Find lead by phone number in Close *)
  found ← _find_lead_by_phone from_number;
  match found with
  | None =>
      slack_bot.send_notification
        (SmsFromUnknownNumber from_number from_city from_state message_body) None;;
      ret (_create_twiml_response unknown_number_reply)
  | Some l =>
      ld ← lift (_extract_lead_data l);
      let lead_id := l_id l in
      let conversation_history := _get_sms_history lead_id in
      let analysis := analyze_message message_body ld conversation_history in
      close_sync._log_activity lead_id ("Inbound SMS: " +:+ message_body);;
      (if String.eqb (custom_get (custom ld) "agent_state" "") "NURTURING"
       then close_sync.update_lead_state lead_id "ENGAGED"
       else pass);;
      response_text ← _handle_sms_analysis l ld analysis conversation_history;
      _send_sms from_number response_text;;
      close_sync._log_activity lead_id ("Outbound SMS: " +:+ response_text);;
      lead_name ← email_engine.item "name" (name ld);
      slack_bot.send_notification
        (SmsConversation lead_name (intent analysis) (take_str 100 response_text))
        (Some ld);;
      ret (_create_twiml_response "")
  end.

End sms_handler.

(** ** vapi_handler.py: the call-ended webhook *)

Module vapi_handler.

(** The call-ended webhook payload. *)
Record call_ended : Type := mk_call_ended {
  call_id : option string;
  transcript : option string;
  duration : option Z;
  endedReason : option string;
  customer_number : option string;       (* payload["customer"]["number"] *)
  recordingUrl : option string
}.

(** The outcome dict of [_analyze_call_outcome]. *)
Record call_outcome : Type := mk_call_outcome {
  o_intent : string;
  booked_call : bool;
  not_interested : bool;
  summary : string
}.

Inductive call_status : Type :=
| Processed (outcome : call_outcome)
| NoLeadFound.

Definition _analyze_call_outcome (transcript_ : string) : call_outcome :=
  if contains "calendar" (lower transcript_) || contains "book" (lower transcript_)
  then mk_call_outcome "booking_interested" true false
         "Lead interested in booking a call"
  else if contains "not interested" (lower transcript_)
          || contains "no thanks" (lower transcript_)
  then mk_call_outcome "not_interested" false true "Lead not interested"
  else mk_call_outcome "needs_follow_up" false false "Lead needs more nurturing".

Definition _find_lead_by_phone `{R : Remote} (phone_number : string) : M (option lead) :=
  close_sync.search_first ("phone:" +:+ sms_handler.clean_phone phone_number).

Definition handle_call_ended `{D : DatetimeLib} `{R : Remote}
    (payload : call_ended) : M call_status :=
  let transcript_ := default "" (transcript payload) in
  let duration_ := default 0 (duration payload) in
  let phone_ := default "" (customer_number payload) in
  if truthy phone_ then
    (* Find lead in Close *)
    found ← _find_lead_by_phone phone_;
    match found with
    | Some l =>
        let lead_id := l_id l in
        let outcome := _analyze_call_outcome transcript_ in
        close_sync._log_activity lead_id ("AI Call Completed: " +:+ o_intent outcome);;
        (* Update lead state based on outcome *)
        (if booked_call outcome
         then close_sync.update_lead_state lead_id "CALL_BOOKED"
         else if not_interested outcome
         then close_sync.update_lead_state lead_id "CLOSED_LOST"
         else pass);;
        slack_bot.send_notification
          (AiCallCompleted duration_ (summary outcome) (take_str 200 transcript_))
          None;;
        ret (Processed outcome)
    | None => ret NoLeadFound
    end
  else ret NoLeadFound.

End vapi_handler.

(** ** classifier.py: the rule-based classifier *)

Module classifier.

(** One Typeform answer. *)
Record answer : Type := mk_answer {
  field_title : option string;           (* answer["field"]["title"] *)
  a_text : option string;
  a_email : option string;
  a_phone_number : option string;
  a_choice_label : option string         (* answer["choice"]["label"] *)
}.

Record typeform_payload : Type := mk_typeform_payload {
  form_id : option string;
  answers : option (list answer)
}.

(** The classified-lead dict. *)
Record classified_lead : Type := mk_classified_lead {
  cl_leadType : string;
  cl_intent : string;
  cl_priority : string;
  cl_industry : string;
  cl_company : string;
  cl_goals : string;
  cl_email : string;
  cl_name : string;
  cl_phone : string
}.

(** [answer.get("text") or answer.get("email") or
     answer.get("phone_number") or answer.get("choice", {}).get("label", "")] *)
Definition answer_value (a : answer) : string :=
  if truthy_opt (a_text a) then default "" (a_text a)
  else if truthy_opt (a_email a) then default "" (a_email a)
  else if truthy_opt (a_phone_number a) then default "" (a_phone_number a)
  else default "" (a_choice_label a).

Definition extract_step (extracted : gmap string string) (a : answer)
    : gmap string string :=
  let title := lower (default "" (field_title a)) in
  let value := answer_value a in
  if contains "email" title then <["email" := value]> extracted
  else if contains "name" title then <["name" := value]> extracted
  else if contains "phone" title then <["phone" := value]> extracted
  else if contains "company" title || contains "organization" title
  then <["company" := value]> extracted
  else if contains "industry" title then <["industry" := value]> extracted
  else if contains "goal" title || contains "looking for" title
  then <["goals" := value]> extracted
  else extracted.

Definition _extract_answers (l : list answer) : gmap string string :=
  fold_left extract_step l ∅.

(** The number of priority signals counted by [_calculate_priority]. *)
Definition priority_signals (extracted : gmap string string)
    (is_wholesale : bool) : Z :=
  (if is_wholesale then 2 else 0)
  + (if truthy_opt (extracted !! "phone") then 1 else 0)
  + (if truthy_opt (extracted !! "company")
        && negb (String.eqb (default "" (extracted !! "company")) "Unknown")
     then 1 else 0)
  + (if truthy_opt (extracted !! "goals")
        && (20 <? String.length (default "" (extracted !! "goals")))%nat
     then 1 else 0).

Definition _calculate_priority (extracted : gmap string string)
    (is_wholesale : bool) : string :=
  let signals := priority_signals extracted is_wholesale in
  if signals >=? 4 then "high"
  else if signals >=? 2 then "medium"
  else "low".

Definition _classify_hume_connect (payload : typeform_payload) : classified_lead :=
  let extracted := _extract_answers (default [] (answers payload)) in
  {| cl_leadType := "hume_connect";
     cl_intent := "body_composition_tracking";
     cl_priority := _calculate_priority extracted false;
     cl_industry := default "healthcare" (extracted !! "industry");
     cl_company := default "Unknown" (extracted !! "company");
     cl_goals := default "Patient monitoring" (extracted !! "goals");
     cl_email := default "" (extracted !! "email");
     cl_name := default "" (extracted !! "name");
     cl_phone := default "" (extracted !! "phone") |}.

Definition _classify_wholesale (payload : typeform_payload) : classified_lead :=
  let extracted := _extract_answers (default [] (answers payload)) in
  {| cl_leadType := "wholesale";
     cl_intent := "bulk_purchase";
     cl_priority := _calculate_priority extracted true;
     cl_industry := default "fitness" (extracted !! "industry");
     cl_company := default "Unknown" (extracted !! "company");
     cl_goals := default "Bulk equipment purchase" (extracted !! "goals");
     cl_email := default "" (extracted !! "email");
     cl_name := default "" (extracted !! "name");
     cl_phone := default "" (extracted !! "phone") |}.

(** [classify]: the two form ids and the LLM fallback are the
    classifier's configuration. *)
Definition classify (hc_form_id hw_form_id : string)
    (_classify_with_llm : typeform_payload -> result classified_lead)
    (payload : typeform_payload) : result classified_lead :=
  let fid := default "" (form_id payload) in
  if String.eqb fid hc_form_id then Ok (_classify_hume_connect payload)
  else if String.eqb fid hw_form_id then Ok (_classify_wholesale payload)
  else _classify_with_llm payload.

End classifier.

(** ** close_sync.py: creating and updating leads *)

(** The CRM names the leads it creates. *)
Class CloseServer : Type := {
  new_lead_id : gmap string lead -> string
}.

Module CloseClient.
Import classifier.

(** The dict handed to the CRM client and to the e-mail engine by
    [process_typeform_submission] is the classifier's result; this is that
    dict seen through the keys its readers use. *)
Definition as_lead_data (ld : classified_lead) : lead_data :=
  {| leadType := Some (cl_leadType ld); name := Some (cl_name ld);
     email := Some (cl_email ld); phone := Some (cl_phone ld);
     company := Some (cl_company ld); industry := Some (cl_industry ld);
     goals := Some (cl_goals ld); priority := Some (cl_priority ld);
     custom := None |}.

Definition external_query (external_id : string) : string :=
  "custom.external_id:" +:+ dquote +:+ external_id +:+ dquote.

Definition _find_lead_by_external_id `{R : Remote} (external_id : string)
    : M (option lead) :=
  close_sync.search_first (external_query external_id).

(** The payload of [_create_lead]. The classifier's dict has the keys
    [company], [leadType], [priority], [industry] and [goals] and no key
    [form_id]. *)
Definition create_payload (ld : classified_lead) (external_id : string)
    : list (string * string) :=
  [("name", cl_company ld);
   ("custom.external_id", external_id);
   ("custom.lead_type", cl_leadType ld);
   ("custom.priority", cl_priority ld);
   ("custom.agent_state", "NEW");
   ("custom.industry", cl_industry ld);
   ("custom.goals", cl_goals ld);
   ("status_id", close_sync._get_status_id "New Lead");
   ("custom.source", "typeform");
   ("custom.form_id", "");
   ("custom.booked", "no");
   ("custom.last_email_sent", "");
   ("custom.email_sequence_step", "0")].

(** [requests.post(f"{base_url}/lead/", json=payload)]: the created lead
    on status 200. A new lead has no contact yet. *)
Definition post_lead `{R : Remote} `{S : CloseServer}
    (payload : list (string * string)) : M (option lead) :=
  w ← get_world;
  answered ← request;
  if answered : bool then
    let id := new_lead_id (crm w) in
    let l := apply_fields payload (mk_lead id (assoc "name" payload) (Some []) None) in
    set_crm (<[id := l]> (crm w));;
    emit (CloseCreate payload (Some id));;
    ret (Some l)
  else
    emit (CloseCreate payload None);;
    ret None.

(** The payload of [_create_contact]: an address or number that is
    missing or empty gives an empty list. *)
Definition contact_payload (ld : classified_lead) : contact :=
  mk_contact (Some (cl_name ld))
    (Some (if truthy (cl_email ld) then [Some (cl_email ld)] else []))
    (Some (if truthy (cl_phone ld) then [Some (cl_phone ld)] else [])).

Definition set_contacts (cs : list contact) (l : lead) : lead :=
  mk_lead (l_id l) (l_name l) (Some cs) (l_custom l).

(** [requests.post(f"{base_url}/contact/", json=payload)] *)
Definition post_contact `{R : Remote} (lead_id : string) (c : contact) : M unit :=
  w ← get_world;
  answered ← request;
  let stored := answered && bool_decide (is_Some (crm w !! lead_id)) in
  (if stored
   then set_crm (alter (fun l => set_contacts (default [] (l_contacts l) ++ [c]) l)
                   lead_id (crm w))
   else pass);;
  emit (CloseContactPost lead_id c stored).

(** [requests.put(f"{base_url}/contact/{contact_id}/", json=payload)] for
    the lead's first contact *)
Definition put_contact `{R : Remote} (lead_id : string) (c : contact) : M unit :=
  w ← get_world;
  answered ← request;
  let stored := answered && bool_decide (is_Some (crm w !! lead_id)) in
  (if stored
   then set_crm (alter (fun l => set_contacts (c :: tail (default [] (l_contacts l))) l)
                   lead_id (crm w))
   else pass);;
  emit (CloseContactPut lead_id c stored).

(** [_create_contact]: the lead's contacts are fetched; when the fetch
    succeeds and there is one, the first is updated, otherwise a contact
    is created. *)
Definition _create_contact `{R : Remote} (lead_id : string) (ld : classified_lead)
    : M unit :=
  let payload := contact_payload ld in
  w ← get_world;
  answered ← request;
  match answered, default [] (crm w !! lead_id ≫= l_contacts) with
  | true, _ :: _ => put_contact lead_id payload
  | _, _ => post_contact lead_id payload
  end.

Definition _create_lead `{R : Remote} `{S : CloseServer}
    (ld : classified_lead) (external_id : string) : M lead :=
  created ← post_lead (create_payload ld external_id);
  match created with
  | Some l =>
      (* Create contact for this lead *)
      _create_contact (l_id l) ld;;
      (* Log activity *)
      close_sync._log_activity (l_id l) "Lead created from Typeform submission";;
      ret l
  | None => raise (Exception "Failed to create lead")
  end.

Definition update_payload (ld : classified_lead) : list (string * string) :=
  [("custom.priority", cl_priority ld); ("custom.goals", cl_goals ld)].

(** [requests.put(f"{base_url}/lead/{lead_id}/", json=payload)], answering
    the JSON body of a 200 response: the lead as updated. *)
Definition put_lead_json `{R : Remote} (lead_id : string)
    (payload : list (string * string)) : M (option lead) :=
  ok ← close_sync.put_lead lead_id payload;
  w ← get_world;
  ret (if ok : bool then crm w !! lead_id else None).

Definition _update_lead `{R : Remote} (lead_id : string) (ld : classified_lead)
    : M lead :=
  updated ← put_lead_json lead_id (update_payload ld);
  match updated with
  | Some l =>
      (* Log update activity *)
      close_sync._log_activity lead_id "Lead updated from new Typeform submission";;
      ret l
  | None => raise (Exception "Failed to update lead")
  end.

Definition upsert_lead `{R : Remote} `{S : CloseServer}
    (ld : classified_lead) (typeform_id : string) : M lead :=
  let external_id := "typeform_" +:+ typeform_id in
  (* Check if lead exists *)
  existing_lead ← _find_lead_by_external_id external_id;
  match existing_lead with
  | Some l => _update_lead (l_id l) ld
  | None => _create_lead ld external_id
  end.

(** [_format_metadata] on a dict of strings, given by its items in
    insertion order: empty values and the keys [email] and [phone] are
    skipped. *)
Definition pii_key (key : string) : bool :=
  String.eqb key "email" || String.eqb key "phone".

Definition metadata_line (kv : string * string) : string :=
  "- " +:+ kv.1 +:+ ": " +:+ kv.2.

Definition _format_metadata (metadata : list (string * string)) : string :=
  join newline
    (metadata_line <$> List.filter (fun kv => truthy kv.2 && negb (pii_key kv.1)) metadata).

(** The note text posted by [_log_activity] at clock reading [now]; the
    metadata section is added for a non-empty dict. *)
Definition note_content `{D : DatetimeLib} (now : Z) (note : string)
    (metadata : list (string * string)) : string :=
  let timestamp := isoformat (utcnow now) in
  note +:+ newline +:+ newline +:+ "Timestamp: " +:+ timestamp
  +:+ match metadata with
      | [] => ""
      | _ => newline +:+ newline +:+ "Metadata:" +:+ newline
             +:+ _format_metadata metadata
      end.

End CloseClient.

(** ** agent.py: the Typeform entry point *)

Module LeadAgent.
Import classifier CloseClient.

(** The webhook payload: the part the classifier reads and the two ids
    [response_id] and [event_id]. *)
Record submission : Type := mk_submission {
  form : typeform_payload;
  response_id : option string;
  event_id : option string
}.

(** The result dict of the entry point ([status] is always [success]). *)
Record intake_result : Type := mk_intake_result {
  path : string;
  lead_id : string;
  email_sent : bool
}.

Definition _handle_booked_lead `{D : DatetimeLib} `{R : Remote}
    (lead_id : string) (ld : classified_lead) (calendly_event : booking)
    : M intake_result :=
  (* Mark as booked in Close *)
  close_sync.mark_as_booked lead_id calendly_event;;
  close_sync.update_lead_state lead_id "BOOKED";;
  (* Send asset pack *)
  email_sent ← email_engine.send_booked_asset_pack (as_lead_data ld) calendly_event;
  (if email_sent : bool
   then close_sync.update_email_tracking lead_id 0 "Booked: Asset pack sent"
   else pass);;
  (* Notify Slack *)
  slack_bot.send_notification (NewBookedLead (b_start_time calendly_event))
    (Some (as_lead_data ld));;
  ret (mk_intake_result "booked" lead_id email_sent).

Definition _handle_unbooked_lead `{D : DatetimeLib} `{R : Remote}
    (lead_id : string) (ld : classified_lead) : M intake_result :=
  (* Update state to NURTURING *)
  close_sync.update_lead_state lead_id "NURTURING";;
  (* Send first nurture email immediately *)
  email_sent ← email_engine.send_nurture_email (as_lead_data ld) 1 None;
  (if email_sent : bool
   then close_sync.update_email_tracking lead_id 1 "Nurture: Welcome email"
   else pass);;
  (* Notify Slack *)
  slack_bot.send_notification NewLeadEnteredNurture (Some (as_lead_data ld));;
  ret (mk_intake_result "nurture" lead_id email_sent).

(** [process_typeform_submission]; the classifier is given by its two
    form ids and its LLM fallback. *)
Definition process_typeform_submission `{D : DatetimeLib} `{R : Remote} `{S : CloseServer}
    (hc_form_id hw_form_id : string)
    (_classify_with_llm : typeform_payload -> result classified_lead)
    (payload : submission) : M intake_result :=
  (* 1. Classify the lead *)
  classified_lead ← lift (classify hc_form_id hw_form_id _classify_with_llm (form payload));
  (* 2. Sync to Close CRM *)
  let typeform_id := default (default "unknown" (event_id payload)) (response_id payload) in
  close_lead ← upsert_lead classified_lead typeform_id;
  let lead_id := l_id close_lead in
  (* 3. Check for Calendly booking *)
  let email := cl_email classified_lead in
  calendly_booking ←
    (if truthy email then lift (check_booking email) else ret None);
  (* 4. Route based on booking status *)
  match calendly_booking with
  | Some b => _handle_booked_lead lead_id classified_lead b
  | None => _handle_unbooked_lead lead_id classified_lead
  end.

End LeadAgent.

(** ** calendly_check.py *)

(** What the scheduling service holds: the account's URI, its scheduled
    events from a start time on, and the invitees of an event (by the last
    segment of its URI). *)
Module calendly_check.

(** An invitee object; [email] is read with [get]. *)
Record invitee : Type := mk_invitee {
  i_uri : string;
  i_email : option string;
  i_name : string
}.

(** A scheduled event; [location] is [event.get("location", {}).get("location")]. *)
Record scheduled_event : Type := mk_scheduled_event {
  e_uri : string;
  e_name : string;
  e_start_time : string;
  e_end_time : string;
  e_status : string;
  e_location : option string
}.

Class Calendly : Type := {
  user_uri : string;
  scheduled_events : string -> string -> list scheduled_event;
  event_invitees : string -> list invitee
}.

(** The dict returned by [check_booking]. *)
Record calendly_booking : Type := mk_calendly_booking {
  uri : string;
  event_name : string;
  start_time : string;
  end_time : string;
  status : string;
  location : string;
  invitee_uri : string;
  invitee_email : string;
  invitee_name : string
}.

(** The entries of [get_upcoming_calls]. *)
Record upcoming_call : Type := mk_upcoming_call {
  u_name : string;
  u_start_time : string;
  u_end_time : string;
  u_status : string
}.

Definition _get_user_uri `{R : Remote} `{C : Calendly} : M (option string) :=
  answered ← request;
  ret (if answered : bool then Some user_uri else None).

Definition _get_scheduled_events `{D : DatetimeLib} `{R : Remote} `{C : Calendly}
    (user : string) (since_date : datetime) : M (list scheduled_event) :=
  answered ← request;
  ret (if answered : bool
       then scheduled_events user (isoformat since_date +:+ "Z")
       else []).

(** [event_uri.split('/')[-1]] *)
Definition last_segment (event_uri : string) : string :=
  List.last (split_on "/" event_uri) "".

Definition _get_event_invitees `{R : Remote} `{C : Calendly} (event_uri : string)
    : M (list invitee) :=
  answered ← request;
  ret (if answered : bool then event_invitees (last_segment event_uri) else []).

(** [invitee.get("email", "").lower() == email.lower()] *)
Definition matches (email : string) (i : invitee) : bool :=
  String.eqb (lower (default "" (i_email i))) (lower email).

(** The loops of [check_booking]: the first invitee of the first event
    that matches ends the search. *)
Fixpoint scan_events `{R : Remote} `{C : Calendly} (email : string)
    (events : list scheduled_event) : M (option calendly_booking) :=
  match events with
  | [] => ret None
  | event :: rest =>
      invitees ← _get_event_invitees (e_uri event);
      match List.find (matches email) invitees with
      | Some i =>
          addr ← email_engine.item "email" (i_email i);
          ret (Some {| uri := e_uri event; event_name := e_name event;
                       start_time := e_start_time event;
                       end_time := e_end_time event; status := e_status event;
                       location := default "Not specified" (e_location event);
                       invitee_uri := i_uri i; invitee_email := addr;
                       invitee_name := i_name i |})
      | None => scan_events email rest
      end
  end.

Definition check_booking `{D : DatetimeLib} `{R : Remote} `{C : Calendly}
    (email : string) (since_date : option datetime) : M (option calendly_booking) :=
  w ← get_world;
  since ← match since_date with
          | Some d => ret d
          | None => lift (add_days (utcnow (clock w)) (-1))
          end;
  (* Get user URI first *)
  user ← _get_user_uri;
  if truthy_opt user then
    (* Get scheduled events *)
    events ← _get_scheduled_events (default "" user) since;
    (* Check if any event has an invitee with this email *)
    scan_events email events
  else raise (Exception "Could not fetch Calendly user URI").

(** The loops of [get_upcoming_calls]: every matching invitee adds an entry. *)
Fixpoint collect_calls `{R : Remote} `{C : Calendly} (email : string)
    (events : list scheduled_event) : M (list upcoming_call) :=
  match events with
  | [] => ret []
  | event :: rest =>
      invitees ← _get_event_invitees (e_uri event);
      more ← collect_calls email rest;
      ret (((fun _ => mk_upcoming_call (e_name event) (e_start_time event)
                        (e_end_time event) (e_status event))
              <$> List.filter (matches email) invitees)
           ++ more)
  end.

Definition get_upcoming_calls `{D : DatetimeLib} `{R : Remote} `{C : Calendly}
    (email : string) : M (list upcoming_call) :=
  user ← _get_user_uri;
  if truthy_opt user then
    w ← get_world;
    events ← _get_scheduled_events (default "" user) (utcnow (clock w));
    collect_calls email events
  else ret [].

End calendly_check.

(** ** conversation_intelligence.py: the history given to the model *)

Module ConversationIntelligence.

Definition format_message (msg : message) : string :=
  "[" +:+ default "" (m_timestamp msg) +:+ "] "
  +:+ default "unknown" (m_sender msg) +:+ ": " +:+ default "" (m_text msg).

Definition _format_history (history : list message) : string :=
  match history with
  | [] => "No previous conversation"
  | _ => join newline (format_message <$> last_n 10 history)
  end.

End ConversationIntelligence.

(** ** email_reply_handler.py: the HTML of an AI response *)

Module EmailReplyHandler.

(** [_format_for_email]: one paragraph per line that is not blank. *)
Definition _format_for_email (text : string) : string :=
  join ""
    ((fun p => "<p>" +:+ p +:+ "</p>")
       <$> List.filter (fun p => truthy (strip p)) (split_on (ascii_of_nat 10) text)).

End EmailReplyHandler.

(** ** The offset table as the specification words it *)

(** Day offsets of steps 1..8, indexed by step. *)
Definition offset_table : list Z := [0; 3; 7; 10; 14; 17; 21; 28].

Definition offset (step : Z) : Z := nth (Z.to_nat (step - 1)) offset_table 0.

(** A last-sent timestamp as the agent records it: the stored text is not
    empty and parses to a naive datetime within [datetime.min .. max]. *)
Definition recorded_last_sent `{D : DatetimeLib} (ld : lead_data) (last_sent : datetime) : Prop :=
  custom_get (custom ld) "last_email_sent" "" ≠ ""
  ∧ fromisoformat (custom_get (custom ld) "last_email_sent" "") = Some last_sent
  ∧ naive last_sent
  ∧ in_range (us last_sent) = true.

(** The lifecycle state and the sequence cursor stored for a lead. *)
Definition agent_state_of (w : world) (lead_id : string) : string :=
  custom_get (crm w !! lead_id ≫= l_custom) "agent_state" "".

Definition cursor_of (w : world) (lead_id : string) : string :=
  custom_get (crm w !! lead_id ≫= l_custom) "email_sequence_step" "0".

(** The events emitted between world [w] and a later world [w']. *)
Definition new_events (w w' : world) : list event :=
  take (length (trace w') - length (trace w)) (trace w').

Definition is_email_send (e : event) : bool :=
  match e with EmailSend _ _ _ _ _ => true | _ => false end.

Definition is_close_put (e : event) : bool :=
  match e with ClosePut _ _ _ => true | _ => false end.

Definition is_close_note (e : event) : bool :=
  match e with CloseNote _ _ _ => true | _ => false end.

(** The world after the completion branch of the sweep for lead [l] in
    world [v], when the state write and the post of its note succeed. *)
Definition completed `{D : DatetimeLib} (ld : lead_data) (l : lead) (v : world) : world :=
  mk_world (clock v)
    (alter (apply_fields (close_sync.state_payload (clock v) "SEQUENCE_COMPLETE"))
       (l_id l) (crm v))
    (CloseNote (l_id l) "Agent state changed to: SEQUENCE_COMPLETE" true
     :: ClosePut (l_id l) (close_sync.state_payload (clock v) "SEQUENCE_COMPLETE") true
     :: SlackPost LeadCompletedSequence (Some ld)
     :: trace v)
    (S (S (tick v))).

(** What processing lead [l] does at clock reading [now], in any world
    holding the lead: nothing at all, or, the stored cursor being 8, the
    completion of the sequence. *)
Definition quiet_or_completes `{D : DatetimeLib} `{R : Remote} (now : Z) (l : lead) : Prop :=
  ∀ v : world,
    clock v = now →
    crm v !! l_id l = Some l →
    (∃ r, agent._process_nurturing_lead l v = (v, r))
    ∨ (int (custom_get (l_custom l) "email_sequence_step" "0") = Ok 8
       ∧ ∃ ld, agent._process_nurturing_lead l v
               = (completed ld l v, Ok (agent.mk_lead_result false false true))).

(** ** What a computation may do to the outside *)

(** Every run of [m] leaves the clock alone, only appends events, all of
    them allowed by [P], creates and deletes no lead, and changes no lead
    other than those named by [ids]. *)
Definition footprint {A} (P : event → Prop) (ids : string → Prop) (m : M A) : Prop :=
  ∀ w, ∃ es,
    trace (m w).1 = es ++ trace w
    ∧ Forall P es
    ∧ clock (m w).1 = clock w
    ∧ dom (crm (m w).1) = dom (crm w)
    ∧ ∀ id, ¬ ids id → crm (m w).1 !! id = crm w !! id.

(** Every value [m] returns satisfies [Q]. *)
Definition returns {A} (Q : A → Prop) (m : M A) : Prop :=
  ∀ w a, (m w).2 = Ok a → Q a.

(** Events within a scope: notifications allowed by [slack], e-mails to
    addresses allowed by [mail], texts to numbers allowed by [sms], writes
    and notes on the leads named by [ids]; no lead or contact is created
    and no call is placed. *)
Definition scoped (ids : string → Prop) (slack : notice → Prop)
    (mail sms : string → Prop) (e : event) : Prop :=
  match e with
  | SlackPost n _ => slack n
  | EmailSend to_email _ _ _ _ => mail to_email
  | SmsSend to_number _ _ => sms to_number
  | ClosePut id _ _ | CloseNote id _ _ => ids id
  | _ => False
  end.

(** The address the sweep and the routers write to: the first address of
    the lead's first contact, or the empty string. *)
Definition first_address (l : lead) : string :=
  match agent._get_lead_email l with
  | Ok (Some addr) => addr
  | _ => ""
  end.

(** The notifications of the per-lead step of the sweep. *)
Definition nurture_notice (n : notice) : Prop :=
  n = LeadCompletedSequence ∨ n = MilestoneEmail4 ∨ n = LeadConvertedToBooked.

(** The notifications of the sweep's loop. *)
Definition sweep_notice (n : notice) : Prop :=
  nurture_notice n
  ∨ (∃ e, n = ErrorProcessingLead e)
  ∨ (∃ p s b x, n = ScheduledRunComplete p s b x).

Definition is_sms_send (e : event) : bool :=
  match e with SmsSend _ _ _ => true | _ => false end.

Definition is_error_notice (e : event) : bool :=
  match e with SlackPost (ErrorProcessingLead _) _ => true | _ => false end.

(** The number of flags set in a per-lead result. *)
Definition flags (r : agent.lead_result) : Z :=
  agent.count (agent.email_sent r) + agent.count (agent.booking_detected r)
  + agent.count (agent.escalated r).

(** ** Examples: leads and clock readings used below *)

Module examples.

(** 2024-03-01T09:00:00 *)
Definition t_mar01 : Z := 63844880400000000.

(** 2024-03-04T09:00:00, three days later *)
Definition t_mar04 : Z := t_mar01 + 3 * us_per_day.

Definition custom_of (step stamp state : string) : gmap string string :=
  <["email_sequence_step" := step]>
    (<["last_email_sent" := stamp]> (<["agent_state" := state]> ∅)).

Definition lead_data_of (c : gmap string string) : lead_data :=
  {| leadType := Some "unknown"; name := Some "Ada";
     email := Some "ada@example.com"; phone := Some "5551234567";
     company := Some "Acme"; industry := Some ""; goals := Some "";
     priority := Some "medium"; custom := Some c |}.

(** A lead whose welcome e-mail went out on 2024-03-01T09:00:00. *)
Definition ld_step1 : lead_data :=
  lead_data_of (custom_of "1" "2024-03-01T09:00:00" "NURTURING").

(** A lead whose eighth e-mail went out on 2024-03-01T09:00:00. *)
Definition ld_step8 : lead_data :=
  lead_data_of (custom_of "8" "2024-03-01T09:00:00" "NURTURING").

(** A booked, high-priority wholesale lead after two e-mails. *)
Definition booked_wholesale : lead_data :=
  {| leadType := Some "wholesale"; name := Some "Ada";
     email := Some "ada@example.com"; phone := Some "5551234567";
     company := Some "Acme"; industry := Some "fitness"; goals := Some "";
     priority := Some "high";
     custom := Some (<["booked" := "yes"]> (<["email_sequence_step" := "2"]> ∅)) |}.

(** A booked lead that has received no e-mail and asks about pricing. *)
Definition booked_asking_price : lead_data :=
  {| leadType := Some "hume_connect"; name := Some "Ada";
     email := Some "ada@example.com"; phone := Some "5551234567";
     company := Some "Acme"; industry := Some ""; goals := Some "";
     priority := Some "medium";
     custom := Some (<["booked" := "yes"]> (<["email_sequence_step" := "0"]> ∅)) |}.

Definition pricing_question : list message :=
  [mk_message (Some "Lead") (Some "What is the pricing for ten units?") None].

(** A small CRM search: a lead matches [email:"a"] when [a] is one of
    its contacts' addresses, and [phone:p] when [p] is one of its contacts'
    numbers in cleaned form. *)
Definition lead_matches (q : string) (l : lead) : bool :=
  existsb
    (fun c =>
       existsb (fun e => String.eqb q ("email:" +:+ dquote +:+ default "" e +:+ dquote))
         (default [] (c_emails c))
       || existsb (fun p => String.eqb q ("phone:" +:+ sms_handler.clean_phone (default "" p)))
            (default [] (c_phones c)))
    (default [] (l_contacts l)).

Definition crm_search (c : gmap string lead) (q : string) : list lead :=
  List.filter (lead_matches q) ((map_to_list c).*2).

(** External services: requests answered as [ok] says, the booking
    oracle's answer [found], and the analyzer's answer [a]. *)
Definition remote_of (ok : nat → bool) (found : option booking)
    (a : classification) : Remote :=
  {| http_ok := ok;
     close_search := crm_search;
     check_booking := fun _ => Ok found;
     analyze_message := fun _ _ _ => a;
     generate_report := fun _ _ => Ok "<p>report</p>" |}.

Definition always_ok (n : nat) : bool := true.

(** Every request succeeds except the one numbered [k]. *)
Definition all_but (k n : nat) : bool := negb (n =? k)%nat.

(** An analysis that asks for escalation and for a booking at once. *)
Definition escalate_and_book : classification :=
  {| intent := "pricing_question"; sentiment := "interested";
     qualification_level := "qualified"; key_concerns := ["enterprise pricing"];
     should_escalate := true; escalation_reason := Some "Enterprise deal";
     suggested_response := "Happy to help."; should_book_call := true;
     next_action := "book_call"; subject := None |}.

Definition ada_contact : contact :=
  mk_contact (Some "Ada") (Some [Some "ada@example.com"]) (Some [Some "5551234567"]).

(** A contact created for a submission without a phone number. *)
Definition bob_contact : contact :=
  mk_contact (Some "Bob") (Some [Some "bob@example.com"]) (Some []).

Definition ada (step stamp state : string) : lead :=
  mk_lead "lead_1" (Some "Acme") (Some [ada_contact]) (Some (custom_of step stamp state)).

Definition bob (step stamp state : string) : lead :=
  mk_lead "lead_2" (Some "Bolt") (Some [bob_contact]) (Some (custom_of step stamp state)).

(** A lead whose contact could not be created: its contact list is empty. *)
Definition carol (step stamp state : string) : lead :=
  mk_lead "lead_3" (Some "Crane") (Some []) (Some (custom_of step stamp state)).

(** A CRM holding the single lead [l], read at clock [now]. *)
Definition world_of (now : Z) (l : lead) : world :=
  mk_world now {[ l_id l := l ]} [] 0.

Definition inconclusive_call : vapi_handler.call_ended :=
  vapi_handler.mk_call_ended (Some "call_1")
    (Some "Maybe later, I need to think it over.") (Some 95)
    (Some "customer-ended-call") (Some "+1 555-123-4567") None.

Definition sms_from (number body : string) : sms_handler.inbound_sms :=
  sms_handler.mk_inbound_sms (Some number) (Some body) (Some "Austin") (Some "TX").

End examples.

(** ** Vocabulary of the properties of lookups, formatting and intake *)

Fixpoint string_forall (p : ascii → bool) (s : string) : bool :=
  match s with
  | EmptyString => true
  | String c r => p c && string_forall p r
  end.

Fixpoint string_filter (p : ascii → bool) (s : string) : string :=
  match s with
  | EmptyString => EmptyString
  | String c r => if p c then String c (string_filter p r) else string_filter p r
  end.

(** The characters of a phone number as people write it: digits, dashes
    and spaces. *)
Definition phone_char (c : ascii) : bool :=
  is_digit c || Ascii.eqb c "-" || Ascii.eqb c " ".

(** Two metadata dicts with the same keys in the same order that agree on
    every value except those of [email] and [phone]. *)
Definition same_but_pii (a b : list (string * string)) : Prop :=
  Forall2 (fun x y => x.1 = y.1 ∧ (CloseClient.pii_key x.1 = false → x.2 = y.2)) a b.

(** The key an answer is filed under: the first of the title tests of
    [_extract_answers] that succeeds. *)
Definition field_key (a : classifier.answer) : option string :=
  let title := lower (default "" (classifier.field_title a)) in
  if contains "email" title then Some "email"
  else if contains "name" title then Some "name"
  else if contains "phone" title then Some "phone"
  else if contains "company" title || contains "organization" title then Some "company"
  else if contains "industry" title then Some "industry"
  else if contains "goal" title || contains "looking for" title then Some "goals"
  else None.

(** What processing lead [l] may emit: its three notifications, e-mails to
    the lead's first address, writes and notes on the lead itself. *)
Definition lead_scope (l : lead) : event → Prop :=
  scoped (eq (l_id l)) nurture_notice (eq (first_address l)) (fun _ => False).

(** What a sweep over [leads] may emit. *)
Definition sweep_scope (leads : list lead) : event → Prop :=
  scoped (fun id => id ∈ l_id <$> leads) sweep_notice
    (fun addr => addr ∈ first_address <$> leads) (fun _ => False).

(** A custom field as the CRM stores it for a lead. *)
Definition stored_custom (w : world) (lead_id key dflt : string) : string :=
  custom_get (crm w !! lead_id ≫= l_custom) key dflt.

(** Events that reach a person: e-mails, texts, calls and operator
    notifications. *)
Definition is_outreach (e : event) : bool :=
  match e with
  | EmailSend _ _ _ _ _ | SmsSend _ _ _ | SlackPost _ _ | VapiCall _ _ _ _ => true
  | _ => false
  end.

(** Events in which nobody is contacted before the state of lead
    [lead_id] is written: no outreach at all, or an applied write of
    [state] with every outreach event after it (the newest event comes
    first). *)
Definition after_state_write (lead_id state : string) (es : list event) : Prop :=
  List.filter is_outreach es = []
  ∨ ∃ fields newer older,
      es = newer ++ ClosePut lead_id fields true :: older
      ∧ assoc "custom.agent_state" fields = Some state
      ∧ List.filter is_outreach older = [].

(** The id under which a submission is filed:
    [payload.get("response_id", payload.get("event_id", "unknown"))]. *)
Definition typeform_id (s : LeadAgent.submission) : string :=
  default (default "unknown" (LeadAgent.event_id s)) (LeadAgent.response_id s).

(** The lead the CRM creates for a classified submission, and the same
    lead once its contact has been added. *)
Definition created_lead `{S : CloseServer} (c : classifier.classified_lead)
    (external_id : string) (w : world) : lead :=
  apply_fields (CloseClient.create_payload c external_id)
    (mk_lead (new_lead_id (crm w)) (Some (classifier.cl_company c)) (Some []) None).

Definition with_contact `{S : CloseServer} (c : classifier.classified_lead)
    (external_id : string) (w : world) : lead :=
  CloseClient.set_contacts [CloseClient.contact_payload c] (created_lead c external_id w).

(** A lead after the nurture path of the intake at clock reading [now]. *)
Definition nurtured `{D : DatetimeLib} (now : Z) (l : lead) : lead :=
  apply_fields (close_sync.tracking_payload now 1 "Nurture: Welcome email")
    (apply_fields (close_sync.state_payload now "NURTURING") l).

(** A lead after the booked path of the intake at clock reading [now]. *)
Definition booked `{D : DatetimeLib} (now : Z) (b : booking) (l : lead) : lead :=
  apply_fields (close_sync.tracking_payload now 0 "Booked: Asset pack sent")
    (apply_fields (close_sync.state_payload now "BOOKED")
       (apply_fields
          [("custom.booked", "yes");
           ("custom.calendly_event_uri", b_uri b);
           ("custom.call_scheduled_at", b_start_time b);
           ("status_id", close_sync._get_status_id "Qualified")] l)).

(** ** Examples: a submission, the services and a calendar used below *)

Module samples.
Import classifier.

(** A lead whose last-sent timestamp carries a UTC offset. *)
Definition utc_stamped : lead :=
  examples.ada "2" "2024-03-01T09:00:00+00:00" "NURTURING".

(** An analysis that asks for a plain answer. *)
Definition plain_answer : classification :=
  {| intent := "general_question"; sentiment := "neutral";
     qualification_level := "unknown"; key_concerns := [];
     should_escalate := false; escalation_reason := None;
     suggested_response := "Thanks for reaching out!"; should_book_call := false;
     next_action := "send_response"; subject := None |}.

(** A call-ended webhook without a customer number. *)
Definition anonymous_call : vapi_handler.call_ended :=
  vapi_handler.mk_call_ended (Some "call_2") (Some "Hello?") (Some 5)
    (Some "customer-ended-call") None None.

(** A call in which the lead asks for a booking. *)
Definition booking_call : vapi_handler.call_ended :=
  vapi_handler.mk_call_ended (Some "call_3")
    (Some "Yes, please book me in for Tuesday.") (Some 120)
    (Some "customer-ended-call") (Some "+1 555-123-4567") None.

(** The CRM names every new lead [lead_new]. *)
Definition one_new_lead : CloseServer := {| new_lead_id := fun _ => "lead_new" |}.

(** A CRM search that also answers queries on [custom.external_id]. *)
Definition search_by_external_id (c : gmap string lead) (q : string) : list lead :=
  List.filter
    (fun l => examples.lead_matches q l
              || String.eqb q
                   (CloseClient.external_query (custom_get (l_custom l) "external_id" "")))
    ((map_to_list c).*2).

Definition remote_of (ok : nat → bool) (found : option booking) : Remote :=
  {| http_ok := ok;
     close_search := search_by_external_id;
     check_booking := fun _ => Ok found;
     analyze_message := fun _ _ _ => plain_answer;
     generate_report := fun _ _ => Ok "<p>report</p>" |}.

Definition hc_form : string := "hc_form".
Definition hw_form : string := "hw_form".

(** No model is configured for unknown forms. *)
Definition no_llm (payload : typeform_payload) : result classified_lead :=
  Raise (Exception "no model").

Definition question (title answer_text : string) : answer :=
  mk_answer (Some title) (Some answer_text) None None None.

(** A wholesale submission with every field filled in. *)
Definition grace : LeadAgent.submission :=
  LeadAgent.mk_submission
    (mk_typeform_payload (Some hw_form)
       (Some [question "Your name" "Grace";
              mk_answer (Some "Work email") None (Some "grace@example.com") None None;
              mk_answer (Some "Phone") None None (Some "5559876543") None;
              question "Company" "Gym Co";
              question "What are your goals?" "Equip twelve new gyms this year"]))
    (Some "resp_1") None.

(** The same submission without a phone number. *)
Definition grace_without_phone : LeadAgent.submission :=
  LeadAgent.mk_submission
    (mk_typeform_payload (Some hw_form)
       (Some [question "Your name" "Grace";
              mk_answer (Some "Work email") None (Some "grace@example.com") None None;
              question "Company" "Gym Co"]))
    (Some "resp_1") None.

Definition grace_classified : classified_lead :=
  _classify_wholesale (LeadAgent.form grace).

Definition grace_without_phone_classified : classified_lead :=
  _classify_wholesale (LeadAgent.form grace_without_phone).

(** An empty CRM read at 2024-03-01T09:00:00. *)
Definition empty_world : world := mk_world examples.t_mar01 ∅ [] 0.

(** A lead stored for an earlier submission [resp_1], by now engaged. *)
Definition grace_stored : lead :=
  mk_lead "lead_7" (Some "Gym Co")
    (Some [mk_contact (Some "Grace") (Some [Some "grace@example.com"])
             (Some [Some "5559876543"])])
    (Some (<["external_id" := "typeform_resp_1"]>
             (<["agent_state" := "ENGAGED"]>
                (<["email_sequence_step" := "3"]>
                   (<["industry" := "fitness"]> (<["priority" := "low"]> ∅)))))).

Definition booking_tuesday : booking :=
  mk_booking "https://api.calendly.com/scheduled_events/E1"
    "2024-03-05T15:00:00Z" "Zoom".

(** A calendar with one event, to which Ada is invited. *)
Definition event_e1 : calendly_check.scheduled_event :=
  calendly_check.mk_scheduled_event
    "https://api.calendly.com/scheduled_events/E1" "Intro call"
    "2024-03-05T15:00:00Z" "2024-03-05T15:30:00Z" "active" (Some "Zoom").

Definition ada_invitee : calendly_check.invitee :=
  calendly_check.mk_invitee
    "https://api.calendly.com/scheduled_events/E1/invitees/I1"
    (Some "Ada@Example.com") "Ada".

Definition calendar : calendly_check.Calendly :=
  {| calendly_check.user_uri := "https://api.calendly.com/users/U1";
     calendly_check.scheduled_events := fun _ _ => [event_e1];
     calendly_check.event_invitees :=
       fun segment => if String.eqb segment "E1" then [ada_invitee] else [] |}.

Definition ada_booking : calendly_check.calendly_booking :=
  {| calendly_check.uri := "https://api.calendly.com/scheduled_events/E1";
     calendly_check.event_name := "Intro call";
     calendly_check.start_time := "2024-03-05T15:00:00Z";
     calendly_check.end_time := "2024-03-05T15:30:00Z";
     calendly_check.status := "active";
     calendly_check.location := "Zoom";
     calendly_check.invitee_uri :=
       "https://api.calendly.com/scheduled_events/E1/invitees/I1";
     calendly_check.invitee_email := "Ada@Example.com";
     calendly_check.invitee_name := "Ada" |}.

End samples.

(** * Properties *)

(** ** The cadence scheduler *)

Section scheduler.
Context `{D : DatetimeLib}.

Lemma truthy_true (s : string) : s ≠ "" → truthy s = true.
Proof.
  intros Hs. unfold truthy. destruct (String.eqb_spec s ""); [contradiction | reflexivity].
Qed.

Lemma truthy_empty : truthy "" = false.
Proof. reflexivity. Qed.

(** With a recorded timestamp the decision is the comparison of the clock
    with [last_sent] shifted by the step's delay, whatever the step. *)
Lemma should_send_recorded (now : Z) (ld : lead_data) (step : Z) (last_sent : datetime) :
  in_range now = true →
  recorded_last_sent ld last_sent →
  0 ≤ default 0 (email_engine.schedule step) →
  email_engine.should_send_email now ld step = true
  ↔ us last_sent + default 0 (email_engine.schedule step) * us_per_day ≤ now.
Proof.
  intros Hnow (Hne & Hparse & Hnaive & Hls) Hdelay.
  unfold email_engine.should_send_email.
  rewrite (truthy_true _ Hne), Hparse. cbn [negb].
  unfold email_engine.get_next_email_date, add_days.
  set (delay := default 0 (email_engine.schedule step)) in *.
  unfold in_range in *.
  apply andb_true_iff in Hnow as [Hn0 Hn1], Hls as [Hl0 Hl1].
  apply Z.leb_le in Hn0, Hn1, Hl0, Hl1.
  assert (0 ≤ delay * us_per_day) by (unfold us_per_day; lia).
  destruct (Z.leb_spec 0 (us last_sent + delay * us_per_day)); [| lia].
  destruct (Z.leb_spec (us last_sent + delay * us_per_day) max_us); cbn [andb].
  - unfold ge, utcnow. cbn [tzinfo us]. rewrite Hnaive. apply Z.leb_le.
  - split; [discriminate | lia].
Qed.

Lemma schedule_is_offset (step : Z) :
  1 ≤ step ≤ 8 → email_engine.schedule step = Some (offset step).
Proof.
  intros Hs.
  assert (step = 1 ∨ step = 2 ∨ step = 3 ∨ step = 4 ∨ step = 5
          ∨ step = 6 ∨ step = 7 ∨ step = 8) as Hc by lia.
  repeat (destruct Hc as [-> | Hc]; [reflexivity |]). subst. reflexivity.
Qed.

Lemma offset_nonneg (step : Z) : 1 ≤ step ≤ 8 → 0 ≤ offset step.
Proof.
  intros Hs.
  assert (step = 1 ∨ step = 2 ∨ step = 3 ∨ step = 4 ∨ step = 5
          ∨ step = 6 ∨ step = 7 ∨ step = 8) as Hc by lia.
  repeat (destruct Hc as [-> | Hc]; [vm_compute; discriminate |]).
  subst. vm_compute. discriminate.
Qed.

Lemma schedule_above_8 (step : Z) : 8 < step → email_engine.schedule step = None.
Proof.
  intros Hs. destruct step as [| p | p]; try lia.
  do 4 (destruct p as [p | p |]; try lia; try reflexivity).
Qed.

(** A stored timestamp that is not empty and does not parse to a naive
    datetime (it does not parse at all, or it carries a UTC offset) is
    never due: [fromisoformat] raises, or comparing the aware result with
    [utcnow()] raises, and the scheduler turns either into [False]. *)
Lemma should_send_email_aware (ld : lead_data) :
  custom_get (custom ld) "last_email_sent" "" ≠ "" →
  (∀ d, fromisoformat (custom_get (custom ld) "last_email_sent" "") = Some d →
        tzinfo d ≠ None) →
  ∀ now step, email_engine.should_send_email now ld step = false.
Proof.
  intros Hne Haware now step. unfold email_engine.should_send_email.
  rewrite (truthy_true _ Hne). cbn [negb].
  destruct (fromisoformat _) as [last_sent |] eqn:Hparse; [| reflexivity].
  specialize (Haware last_sent eq_refl).
  unfold email_engine.get_next_email_date, add_days.
  destruct (in_range _); [| reflexivity].
  unfold ge, utcnow. cbn [tzinfo us].
  destruct (tzinfo last_sent); [reflexivity | contradiction].
Qed.

(** C1, as the code has it: for a lead with sequence cursor [s] (next step
    [s+1] in 1..8) whose stored last-sent timestamp is a naive one, as the
    agent records it, the scheduler answers ready for step [s+1] if and
    only if [now >= last_sent + offset(s+1)] days, with [offset] the table
    [0,3,7,10,14,17,21,28] indexed by step 1..8 (the boundary instant
    included); when no prior send is stored, it answers ready exactly for
    step 1; and a stored timestamp that carries a UTC offset is not
    normalised: for it the scheduler answers not ready for every step at
    every clock reading. *)
Theorem should_send_email_iff_due (now : Z) (ld : lead_data) :
  (∀ (s : Z) (last_sent : datetime),
     0 ≤ s ≤ 7 →
     in_range now = true →
     recorded_last_sent ld last_sent →
     email_engine.should_send_email now ld (s + 1) = true
     ↔ us last_sent + offset (s + 1) * us_per_day ≤ now)
  ∧ (custom_get (custom ld) "last_email_sent" "" = "" →
     ∀ step : Z, email_engine.should_send_email now ld step = true ↔ step = 1)
  ∧ (∀ (last_sent : datetime) (utc_offset : Z),
       custom_get (custom ld) "last_email_sent" "" ≠ "" →
       fromisoformat (custom_get (custom ld) "last_email_sent" "") = Some last_sent →
       tzinfo last_sent = Some utc_offset →
       ∀ step : Z, email_engine.should_send_email now ld step = false).
Proof.
  split; [| split].
  - intros s last_sent Hs Hnow Hrec.
    pose proof (schedule_is_offset (s + 1) ltac:(lia)) as Hsched.
    pose proof (offset_nonneg (s + 1) ltac:(lia)) as Hoff.
    rewrite (should_send_recorded now ld (s + 1) last_sent Hnow Hrec).
    + rewrite Hsched. reflexivity.
    + rewrite Hsched. exact Hoff.
  - intros Hempty step. unfold email_engine.should_send_email.
    rewrite Hempty, truthy_empty. cbn [negb]. apply Z.eqb_eq.
  - intros last_sent utc_offset Hne Hparse Htz step.
    apply should_send_email_aware; [exact Hne |].
    intros d Hd. rewrite Hparse in Hd. injection Hd as <-.
    rewrite Htz. discriminate.
Qed.

(** C3, as the code has it: for a step above 8 the delay defaults to 0
    days, so with a recorded last-sent timestamp the scheduler answers
    ready exactly when [now >= last_sent]. *)
Theorem should_send_email_above_8 (now : Z) (ld : lead_data) (step : Z)
    (last_sent : datetime) :
  8 < step →
  in_range now = true →
  recorded_last_sent ld last_sent →
  email_engine.should_send_email now ld step = true ↔ us last_sent ≤ now.
Proof.
  intros Hstep Hnow Hrec.
  rewrite (should_send_recorded now ld step last_sent Hnow Hrec).
  - rewrite (schedule_above_8 step Hstep). cbn [default]. lia.
  - rewrite (schedule_above_8 step Hstep). cbn [default]. lia.
Qed.

End scheduler.

(** At 2024-03-04T09:00:00, exactly three days after the welcome e-mail,
    step 2 is due. *)
Lemma should_send_email_iff_due_witness :
  (0 ≤ 1 ≤ 7
   ∧ in_range examples.t_mar04 = true
   ∧ recorded_last_sent (D := iso8601) examples.ld_step1
       (mk_datetime examples.t_mar01 None))
  ∧ email_engine.should_send_email (D := iso8601)
      examples.t_mar04 examples.ld_step1 (1 + 1) = true.
Proof.
  assert (0 ≤ 1 ≤ 7) as Hs by lia.
  assert (in_range examples.t_mar04 = true) as Hnow by (vm_compute; reflexivity).
  assert (recorded_last_sent (D := iso8601) examples.ld_step1
            (mk_datetime examples.t_mar01 None)) as Hrec.
  { repeat split; vm_compute; first [reflexivity | discriminate]. }
  split; [tauto |].
  apply (proj1 (should_send_email_iff_due (D := iso8601)
                  examples.t_mar04 examples.ld_step1) 1 _ Hs Hnow Hrec).
  vm_compute. discriminate.
Defined.

(** C1, the claim as stated fails: the welcome e-mail of this lead is
    stamped 2024-03-01T09:00:00+00:00, the same instant as the naive stamp
    of the lead above; three days later step 2 is due by the offset table,
    and the scheduler answers not ready. *)
Lemma should_send_email_offset_stamp_not_due :
  let ld := examples.lead_data_of
              (examples.custom_of "1" "2024-03-01T09:00:00+00:00" "NURTURING") in
  (0 ≤ 1 ≤ 7
   ∧ in_range examples.t_mar04 = true
   ∧ fromisoformat (DatetimeLib := iso8601)
       (custom_get (custom ld) "last_email_sent" "")
     = Some (mk_datetime examples.t_mar01 (Some 0))
   ∧ examples.t_mar01 + offset (1 + 1) * us_per_day ≤ examples.t_mar04)
  ∧ email_engine.should_send_email (D := iso8601) examples.t_mar04 ld (1 + 1) = false.
Proof.
  cbv zeta. split; [| vm_compute; reflexivity].
  split; [lia |]. split; [vm_compute; reflexivity |].
  split; [vm_compute; reflexivity | vm_compute; discriminate].
Qed.

(** C3, the claim as stated fails: three days after the eighth e-mail
    the scheduler answers ready for step 9. *)
Lemma should_send_email_step9_ready :
  8 < 9
  ∧ recorded_last_sent (D := iso8601) examples.ld_step8
      (mk_datetime examples.t_mar01 None)
  ∧ email_engine.should_send_email (D := iso8601)
      examples.t_mar04 examples.ld_step8 9 = true.
Proof.
  split; [lia |]. split; [| vm_compute; reflexivity].
  repeat split; vm_compute; first [reflexivity | discriminate].
Qed.

Lemma should_send_email_above_8_witness :
  (8 < 9
   ∧ in_range examples.t_mar01 = true
   ∧ recorded_last_sent (D := iso8601) examples.ld_step8
       (mk_datetime examples.t_mar01 None))
  ∧ email_engine.should_send_email (D := iso8601)
      examples.t_mar01 examples.ld_step8 9 = true.
Proof.
  assert (8 < 9) as Hs by lia.
  assert (in_range examples.t_mar01 = true) as Hnow by (vm_compute; reflexivity).
  assert (recorded_last_sent (D := iso8601) examples.ld_step8
            (mk_datetime examples.t_mar01 None)) as Hrec.
  { repeat split; vm_compute; first [reflexivity | discriminate]. }
  split; [tauto |].
  apply (proj2 (should_send_email_above_8 (D := iso8601)
                  examples.t_mar01 examples.ld_step8 9 _ Hs Hnow Hrec)).
  vm_compute. discriminate.
Defined.

(** ** The rule-based classifier *)

Section classifier_priority.
Import classifier.

Lemma priority_signals_bound (extracted : gmap string string) :
  0 ≤ priority_signals extracted false ≤ 3.
Proof.
  unfold priority_signals.
  repeat match goal with |- context [if ?b then _ else _] => destruct b end; lia.
Qed.

(** C10: [_calculate_priority] always returns one of high, medium, low;
    without the wholesale bonus at most three signals (phone, company,
    goals longer than 20 characters) can be counted, below the threshold
    of four, so a submission classified by the hume_connect rule is never
    given priority high. *)
Theorem calculate_priority_range :
  (∀ (extracted : gmap string string) (is_wholesale : bool),
     _calculate_priority extracted is_wholesale = "high"
     ∨ _calculate_priority extracted is_wholesale = "medium"
     ∨ _calculate_priority extracted is_wholesale = "low")
  ∧ (∀ extracted : gmap string string,
       priority_signals extracted false ≤ 3
       ∧ _calculate_priority extracted false ≠ "high")
  ∧ (∀ payload : typeform_payload,
       cl_leadType (_classify_hume_connect payload) = "hume_connect"
       ∧ cl_priority (_classify_hume_connect payload) ≠ "high").
Proof.
  assert (∀ extracted, _calculate_priority extracted false ≠ "high") as Hlow.
  { intros extracted. unfold _calculate_priority.
    pose proof (priority_signals_bound extracted) as Hb.
    destruct (Z.geb_spec (priority_signals extracted false) 4); [lia |].
    destruct (priority_signals extracted false >=? 2); discriminate. }
  split; [| split].
  - intros extracted w. unfold _calculate_priority.
    destruct (_ >=? 4); [tauto |]. destruct (_ >=? 2); tauto.
  - intros extracted. split; [apply priority_signals_bound | apply Hlow].
  - intros payload. split; [reflexivity | apply Hlow].
Qed.

End classifier_priority.

(** ** The call-trigger policy *)

Section call_policy.
Import conversation_intelligence.

(** What [should_make_call] computes once the cursor has been read. *)
Lemma should_make_call_eq (lc : lead_data) (history : list message) (n : Z) :
  int (custom_get (custom lc) "email_sequence_step" "0") = Ok n →
  should_make_call lc history
  = Ok ((String.eqb (default "" (leadType lc)) "wholesale"
         && String.eqb (default "" (priority lc)) "high" && (n >=? 2))
        || ((n >=? 4) && negb (String.eqb (custom_get (custom lc) "booked" "") "yes"))
        || existsb (fun msg => any_in call_keywords (lower (default "" (m_text msg))))
             (last_n 5 history)).
Proof.
  intros Hn. unfold should_make_call. rewrite Hn.
  destruct (_ && _ && (n >=? 2)); [reflexivity |].
  destruct ((n >=? 4) && _); reflexivity.
Qed.

(** C8 at the failing input: a booked high-priority wholesale lead at
    cursor 2, with an empty history, is declared call-eligible. *)
Lemma should_make_call_booked_wholesale :
  custom_get (custom examples.booked_wholesale) "booked" "" = "yes"
  ∧ should_make_call examples.booked_wholesale [] = Ok true.
Proof. split; vm_compute; reflexivity. Qed.

(** The keyword condition does not look at the booking either. *)
Lemma should_make_call_booked_asking_price :
  custom_get (custom examples.booked_asking_price) "booked" "" = "yes"
  ∧ should_make_call examples.booked_asking_price examples.pricing_question = Ok true.
Proof. split; vm_compute; reflexivity. Qed.

End call_policy.

(** ** The fallback call-outcome classifier *)

Section call_outcome.
Import vapi_handler.

(** The fallback classifier yields exactly one of the three outcomes, with
    the two flags set accordingly. *)
Lemma analyze_call_outcome_total (t : string) :
  (o_intent (_analyze_call_outcome t) = "booking_interested"
   ∧ booked_call (_analyze_call_outcome t) = true
   ∧ not_interested (_analyze_call_outcome t) = false)
  ∨ (o_intent (_analyze_call_outcome t) = "not_interested"
     ∧ booked_call (_analyze_call_outcome t) = false
     ∧ not_interested (_analyze_call_outcome t) = true)
  ∨ (o_intent (_analyze_call_outcome t) = "needs_follow_up"
     ∧ booked_call (_analyze_call_outcome t) = false
     ∧ not_interested (_analyze_call_outcome t) = false).
Proof.
  unfold _analyze_call_outcome.
  destruct (_ || _); [left; auto |].
  destruct (_ || _); [right; left; auto | right; right; auto].
Qed.

End call_outcome.


(** ** Effects of the CRM client *)

Ltac run_monad :=
  unfold bind, ret, raise, lift, pass, emit, request, get_world, set_crm,
    try_except;
  cbn [clock crm trace tick fst snd].

Lemma new_events_app (w w' : world) (es : list event) :
  trace w' = es ++ trace w → new_events w w' = es.
Proof.
  intros Htrace. unfold new_events. rewrite Htrace, length_app.
  replace (length es + length (trace w) - length (trace w))%nat with (length es) by lia.
  apply take_app_length.
Qed.

Lemma new_events_same (w : world) : new_events w w = [].
Proof. apply new_events_app. reflexivity. Qed.

Section crm_client.
Context `{D : DatetimeLib} `{R : Remote}.

Import close_sync.

Lemma update_lead_state_applied (w : world) (lead_id new_state : string) :
  put_applies w lead_id = true →
  close_sync.update_lead_state lead_id new_state w
  = (mk_world (clock w)
       (alter (apply_fields (state_payload (clock w) new_state)) lead_id (crm w))
       (CloseNote lead_id ("Agent state changed to: " +:+ new_state)
          (http_ok (S (tick w)))
        :: ClosePut lead_id (state_payload (clock w) new_state) true :: trace w)
       (S (S (tick w))),
     Ok tt).
Proof.
  unfold put_applies. intros Hput.
  unfold close_sync.update_lead_state, close_sync.put_lead, close_sync._log_activity.
  run_monad. rewrite Hput. run_monad. reflexivity.
Qed.

Lemma update_lead_state_refused (w : world) (lead_id new_state : string) :
  put_applies w lead_id = false →
  close_sync.update_lead_state lead_id new_state w
  = (mk_world (clock w) (crm w)
       (ClosePut lead_id (state_payload (clock w) new_state) false :: trace w)
       (S (tick w)),
     Raise (Exception "Failed to update lead state")).
Proof.
  unfold put_applies. intros Hput.
  unfold close_sync.update_lead_state, close_sync.put_lead, close_sync._log_activity.
  run_monad. rewrite Hput. run_monad. reflexivity.
Qed.

Lemma custom_get_state_payload (now : Z) (new_state : string) (l : lead) :
  custom_get (l_custom (apply_fields (state_payload now new_state) l)) "agent_state" ""
  = new_state.
Proof.
  unfold custom_get, apply_fields, state_payload. cbn.
  rewrite lookup_insert_ne by discriminate. rewrite lookup_insert_eq. reflexivity.
Qed.

Lemma agent_state_after_put (w : world) (lead_id new_state : string) (c : gmap string lead) :
  is_Some (c !! lead_id) →
  custom_get
    (alter (apply_fields (state_payload (clock w) new_state)) lead_id c !! lead_id
     ≫= l_custom) "agent_state" "" = new_state.
Proof.
  intros [l Hl]. rewrite lookup_alter_eq, Hl. cbn [fmap option_fmap option_map mbind option_bind].
  apply custom_get_state_payload.
Qed.

(** C6, as the code has it: [update_lead_state] writes the state field
    first and appends the activity record only when that write was
    applied. If the write is refused the call raises, the CRM is unchanged
    and no activity record is posted. If it is applied the state field
    holds the new state and the call returns normally, whether or not the
    activity record was stored (its POST is the next request). *)
Theorem update_lead_state_outcome (w : world) (lead_id new_state : string) :
  let run := close_sync.update_lead_state lead_id new_state w in
  (put_applies w lead_id = false →
   run.2 = Raise (Exception "Failed to update lead state")
   ∧ crm run.1 = crm w
   ∧ new_events w run.1
     = [ClosePut lead_id (state_payload (clock w) new_state) false])
  ∧ (put_applies w lead_id = true →
     run.2 = Ok tt
     ∧ agent_state_of run.1 lead_id = new_state
     ∧ new_events w run.1
       = [CloseNote lead_id ("Agent state changed to: " +:+ new_state)
            (http_ok (S (tick w)));
          ClosePut lead_id (state_payload (clock w) new_state) true]).
Proof.
  cbv zeta. split; intros Hput.
  - rewrite (update_lead_state_refused w lead_id new_state Hput). cbn [fst snd crm].
    repeat split. apply new_events_app. reflexivity.
  - rewrite (update_lead_state_applied w lead_id new_state Hput). cbn [fst snd].
    repeat split.
    + unfold agent_state_of. cbn [crm]. apply agent_state_after_put.
      unfold put_applies in Hput. apply andb_true_iff in Hput as [_ Hsome].
      apply bool_decide_eq_true in Hsome. exact Hsome.
    + apply new_events_app. reflexivity.
Qed.

End crm_client.

(** A refused write raises and leaves no trace of a transition; an applied
    write changes the state field. *)
Lemma update_lead_state_outcome_witness :
  (let w := examples.world_of examples.t_mar04
              (examples.ada "2" "2024-03-01T09:00:00" "NURTURING") in
   let run := close_sync.update_lead_state (D := iso8601)
                (R := examples.remote_of (examples.all_but 0) None
                        examples.escalate_and_book)
                "lead_1" "ENGAGED" w in
   run.2 = Raise (Exception "Failed to update lead state") ∧ crm run.1 = crm w)
  ∧ (let w := examples.world_of examples.t_mar04
                (examples.ada "2" "2024-03-01T09:00:00" "NURTURING") in
     let run := close_sync.update_lead_state (D := iso8601)
                  (R := examples.remote_of examples.always_ok None
                          examples.escalate_and_book)
                  "lead_1" "ENGAGED" w in
     run.2 = Ok tt ∧ agent_state_of run.1 "lead_1" = "ENGAGED").
Proof.
  split; cbv zeta.
  - destruct (update_lead_state_outcome (D := iso8601)
                (R := examples.remote_of (examples.all_but 0) None
                        examples.escalate_and_book)
                (examples.world_of examples.t_mar04
                   (examples.ada "2" "2024-03-01T09:00:00" "NURTURING"))
                "lead_1" "ENGAGED") as [Hrefused _].
    destruct Hrefused as (Hr & Hc & _); [vm_compute; reflexivity |].
    split; assumption.
  - destruct (update_lead_state_outcome (D := iso8601)
                (R := examples.remote_of examples.always_ok None
                        examples.escalate_and_book)
                (examples.world_of examples.t_mar04
                   (examples.ada "2" "2024-03-01T09:00:00" "NURTURING"))
                "lead_1" "ENGAGED") as [_ Happlied].
    destruct Happlied as (Hr & Hs & _); [vm_compute; reflexivity |].
    split; assumption.
Defined.

(** C6, the claim as stated fails: when the state write is applied and the
    POST of the activity record is refused, the state field has changed,
    no activity record is stored, and the call returns normally. *)
Lemma update_lead_state_without_record :
  let w := examples.world_of examples.t_mar04
             (examples.ada "2" "2024-03-01T09:00:00" "NURTURING") in
  let run := close_sync.update_lead_state (D := iso8601)
               (R := examples.remote_of (examples.all_but 1) None
                       examples.escalate_and_book)
               "lead_1" "ENGAGED" w in
  run.2 = Ok tt
  ∧ agent_state_of w "lead_1" = "NURTURING"
  ∧ agent_state_of run.1 "lead_1" = "ENGAGED"
  ∧ new_events w run.1
    = [CloseNote "lead_1" "Agent state changed to: ENGAGED" false;
       ClosePut "lead_1"
         [("custom.agent_state", "ENGAGED");
          ("custom.state_updated_at", "2024-03-04T09:00:00")] true].
Proof. vm_compute. repeat split. Qed.

(** ** Unknown senders *)

Section unknown_sender.
Context `{D : DatetimeLib} `{R : Remote}.
Import email_reply_handler sms_handler.

Lemma search_first_eq (q : string) (w : world) :
  close_sync.search_first q w
  = (mk_world (clock w) (crm w) (trace w) (S (tick w)),
     Ok (if http_ok (tick w) then head (close_search (crm w) q) else None)).
Proof. reflexivity. Qed.

Lemma handle_inbound_email_unknown (payload : inbound_email) (w : world) :
  let addr := clean_address (lower (default "" (from_ payload))) in
  (close_sync.get_lead_by_email addr w).2 = Ok None →
  handle_inbound_email payload w
  = (mk_world (clock w) (crm w)
       (SlackPost (EmailFromUnknownLead addr (default "" (subject_ payload))) None
        :: trace w)
       (S (tick w)),
     Ok (StatusEscalated (Some "unknown_lead"))).
Proof.
  cbv zeta. unfold handle_inbound_email, close_sync.get_lead_by_email.
  unfold bind at 1. rewrite search_first_eq. cbn [snd].
  intros Hnone. injection Hnone as Hnone. rewrite Hnone. reflexivity.
Qed.

Lemma handle_inbound_sms_unknown (payload : inbound_sms) (w : world) :
  (sms_handler._find_lead_by_phone (default "" (From payload)) w).2 = Ok None →
  handle_inbound_sms payload w
  = (mk_world (clock w) (crm w)
       (SlackPost
          (SmsFromUnknownNumber (default "" (From payload))
             (default "" (FromCity payload)) (default "" (FromState payload))
             (default "" (Body payload))) None
        :: trace w)
       (S (tick w)),
     Ok (Twiml [unknown_number_reply])).
Proof.
  unfold handle_inbound_sms, sms_handler._find_lead_by_phone.
  unfold bind at 1. rewrite search_first_eq. cbn [snd].
  intros Hnone. injection Hnone as Hnone. rewrite Hnone. reflexivity.
Qed.

(** C9: when the sender of an inbound e-mail or SMS resolves to no lead,
    the router writes nothing to the CRM (no lead is changed or created),
    posts exactly one unknown-sender notification and emits nothing else;
    the e-mail router returns the escalated status, the SMS router a
    response carrying the holding message. *)
Theorem unknown_sender_escalates (w : world) :
  (∀ payload : inbound_email,
     let addr := clean_address (lower (default "" (from_ payload))) in
     let run := handle_inbound_email payload w in
     (close_sync.get_lead_by_email addr w).2 = Ok None →
     run.2 = Ok (StatusEscalated (Some "unknown_lead"))
     ∧ crm run.1 = crm w
     ∧ new_events w run.1
       = [SlackPost (EmailFromUnknownLead addr (default "" (subject_ payload))) None])
  ∧ (∀ payload : inbound_sms,
       let run := handle_inbound_sms payload w in
       (sms_handler._find_lead_by_phone (default "" (From payload)) w).2 = Ok None →
       run.2 = Ok (Twiml [unknown_number_reply])
       ∧ crm run.1 = crm w
       ∧ new_events w run.1
         = [SlackPost
              (SmsFromUnknownNumber (default "" (From payload))
                 (default "" (FromCity payload)) (default "" (FromState payload))
                 (default "" (Body payload))) None]).
Proof.
  split; intros payload; cbv zeta; intros Hnone.
  - rewrite (handle_inbound_email_unknown payload w Hnone). cbn [fst snd crm].
    repeat split. apply new_events_app. reflexivity.
  - rewrite (handle_inbound_sms_unknown payload w Hnone). cbn [fst snd crm].
    repeat split. apply new_events_app. reflexivity.
Qed.

End unknown_sender.

(** An SMS from a number no lead has, and an e-mail from an address no
    lead has. *)
Lemma unknown_sender_escalates_witness :
  let w := examples.world_of examples.t_mar04
             (examples.ada "2" "2024-03-01T09:00:00" "NURTURING") in
  let R := examples.remote_of examples.always_ok None examples.escalate_and_book in
  (email_reply_handler.handle_inbound_email (D := iso8601) (R := R)
     (email_reply_handler.mk_inbound_email (Some "Eve <eve@example.org>")
        (Some "Hello") (Some "Do you ship abroad?") None) w).2
  = Ok (email_reply_handler.StatusEscalated (Some "unknown_lead"))
  ∧ (sms_handler.handle_inbound_sms (D := iso8601) (R := R)
       (examples.sms_from "+15559990000" "Hi there") w).2
    = Ok (sms_handler.Twiml [sms_handler.unknown_number_reply]).
Proof.
  cbv zeta.
  pose proof (unknown_sender_escalates (D := iso8601)
                (R := examples.remote_of examples.always_ok None
                        examples.escalate_and_book)
                (examples.world_of examples.t_mar04
                   (examples.ada "2" "2024-03-01T09:00:00" "NURTURING")))
    as [Hmail Hsms].
  split.
  - apply Hmail. vm_compute. reflexivity.
  - apply Hsms. vm_compute. reflexivity.
Defined.

(** ** Escalation precedence in the inbound routers *)

Section escalation.
Context `{D : DatetimeLib} `{R : Remote}.
Import email_reply_handler sms_handler.

(** The lead dict built by the routers always has an address and a name. *)
Lemma extract_lead_data_keys (l : lead) (ld : lead_data) :
  email_reply_handler._extract_lead_data l = Ok ld →
  email ld = Some (default "" (email ld)) ∧ name ld = Some (default "" (name ld)).
Proof.
  unfold email_reply_handler._extract_lead_data.
  destruct (email_reply_handler._get_lead_email l); [| discriminate].
  destruct (default [None] _); [discriminate |].
  intros [= <-]. split; reflexivity.
Qed.

Lemma handle_based_on_analysis_escalates (w : world) (l : lead) (ld : lead_data)
    (a : classification) (h : list message) :
  should_escalate a = true →
  email_reply_handler._extract_lead_data l = Ok ld →
  _handle_based_on_analysis l ld a h w
  = (mk_world (clock w) (crm w)
       (EmailSend (default "" (email ld)) (default "" (name ld))
          ("Re: " +:+ default "Your inquiry" (subject a)) HoldingResponse
          (http_ok (S (tick w)))
        :: CloseNote (l_id l) "Escalated to Josh" (http_ok (tick w))
        :: SlackPost (EscalationNeeded (escalation_reason a) (key_concerns a)) (Some ld)
        :: SlackPost (EmailReplyNotice (intent a) (sentiment a) (next_action a)) (Some ld)
        :: trace w)
       (S (S (tick w))),
     Ok (StatusEscalated (escalation_reason a))).
Proof.
  intros Hesc Hld. destruct (extract_lead_data_keys l ld Hld) as [He Hn].
  unfold _handle_based_on_analysis. rewrite Hesc.
  unfold slack_bot.send_notification, close_sync._log_activity,
    email_engine._send_email, email_engine.item.
  rewrite He, Hn. reflexivity.
Qed.

Lemma handle_sms_analysis_escalates (w : world) (l : lead) (ld : lead_data)
    (a : classification) (h : list message) :
  should_escalate a = true →
  sms_handler._extract_lead_data l = Ok ld →
  _handle_sms_analysis l ld a h w
  = (mk_world (clock w) (crm w)
       (SlackPost (SmsEscalation (escalation_reason a)) (Some ld) :: trace w)
       (tick w),
     Ok (holding_reply (default "" (name ld)))).
Proof.
  intros Hesc Hld. destruct (extract_lead_data_keys l ld Hld) as [He Hn].
  unfold _handle_sms_analysis. rewrite Hesc.
  unfold slack_bot.send_notification, email_engine.item.
  rewrite Hn. reflexivity.
Qed.

(** C2, as the code has it: whenever the escalation flag of the
    classification is true, whatever its next-action tag, both routers take
    their escalation branch and not the booking branch. The e-mail router
    posts the reply notice and the escalation notification, appends the
    activity note "Escalated to Josh" and sends the holding e-mail. The
    SMS router posts the escalation notification and answers with the
    holding reply; its escalation branch appends no activity note. Neither
    writes to the CRM's leads. *)
Theorem escalation_takes_precedence (w : world) (l : lead) (ld : lead_data)
    (a : classification) (h : list message) :
  should_escalate a = true →
  email_reply_handler._extract_lead_data l = Ok ld →
  (let run := _handle_based_on_analysis l ld a h w in
   run.2 = Ok (StatusEscalated (escalation_reason a))
   ∧ crm run.1 = crm w
   ∧ new_events w run.1
     = [EmailSend (default "" (email ld)) (default "" (name ld))
          ("Re: " +:+ default "Your inquiry" (subject a)) HoldingResponse
          (http_ok (S (tick w)));
        CloseNote (l_id l) "Escalated to Josh" (http_ok (tick w));
        SlackPost (EscalationNeeded (escalation_reason a) (key_concerns a)) (Some ld);
        SlackPost (EmailReplyNotice (intent a) (sentiment a) (next_action a)) (Some ld)])
  ∧ (let run := _handle_sms_analysis l ld a h w in
     run.2 = Ok (holding_reply (default "" (name ld)))
     ∧ crm run.1 = crm w
     ∧ new_events w run.1
       = [SlackPost (SmsEscalation (escalation_reason a)) (Some ld)]).
Proof.
  intros Hesc Hld. cbv zeta. split.
  - rewrite (handle_based_on_analysis_escalates w l ld a h Hesc Hld).
    cbn [fst snd crm]. repeat split. apply new_events_app. reflexivity.
  - rewrite (handle_sms_analysis_escalates w l ld a h Hesc Hld).
    cbn [fst snd crm]. repeat split. apply new_events_app. reflexivity.
Qed.

End escalation.

(** The analysis asks for escalation and for a booking at once: the e-mail
    router escalates and the SMS router answers with the holding reply. *)
Lemma escalation_takes_precedence_witness :
  let w := examples.world_of examples.t_mar04
             (examples.ada "2" "2024-03-01T09:00:00" "ENGAGED") in
  let R := examples.remote_of examples.always_ok None examples.escalate_and_book in
  let l := examples.ada "2" "2024-03-01T09:00:00" "ENGAGED" in
  ∃ ld, email_reply_handler._extract_lead_data l = Ok ld
    ∧ (email_reply_handler._handle_based_on_analysis (D := iso8601) (R := R)
         l ld examples.escalate_and_book [] w).2
      = Ok (email_reply_handler.StatusEscalated (Some "Enterprise deal"))
    ∧ (sms_handler._handle_sms_analysis (R := R)
         l ld examples.escalate_and_book [] w).2
      = Ok (sms_handler.holding_reply "Ada").
Proof.
  cbv zeta.
  destruct (email_reply_handler._extract_lead_data
              (examples.ada "2" "2024-03-01T09:00:00" "ENGAGED")) as [ld |] eqn:Hld;
    [| vm_compute in Hld; discriminate].
  exists ld. split; [reflexivity |].
  destruct (escalation_takes_precedence (D := iso8601)
              (R := examples.remote_of examples.always_ok None
                      examples.escalate_and_book)
              (examples.world_of examples.t_mar04
                 (examples.ada "2" "2024-03-01T09:00:00" "ENGAGED"))
              (examples.ada "2" "2024-03-01T09:00:00" "ENGAGED")
              ld examples.escalate_and_book [] eq_refl Hld)
    as [(Hmail & _ & _) (Hsms & _ & _)].
  split; [exact Hmail |].
  rewrite Hsms. vm_compute in Hld. injection Hld as <-. reflexivity.
Defined.

(** C2, the claim as stated fails on the SMS path: for an analysis with
    the escalation flag and next action book_call, the SMS router notifies
    the operator and sends the holding reply, and the only activity notes
    it appends are the inbound and the outbound message; no escalation is
    logged. *)
Lemma sms_escalation_appends_no_escalation_note :
  let w := examples.world_of examples.t_mar04
             (examples.ada "2" "2024-03-01T09:00:00" "ENGAGED") in
  let run := sms_handler.handle_inbound_sms (D := iso8601)
               (R := examples.remote_of examples.always_ok None
                       examples.escalate_and_book)
               (examples.sms_from "+15551234567" "How much for 500 units?") w in
  should_escalate examples.escalate_and_book = true
  ∧ next_action examples.escalate_and_book = "book_call"
  ∧ run.2 = Ok (sms_handler.Twiml [])
  ∧ List.filter (fun e => negb (is_close_note e)) (new_events w run.1)
    = [SlackPost
         (SmsConversation "Ada" "pricing_question" (sms_handler.holding_reply "Ada"))
         (Some (examples.lead_data_of
                  (examples.custom_of "2" "2024-03-01T09:00:00" "ENGAGED")));
       SmsSend "+15551234567" (sms_handler.holding_reply "Ada") true;
       SlackPost (SmsEscalation (Some "Enterprise deal"))
         (Some (examples.lead_data_of
                  (examples.custom_of "2" "2024-03-01T09:00:00" "ENGAGED")))]
  ∧ List.filter is_close_note (new_events w run.1)
    = [CloseNote "lead_1" ("Outbound SMS: " +:+ sms_handler.holding_reply "Ada") true;
       CloseNote "lead_1" "Inbound SMS: How much for 500 units?" true].
Proof. vm_compute. repeat split. Qed.

(** ** The call-ended webhook *)

Section call_ended.
Context `{D : DatetimeLib} `{R : Remote}.
Import vapi_handler.

(** For an inconclusive outcome the handler appends the call note and
    notifies the operator, and writes no state: the CRM's leads are left
    as they were. *)
Lemma handle_call_ended_inconclusive (w : world) (payload : call_ended) (l : lead) :
  let t := default "" (transcript payload) in
  truthy (default "" (customer_number payload)) = true →
  (vapi_handler._find_lead_by_phone (default "" (customer_number payload)) w).2
  = Ok (Some l) →
  booked_call (_analyze_call_outcome t) = false →
  not_interested (_analyze_call_outcome t) = false →
  handle_call_ended payload w
  = (mk_world (clock w) (crm w)
       (SlackPost
          (AiCallCompleted (default 0 (duration payload))
             (summary (_analyze_call_outcome t)) (take_str 200 t)) None
        :: CloseNote (l_id l)
             ("AI Call Completed: " +:+ o_intent (_analyze_call_outcome t))
             (http_ok (S (tick w)))
        :: trace w)
       (S (S (tick w))),
     Ok (Processed (_analyze_call_outcome t))).
Proof.
  cbv zeta. intros Hphone Hfound Hb Hn.
  unfold handle_call_ended, vapi_handler._find_lead_by_phone in *.
  rewrite Hphone. unfold bind at 1.
  rewrite search_first_eq in *. cbn [snd] in Hfound.
  injection Hfound as Hfound. rewrite Hfound.
  rewrite Hb, Hn. reflexivity.
Qed.

End call_ended.

(** C7 at the failing input: a lead in CALLING whose call ended without a
    conclusion is classified needs_follow_up and stays in CALLING; no
    state is written. *)
Lemma call_ended_inconclusive_stays_calling :
  let w := examples.world_of examples.t_mar04
             (examples.ada "4" "2024-03-01T09:00:00" "CALLING") in
  let run := vapi_handler.handle_call_ended (D := iso8601)
               (R := examples.remote_of examples.always_ok None
                       examples.escalate_and_book)
               examples.inconclusive_call w in
  agent_state_of w "lead_1" = "CALLING"
  ∧ run.2 = Ok (vapi_handler.Processed
                  (vapi_handler.mk_call_outcome "needs_follow_up" false false
                     "Lead needs more nurturing"))
  ∧ agent_state_of run.1 "lead_1" = "CALLING"
  ∧ List.filter is_close_put (new_events w run.1) = []
  ∧ new_events w run.1
    = [SlackPost (AiCallCompleted 95 "Lead needs more nurturing"
                    "Maybe later, I need to think it over.") None;
       CloseNote "lead_1" "AI Call Completed: needs_follow_up" true].
Proof. vm_compute. repeat split. Qed.

(** ** The scheduled sweep *)

Section sweep.
Context `{D : DatetimeLib} `{R : Remote}.
Import agent close_sync.

(** When no booking is detected, processing a lead is its next nurture step. *)
Lemma process_without_booking (l : lead) (w : world) (addr : option string) (s : Z) :
  _get_lead_email l = Ok addr →
  int (custom_get (l_custom l) "email_sequence_step" "0") = Ok s →
  (truthy_opt addr = true → check_booking (default "" addr) = Ok None) →
  _process_nurturing_lead l w = next_nurture_step l s w.
Proof.
  intros Haddr Hs Hnone. unfold _process_nurturing_lead.
  rewrite Haddr, Hs. run_monad.
  destruct (truthy_opt addr); [rewrite Hnone by reflexivity |]; reflexivity.
Qed.

(** Without a booking, processing a lead either raises before anything
    was done or is the next nurture step at the stored cursor, in every
    world. *)
Lemma process_cases (l : lead) :
  (∀ a b, check_booking a ≠ Ok (Some b)) →
  (∃ e, ∀ w, _process_nurturing_lead l w = (w, Raise e))
  ∨ (∃ addr s,
       _get_lead_email l = Ok addr
       ∧ int (custom_get (l_custom l) "email_sequence_step" "0") = Ok s
       ∧ (truthy_opt addr = true → check_booking (default "" addr) = Ok None)
       ∧ ∀ w, _process_nurturing_lead l w = next_nurture_step l s w).
Proof.
  intros Hnb.
  destruct (_get_lead_email l) as [addr | e] eqn:Haddr.
  2: { left. exists e. intros w. unfold _process_nurturing_lead.
       rewrite Haddr. reflexivity. }
  destruct (int (custom_get (l_custom l) "email_sequence_step" "0"))
    as [s | e] eqn:Hs.
  2: { left. exists e. intros w. unfold _process_nurturing_lead.
       rewrite Haddr, Hs. reflexivity. }
  destruct (truthy_opt addr) eqn:Ht.
  - destruct (check_booking (default "" addr)) as [[b |] | e] eqn:Hcb.
    + exfalso. exact (Hnb _ _ Hcb).
    + right. exists addr, s. split; [reflexivity |]. split; [reflexivity |].
      split; [intros _; exact Hcb |]. intros w.
      apply (process_without_booking l w addr s Haddr Hs). intros _. exact Hcb.
    + left. exists e. intros w. unfold _process_nurturing_lead.
      rewrite Haddr, Hs. run_monad. rewrite Ht, Hcb. reflexivity.
  - right. exists addr, s. split; [reflexivity |]. split; [reflexivity |].
    split; [intros Ht'; congruence |]. intros w.
    apply (process_without_booking l w addr s Haddr Hs). intros Ht'. congruence.
Qed.

Lemma next_step_extract_fails (l : lead) (s : Z) (w : world) (e : exn) :
  _extract_lead_data l = Raise e →
  next_nurture_step l s w = (w, Raise e).
Proof.
  intros He. unfold next_nurture_step. rewrite He.
  destruct (s + 1 >? 8); reflexivity.
Qed.

(** Past step 8 the lead is reported and moved to SEQUENCE_COMPLETE. *)
Lemma next_step_complete (l : lead) (s : Z) (w : world) (ld : lead_data) :
  8 < s + 1 →
  _extract_lead_data l = Ok ld →
  put_applies w (l_id l) = true →
  next_nurture_step l s w
  = (mk_world (clock w)
       (alter (apply_fields (state_payload (clock w) "SEQUENCE_COMPLETE"))
          (l_id l) (crm w))
       (CloseNote (l_id l) "Agent state changed to: SEQUENCE_COMPLETE"
          (http_ok (S (tick w)))
        :: ClosePut (l_id l) (state_payload (clock w) "SEQUENCE_COMPLETE") true
        :: SlackPost LeadCompletedSequence (Some ld)
        :: trace w)
       (S (S (tick w))),
     Ok (mk_lead_result false false true)).
Proof.
  intros Hs Hld Hput. unfold next_nurture_step.
  destruct (Z.gtb_spec (s + 1) 8); [| lia].
  rewrite Hld. unfold slack_bot.send_notification.
  unfold bind at 1. unfold lift at 1. unfold bind at 1. unfold emit at 1.
  unfold bind at 1.
  rewrite update_lead_state_applied by exact Hput.
  reflexivity.
Qed.

Lemma next_step_not_due (l : lead) (s : Z) (w : world) (ld : lead_data) :
  s + 1 ≤ 8 →
  _extract_lead_data l = Ok ld →
  email_engine.should_send_email (clock w) ld (s + 1) = false →
  next_nurture_step l s w = (w, Ok (mk_lead_result false false false)).
Proof.
  intros Hs Hld Hno. unfold next_nurture_step.
  destruct (Z.gtb_spec (s + 1) 8); [lia |].
  rewrite Hld. run_monad. rewrite Hno. reflexivity.
Qed.

Lemma bind_ok {A B} (m : M A) (f : A → M B) (w w' : world) (a : A) :
  m w = (w', Ok a) → bind m f w = f a w'.
Proof. intros Hm. unfold bind. rewrite Hm. reflexivity. Qed.

Lemma bind_raise {A B} (m : M A) (f : A → M B) (w w' : world) (e : exn) :
  m w = (w', Raise e) → bind m f w = (w', Raise e).
Proof. intros Hm. unfold bind. rewrite Hm. reflexivity. Qed.

Lemma agent_extract_keys (l : lead) (ld : lead_data) :
  _extract_lead_data l = Ok ld →
  email ld = Some (default "" (email ld))
  ∧ custom ld = Some (default ∅ (l_custom l)).
Proof.
  unfold _extract_lead_data.
  destruct (default [empty_contact] (l_contacts l)); [discriminate |].
  destruct (_get_lead_email l); [| discriminate].
  destruct (default [None] _); [discriminate |].
  intros [= <-]. split; reflexivity.
Qed.

Lemma update_email_tracking_applied (w : world) (lead_id : string) (step : Z)
    (subj : string) :
  put_applies w lead_id = true →
  update_email_tracking lead_id step subj w
  = (mk_world (clock w)
       (alter (apply_fields (tracking_payload (clock w) step subj)) lead_id (crm w))
       (CloseNote lead_id ("Sent email: " +:+ subj) (http_ok (S (tick w)))
        :: ClosePut lead_id (tracking_payload (clock w) step subj) true :: trace w)
       (S (S (tick w))),
     Ok tt).
Proof.
  unfold put_applies. intros Hput.
  unfold update_email_tracking, put_lead, _log_activity.
  run_monad. rewrite Hput. run_monad. reflexivity.
Qed.

(** A nurture step at a cursor below 8 and clock reading [now], when
    every request succeeds: either nothing is done in any world (an
    exception before the send, or the step is not due), or in every world
    holding the lead the step's e-mail is sent and the tracking fields are
    written. *)
Lemma next_step_effect (l : lead) (s now : Z) :
  (∀ n, http_ok n = true) →
  s + 1 ≤ 8 →
  (∃ r, ∀ w, clock w = now → next_nurture_step l s w = (w, r))
  ∨ (∀ w, clock w = now → crm w !! l_id l = Some l →
       ∃ w1,
         next_nurture_step l s w = (w1, Ok (mk_lead_result true false false))
         ∧ is_Some (crm w1 !! l_id l)
         ∧ clock w1 = now
         ∧ crm w1
           = alter (apply_fields
                      (tracking_payload now (s + 1)
                         ("Nurture step " +:+ str (s + 1))))
               (l_id l) (crm w)).
Proof.
  intros Hok Hs.
  destruct (_extract_lead_data l) as [ld | e] eqn:Hld.
  2: { left. exists (Raise e). intros w _. apply next_step_extract_fails. exact Hld. }
  destruct (email_engine.should_send_email now ld (s + 1)) eqn:Hdue.
  2: { left. exists (Ok (mk_lead_result false false false)). intros w Hc.
       apply (next_step_not_due l s w ld Hs Hld). rewrite Hc. exact Hdue. }
  destruct (agent_extract_keys l ld Hld) as [Hemail _].
  assert (∀ w report,
            email_engine.send_nurture_email ld (s + 1) report w
            = (mk_world (clock w) (crm w)
                 (EmailSend (default "" (email ld)) (default "" (name ld))
                    (email_engine.nurture_subject ld (s + 1))
                    (Nurture (s + 1) (default "" report)) true :: trace w)
                 (S (tick w)), Ok true)) as Hsend.
  { intros w report. unfold email_engine.send_nurture_email, email_engine.item,
      email_engine._send_email.
    rewrite Hemail. run_monad. rewrite Hok. reflexivity. }
  assert (∀ w es n, crm w !! l_id l = Some l →
            put_applies (mk_world (clock w) (crm w) es n) (l_id l) = true) as Hput.
  { intros w es n Hstore. unfold put_applies. cbn [tick crm]. rewrite Hok, Hstore.
    reflexivity. }
  assert (∀ w, clock w = now → crm w !! l_id l = Some l →
            ∀ es n mid,
              mid = mk_world (clock w) (crm w) es n →
              ∃ w1,
                (_ ← close_sync.update_email_tracking (l_id l) (s + 1)
                       ("Nurture step " +:+ str (s + 1));
                 _ ← (if s + 1 =? 4
                      then slack_bot.send_notification MilestoneEmail4 (Some ld)
                      else pass);
                 ret (mk_lead_result true false false)) mid
                = (w1, Ok (mk_lead_result true false false))
                ∧ is_Some (crm w1 !! l_id l)
                ∧ clock w1 = now
                ∧ crm w1
                  = alter (apply_fields
                             (tracking_payload now (s + 1)
                                ("Nurture step " +:+ str (s + 1))))
                      (l_id l) (crm w)) as Htrack.
  { intros w Hc Hstore es n mid ->.
    unfold bind at 1.
    rewrite update_email_tracking_applied by (apply Hput; exact Hstore).
    cbn [clock crm trace tick]. rewrite Hc.
    destruct (s + 1 =? 4); eexists; (split; [reflexivity |]); cbn [crm clock];
      rewrite lookup_alter_eq, Hstore; repeat split; eauto. }
  destruct (report_step (s + 1)) eqn:Hrep.
  - destruct (generate_report ld (s + 1)) as [r | e] eqn:Hgen.
    + right. intros w Hc Hstore. unfold next_nurture_step.
      destruct (Z.gtb_spec (s + 1) 8); [lia |].
      rewrite Hld. unfold lift at 1. unfold bind at 1. unfold get_world at 1.
      unfold bind at 1. rewrite Hc, Hdue, Hrep, Hgen.
      unfold bind at 1. unfold bind at 1. unfold lift at 1. unfold ret at 1.
      unfold bind at 1. rewrite Hsend. cbv beta iota.
      eapply (Htrack w Hc Hstore). reflexivity.
    + left. exists (Raise e). intros w Hc. unfold next_nurture_step.
      destruct (Z.gtb_spec (s + 1) 8); [lia |].
      rewrite Hld. run_monad. rewrite Hc, Hdue, Hrep, Hgen. reflexivity.
  - right. intros w Hc Hstore. unfold next_nurture_step.
    destruct (Z.gtb_spec (s + 1) 8); [lia |].
    rewrite Hld. unfold lift at 1. unfold bind at 1. unfold get_world at 1.
    unfold bind at 1. rewrite Hc, Hdue, Hrep.
    unfold bind at 1. unfold ret at 1.
    unfold bind at 1. rewrite Hsend. cbv beta iota.
    eapply (Htrack w Hc Hstore). reflexivity.
Qed.

Lemma tracking_custom (now k : Z) (subj : string) (l : lead) :
  default ∅ (l_custom (apply_fields (tracking_payload now k subj) l))
  = <["last_email_subject" := subj]>
      (<["last_email_sent" := isoformat (utcnow now)]>
         (<["email_sequence_step" := str k]> (default ∅ (l_custom l)))).
Proof. reflexivity. Qed.

Lemma cursor_after_tracking (now k : Z) (subj : string) (l : lead) :
  custom_get (l_custom (apply_fields (tracking_payload now k subj) l))
    "email_sequence_step" "0" = str k.
Proof.
  unfold custom_get. rewrite tracking_custom.
  do 2 (rewrite lookup_insert_ne by discriminate).
  rewrite lookup_insert_eq. reflexivity.
Qed.

Lemma custom_get_default (c : option (gmap string string)) (key dflt : string) :
  custom_get (Some (default ∅ c)) key dflt = custom_get c key dflt.
Proof. destruct c; reflexivity. Qed.

Lemma last_sent_after_tracking (now k : Z) (subj : string) (l : lead) :
  custom_get (l_custom (apply_fields (tracking_payload now k subj) l))
    "last_email_sent" "" = isoformat (utcnow now).
Proof.
  unfold custom_get. rewrite tracking_custom.
  rewrite lookup_insert_ne by discriminate.
  rewrite lookup_insert_eq. reflexivity.
Qed.

Lemma extract_after_fields (p : list (string * string)) (l : lead) (ld : lead_data) :
  _extract_lead_data l = Ok ld →
  ∃ ld', _extract_lead_data (apply_fields p l) = Ok ld'.
Proof.
  unfold _extract_lead_data, _get_lead_email. cbn [apply_fields l_contacts].
  destruct (default [empty_contact] (l_contacts l)) as [| c ?]; [discriminate |].
  destruct (default [] (l_contacts l)) as [| c' ?].
  - destruct (default [None] (c_phones c)); [discriminate | eauto].
  - destruct (c_emails c') as [[| [addr |] ?] |];
      try discriminate;
      (destruct (default [None] (c_phones c)); [discriminate | eauto]).
Qed.

Lemma int_str_step (k : Z) : 1 ≤ k ≤ 8 → int (str k) = Ok k.
Proof.
  intros Hk.
  assert (k = 1 ∨ k = 2 ∨ k = 3 ∨ k = 4 ∨ k = 5 ∨ k = 6 ∨ k = 7 ∨ k = 8)
    as Hc by lia.
  repeat (destruct Hc as [-> | Hc]; [reflexivity |]). subst. reflexivity.
Qed.

(** A step after the first is never due at the instant of the last send. *)
Lemma not_due_at_send_time (now : Z) (ld : lead_data) (step : Z) :
  in_range now = true →
  2 ≤ step ≤ 8 →
  custom_get (custom ld) "last_email_sent" "" = isoformat (utcnow now) →
  isoformat (utcnow now) ≠ "" →
  fromisoformat (isoformat (utcnow now)) = Some (utcnow now) →
  email_engine.should_send_email now ld step = false.
Proof.
  intros Hnow Hstep Hstored Hne Hparse.
  assert (recorded_last_sent ld (utcnow now)) as Hrec.
  { unfold recorded_last_sent. rewrite Hstored. repeat split; assumption. }
  pose proof (schedule_is_offset step ltac:(lia)) as Hsched.
  assert (3 ≤ offset step) as Hoff.
  { assert (step = 2 ∨ step = 3 ∨ step = 4 ∨ step = 5 ∨ step = 6 ∨ step = 7
            ∨ step = 8) as Hc by lia.
    repeat (destruct Hc as [-> | Hc]; [vm_compute; discriminate |]).
    subst. vm_compute. discriminate. }
  destruct (email_engine.should_send_email now ld step) eqn:Hsend; [| reflexivity].
  apply (should_send_recorded now ld step (utcnow now) Hnow Hrec) in Hsend.
  - rewrite Hsched in Hsend.
    change (default 0 (Some (offset step))) with (offset step) in Hsend.
    cbn [utcnow us] in Hsend. unfold us_per_day in Hsend. lia.
  - rewrite Hsched. change (default 0 (Some (offset step))) with (offset step). lia.
Qed.

(** A lead is processed at clock reading [clock w] (first run); every
    request succeeds, no booking is detected and the stored cursor is not
    negative. If the lead as stored afterwards is still in NURTURING, then
    processing it again at the same clock reading does nothing, or
    completes the sequence when its cursor is 8. *)
Lemma rerun_step (w : world) (l l1 : lead) :
  (∀ n, http_ok n = true) →
  (∀ a b, check_booking a ≠ Ok (Some b)) →
  crm w !! l_id l = Some l →
  in_range (clock w) = true →
  isoformat (utcnow (clock w)) ≠ "" →
  fromisoformat (isoformat (utcnow (clock w))) = Some (utcnow (clock w)) →
  (∀ s, int (custom_get (l_custom l) "email_sequence_step" "0") = Ok s → 0 ≤ s) →
  crm (_process_nurturing_lead l w).1 !! l_id l = Some l1 →
  custom_get (l_custom l1) "agent_state" "" = "NURTURING" →
  l_id l1 = l_id l ∧ quiet_or_completes (clock w) l1.
Proof.
  intros Hok Hnb Hstore Hrange Hne Hiso Hcur Hl1 Hstate.
  (* what is left to show when the first run does nothing in any world *)
  match goal with
  | |- ?G =>
      assert (∀ r, (∀ w0, clock w0 = clock w →
                      _process_nurturing_lead l w0 = (w0, r)) → G) as Hsame
  end.
  { intros r Hrun. rewrite (Hrun w eq_refl) in Hl1. cbn [fst] in Hl1.
    assert (l1 = l) as -> by congruence.
    split; [reflexivity |]. intros v Hcv _. left. exists r. apply Hrun. exact Hcv. }
  destruct (process_cases l Hnb) as [[e He] | (addr & s & Haddr & Hs & Hcb & Hp)].
  { apply (Hsame (Raise e)). intros w0 _. apply He. }
  pose proof (Hcur s Hs) as Hs0.
  destruct (Z.ltb_spec 8 (s + 1)) as [Hdone | Hmore].
  - (* the first run found the sequence complete *)
    destruct (_extract_lead_data l) as [ld | e] eqn:Hld.
    + exfalso. rewrite Hp in Hl1.
      rewrite (next_step_complete l s w ld Hdone Hld) in Hl1.
      2: { unfold put_applies. rewrite Hok, Hstore. reflexivity. }
      cbn [fst crm] in Hl1. rewrite lookup_alter_eq, Hstore in Hl1.
      injection Hl1 as <-. rewrite custom_get_state_payload in Hstate. discriminate.
    + apply (Hsame (Raise e)). intros w0 _. rewrite Hp.
      apply next_step_extract_fails. exact Hld.
  - destruct (next_step_effect l s (clock w) Hok Hmore) as [[r Hr] | Hsent].
    { apply (Hsame r). intros w0 Hc0. rewrite Hp. apply Hr. exact Hc0. }
    (* the first run sent step s+1 and wrote the tracking fields *)
    destruct (Hsent w eq_refl Hstore) as (w1 & Hnext & _ & _ & Hcrm).
    rewrite Hp, Hnext in Hl1. cbn [fst] in Hl1.
    rewrite Hcrm, lookup_alter_eq, Hstore in Hl1. injection Hl1 as Hl1.
    destruct (_extract_lead_data l) as [ld | e] eqn:Hld.
    2: { rewrite (next_step_extract_fails l s w e Hld) in Hnext. discriminate. }
    destruct (extract_after_fields
                (tracking_payload (clock w) (s + 1) ("Nurture step " +:+ str (s + 1)))
                l ld Hld) as [ld1 Hld1].
    rewrite Hl1 in Hld1.
    assert (int (custom_get (l_custom l1) "email_sequence_step" "0") = Ok (s + 1))
      as Hs1.
    { rewrite <- Hl1, cursor_after_tracking. apply int_str_step. lia. }
    assert (_get_lead_email l1 = Ok addr) as Haddr1.
    { rewrite <- Hl1. exact Haddr. }
    assert (l_id l1 = l_id l) as Hid by (rewrite <- Hl1; reflexivity).
    split; [exact Hid |]. intros v Hcv Hsv.
    rewrite (process_without_booking l1 v addr (s + 1) Haddr1 Hs1 Hcb).
    destruct (Z.ltb_spec 8 (s + 1 + 1)) as [Hlast | Hnot_last].
    + (* the cursor reached 8: the second run completes the sequence *)
      right. split; [rewrite Hs1; f_equal; lia |]. exists ld1.
      rewrite (next_step_complete l1 (s + 1) v ld1 Hlast Hld1).
      2: { unfold put_applies. rewrite Hok, Hsv. reflexivity. }
      unfold completed. rewrite Hok. reflexivity.
    + (* the next step is not due at the instant of the send *)
      left. eexists.
      apply (next_step_not_due l1 (s + 1) v ld1 Hnot_last Hld1).
      rewrite Hcv. apply not_due_at_send_time; try assumption; [lia |].
      destruct (agent_extract_keys l1 ld1 Hld1) as [_ Hcustom].
      rewrite Hcustom, custom_get_default, <- Hl1.
      apply last_sent_after_tracking.
Qed.

End sweep.

Section sweep_completion.
Context `{D : DatetimeLib} `{R : Remote}.
Import agent close_sync.

(** For a lead whose standard-format dict can be built, whose cursor is at
    least 8 and for whom no booking is detected, processing the lead posts
    the completion notification once, requests the SEQUENCE_COMPLETE state
    and, when that write is applied, leaves the lead in SEQUENCE_COMPLETE;
    no e-mail is sent. *)
Lemma sequence_complete_transition (l : lead) (w : world) (addr : option string)
    (s : Z) (ld : lead_data) :
  _get_lead_email l = Ok addr →
  int (custom_get (l_custom l) "email_sequence_step" "0") = Ok s →
  8 ≤ s →
  (truthy_opt addr = true → check_booking (default "" addr) = Ok None) →
  _extract_lead_data l = Ok ld →
  put_applies w (l_id l) = true →
  let run := _process_nurturing_lead l w in
  run.2 = Ok (mk_lead_result false false true)
  ∧ agent_state_of run.1 (l_id l) = "SEQUENCE_COMPLETE"
  ∧ new_events w run.1
    = [CloseNote (l_id l) "Agent state changed to: SEQUENCE_COMPLETE"
         (http_ok (S (tick w)));
       ClosePut (l_id l) (state_payload (clock w) "SEQUENCE_COMPLETE") true;
       SlackPost LeadCompletedSequence (Some ld)]
  ∧ List.filter is_email_send (new_events w run.1) = [].
Proof.
  intros Haddr Hs Hs8 Hcb Hld Hput. cbv zeta.
  rewrite (process_without_booking l w addr s Haddr Hs Hcb).
  rewrite (next_step_complete l s w ld ltac:(lia) Hld Hput). cbn [fst snd].
  assert (is_Some (crm w !! l_id l)) as Hsome.
  { unfold put_applies in Hput. apply andb_true_iff in Hput as [_ Hsome].
    apply bool_decide_eq_true in Hsome. exact Hsome. }
  split; [reflexivity |]. split.
  { unfold agent_state_of. cbn [crm]. apply agent_state_after_put. exact Hsome. }
  match goal with
  | |- new_events w ?w' = ?es ∧ _ =>
      assert (new_events w w' = es) as Hev by (apply new_events_app; reflexivity)
  end.
  rewrite Hev. split; reflexivity.
Qed.

End sweep_completion.

(** C4 at the failing input: a NURTURING lead at cursor 8 that has no
    contact, with no booking. Building the lead dict raises IndexError
    before the notification and the state write: the sweep reports an
    error for the lead, counts no escalation, and the lead stays in
    NURTURING. The routers' own [_extract_lead_data] builds the dict of
    such a lead. *)
Lemma sweep_cursor_8_without_contact_raises :
  let R := examples.remote_of examples.always_ok None examples.escalate_and_book in
  let l := examples.carol "8" "2024-03-01T09:00:00" "NURTURING" in
  let w := examples.world_of examples.t_mar04 l in
  let sweep := agent.run_scheduled_tasks_over (D := iso8601) (R := R) [l] w in
  int (custom_get (l_custom l) "email_sequence_step" "0") = Ok 8
  ∧ agent._extract_lead_data l = Raise IndexError
  ∧ (∃ ld, email_reply_handler._extract_lead_data l = Ok ld)
  ∧ agent._process_nurturing_lead (D := iso8601) (R := R) l w = (w, Raise IndexError)
  ∧ sweep.2 = Ok (agent.mk_sweep_result 0 0 0 0)
  ∧ agent_state_of sweep.1 "lead_3" = "NURTURING"
  ∧ new_events w sweep.1
    = [SlackPost (ScheduledRunComplete 0 0 0 0) None;
       SlackPost (ErrorProcessingLead IndexError) None].
Proof. vm_compute. repeat split. eexists. reflexivity. Qed.

(** The same happens for a lead whose contact has an empty phone list, as
    created for a submission without a phone number. *)
Lemma sweep_cursor_8_without_phone_raises :
  let R := examples.remote_of examples.always_ok None examples.escalate_and_book in
  let l := examples.bob "8" "2024-03-01T09:00:00" "NURTURING" in
  let w := examples.world_of examples.t_mar04 l in
  let sweep := agent.run_scheduled_tasks_over (D := iso8601) (R := R) [l] w in
  agent._process_nurturing_lead (D := iso8601) (R := R) l w = (w, Raise IndexError)
  ∧ sweep.2 = Ok (agent.mk_sweep_result 0 0 0 0)
  ∧ agent_state_of sweep.1 "lead_2" = "NURTURING"
  ∧ new_events w sweep.1
    = [SlackPost (ScheduledRunComplete 0 0 0 0) None;
       SlackPost (ErrorProcessingLead IndexError) None].
Proof. vm_compute. repeat split. Qed.

(** A lead at cursor 8 with a phone number is moved to SEQUENCE_COMPLETE. *)
Lemma sweep_cursor_8_with_phone_completes :
  let R := examples.remote_of examples.always_ok None examples.escalate_and_book in
  let l := examples.ada "8" "2024-03-01T09:00:00" "NURTURING" in
  let w := examples.world_of examples.t_mar04 l in
  let sweep := agent.run_scheduled_tasks_over (D := iso8601) (R := R) [l] w in
  sweep.2 = Ok (agent.mk_sweep_result 0 0 1 1)
  ∧ agent_state_of sweep.1 "lead_1" = "SEQUENCE_COMPLETE"
  ∧ List.filter is_email_send (new_events w sweep.1) = [].
Proof. vm_compute. repeat split. Qed.

(** C5, the claim as stated fails: the first run sends step 8 to a lead
    at cursor 7; the second run, at the same clock reading and over the
    lead as stored (still NURTURING, cursor 8), moves it to
    SEQUENCE_COMPLETE and reports an escalation. *)
Lemma rerun_completes_sequence :
  let R := examples.remote_of examples.always_ok None examples.escalate_and_book in
  let l := examples.ada "7" "2024-02-01T09:00:00" "NURTURING" in
  let w := examples.world_of examples.t_mar04 l in
  let run1 := agent.run_scheduled_tasks_over (D := iso8601) (R := R) [l] w in
  let l1 := default l (crm run1.1 !! "lead_1") in
  let run2 := agent.run_scheduled_tasks_over (D := iso8601) (R := R) [l1] run1.1 in
  run1.2 = Ok (agent.mk_sweep_result 1 0 0 1)
  ∧ clock run1.1 = clock w
  ∧ agent_state_of run1.1 "lead_1" = "NURTURING"
  ∧ cursor_of run1.1 "lead_1" = "8"
  ∧ run2.2 = Ok (agent.mk_sweep_result 0 0 1 1)
  ∧ agent_state_of run2.1 "lead_1" = "SEQUENCE_COMPLETE"
  ∧ List.filter is_close_put (new_events run1.1 run2.1)
    = [ClosePut "lead_1"
         [("custom.agent_state", "SEQUENCE_COMPLETE");
          ("custom.state_updated_at", "2024-03-04T09:00:00")] true].
Proof. vm_compute. repeat split. Qed.

(** When the send of the first run is refused, nothing is recorded and the
    second run sends the same step again. *)
Lemma rerun_resends_after_failed_send :
  let R := examples.remote_of (examples.all_but 0) None examples.escalate_and_book in
  let l := examples.ada "1" "2024-03-01T09:00:00" "NURTURING" in
  let w := examples.world_of examples.t_mar04 l in
  let run1 := agent._process_nurturing_lead (D := iso8601) (R := R) l w in
  let run2 := agent._process_nurturing_lead (D := iso8601) (R := R) l run1.1 in
  crm run1.1 = crm w
  ∧ new_events w run1.1
    = [EmailSend "ada@example.com" "Ada" "How Acme achieved results"
         (Nurture 2 "") false]
  ∧ run2.2 = Ok (agent.mk_lead_result true false false)
  ∧ cursor_of run2.1 "lead_1" = "2"
  ∧ List.filter is_email_send (new_events run1.1 run2.1)
    = [EmailSend "ada@example.com" "Ada" "How Acme achieved results"
         (Nurture 2 "") true].
Proof. vm_compute. repeat split. Qed.


(** ** Running the sweep twice *)

Section sweep_rerun.
Context `{D : DatetimeLib} `{R : Remote}.
Import agent close_sync.

Hypothesis every_request_succeeds : ∀ n, http_ok n = true.
Hypothesis no_booking : ∀ a b, check_booking a ≠ Ok (Some b).

(** Processing a lead keeps the clock and touches no other lead. *)
Lemma process_frame (l : lead) (w : world) :
  crm w !! l_id l = Some l →
  clock (_process_nurturing_lead l w).1 = clock w
  ∧ ∀ id, id ≠ l_id l → crm (_process_nurturing_lead l w).1 !! id = crm w !! id.
Proof.
  intros Hstore.
  destruct (process_cases l no_booking) as [[e He] | (addr & s & _ & _ & _ & Hp)].
  { rewrite He. split; reflexivity. }
  rewrite Hp. destruct (Z.ltb_spec 8 (s + 1)) as [Hdone | Hmore].
  - destruct (_extract_lead_data l) as [ld | e] eqn:Hld.
    + rewrite (next_step_complete l s w ld Hdone Hld).
      2: { unfold put_applies. rewrite every_request_succeeds, Hstore. reflexivity. }
      cbn [fst clock crm]. split; [reflexivity |].
      intros id Hid. apply lookup_alter_ne. congruence.
    + rewrite (next_step_extract_fails l s w e Hld). split; reflexivity.
  - destruct (next_step_effect l s (clock w) every_request_succeeds Hmore)
      as [[r Hr] | Hsent].
    { rewrite (Hr w eq_refl). split; reflexivity. }
    destruct (Hsent w eq_refl Hstore) as (w1 & Hnext & _ & Hclock & Hcrm).
    rewrite Hnext. cbn [fst]. split; [exact Hclock |].
    intros id Hid. rewrite Hcrm. apply lookup_alter_ne. congruence.
Qed.

(** One iteration of the sweep's loop: the lead is processed and, when
    that raised, the error is reported to the operator. *)
Lemma process_leads_cons (l : lead) (rest : list lead) (res : sweep_result) (w : world) :
  ∃ res' es,
    process_leads (l :: rest) res w
    = process_leads rest res'
        (mk_world (clock (_process_nurturing_lead l w).1)
           (crm (_process_nurturing_lead l w).1)
           (es ++ trace (_process_nurturing_lead l w).1)
           (tick (_process_nurturing_lead l w).1))
    ∧ List.filter is_email_send es = [].
Proof.
  cbn [process_leads]. unfold bind at 1. unfold try_except. unfold bind at 1.
  destruct (_process_nurturing_lead l w) as [w1 [r | e]]; cbn [fst].
  - eexists _, []. split; [| reflexivity]. destruct w1. reflexivity.
  - eexists _, [_]. split; [reflexivity | reflexivity].
Qed.

Lemma first_sweep (leads : list lead) :
  ∀ (res : sweep_result) (w : world),
    NoDup (l_id <$> leads) →
    Forall (λ l, crm w !! l_id l = Some l) leads →
    clock (process_leads leads res w).1 = clock w
    ∧ (∀ id, id ∉ l_id <$> leads →
         crm (process_leads leads res w).1 !! id = crm w !! id)
    ∧ Forall
        (λ l, ∃ w_l,
           clock w_l = clock w
           ∧ crm w_l !! l_id l = Some l
           ∧ crm (process_leads leads res w).1 !! l_id l
             = crm (_process_nurturing_lead l w_l).1 !! l_id l)
        leads.
Proof.
  induction leads as [| l rest IH]; intros res w Hnd Hst.
  { cbn. split; [reflexivity |]. split; [reflexivity | constructor]. }
  rewrite fmap_cons in Hnd. apply NoDup_cons in Hnd as [Hfresh Hnd].
  apply Forall_cons in Hst as [Hl Hrest].
  destruct (process_leads_cons l rest res w) as (res' & es & Heq & _).
  rewrite Heq.
  destruct (process_frame l w Hl) as [Hclock Hframe].
  set (wa := mk_world (clock (_process_nurturing_lead l w).1)
               (crm (_process_nurturing_lead l w).1)
               (es ++ trace (_process_nurturing_lead l w).1)
               (tick (_process_nurturing_lead l w).1)) in *.
  assert (Forall (λ l', crm wa !! l_id l' = Some l') rest) as Hrest'.
  { apply Forall_forall. intros l' Hin. cbn [wa crm].
    rewrite Hframe; [exact (proj1 (Forall_forall _ _) Hrest l' Hin) |].
    intros Heq'. apply Hfresh. rewrite <- Heq'.
    apply list_elem_of_fmap_2. exact Hin. }
  destruct (IH res' wa Hnd Hrest') as (Hc & Hout & Hin).
  split; [rewrite Hc; exact Hclock |]. split.
  - intros id Hid. rewrite fmap_cons in Hid. apply not_elem_of_cons in Hid as [Hne Hid].
    rewrite (Hout id Hid). cbn [wa crm]. apply Hframe. exact Hne.
  - apply Forall_cons. split.
    + exists w. split; [reflexivity |]. split; [exact Hl |].
      rewrite (Hout (l_id l) Hfresh). reflexivity.
    + apply (Forall_impl _ _ _ Hin). intros l' (w_l & Hcl & Hsl & Hfl).
      exists w_l. split; [rewrite Hcl; exact Hclock |]. split; assumption.
Qed.

Lemma second_sweep (now : Z) (leads : list lead) :
  ∀ (res : sweep_result) (v : world),
    NoDup (l_id <$> leads) →
    Forall (quiet_or_completes now) leads →
    clock v = now →
    Forall (λ l, crm v !! l_id l = Some l) leads →
    (∃ es, trace (process_leads leads res v).1 = es ++ trace v
           ∧ List.filter is_email_send es = [])
    ∧ (∀ id, id ∉ l_id <$> leads →
         crm (process_leads leads res v).1 !! id = crm v !! id)
    ∧ Forall
        (λ l, crm (process_leads leads res v).1 !! l_id l = crm v !! l_id l
              ∨ (int (custom_get (l_custom l) "email_sequence_step" "0") = Ok 8
                 ∧ custom_get (crm (process_leads leads res v).1 !! l_id l ≫= l_custom)
                     "agent_state" "" = "SEQUENCE_COMPLETE"))
        leads.
Proof.
  induction leads as [| l rest IH]; intros res v Hnd Hq Hcv Hst.
  { cbn. split; [exists []; split; reflexivity |]. split; [reflexivity | constructor]. }
  rewrite fmap_cons in Hnd. apply NoDup_cons in Hnd as [Hfresh Hnd].
  apply Forall_cons in Hq as [Hql Hq].
  apply Forall_cons in Hst as [Hl Hrest].
  destruct (process_leads_cons l rest res v) as (res' & es & Heq & Hes).
  rewrite Heq. clear Heq.
  (* the world after the lead was processed *)
  assert (clock (_process_nurturing_lead l v).1 = now
          ∧ (∃ es1, trace (_process_nurturing_lead l v).1 = es1 ++ trace v
                    ∧ List.filter is_email_send es1 = [])
          ∧ (∀ id, id ≠ l_id l →
               crm (_process_nurturing_lead l v).1 !! id = crm v !! id)
          ∧ (crm (_process_nurturing_lead l v).1 !! l_id l = crm v !! l_id l
             ∨ (int (custom_get (l_custom l) "email_sequence_step" "0") = Ok 8
                ∧ custom_get (crm (_process_nurturing_lead l v).1 !! l_id l ≫= l_custom)
                    "agent_state" "" = "SEQUENCE_COMPLETE")))
    as (Hclock & (es1 & Htrace & Hes1) & Hframe & Hhead).
  { destruct (Hql v Hcv Hl) as [[r Hr] | (Hcur & ld & Hr)]; rewrite Hr; cbn [fst].
    - split; [exact Hcv |]. split; [exists []; split; reflexivity |].
      split; [reflexivity | left; reflexivity].
    - unfold completed. cbn [clock crm trace].
      split; [exact Hcv |]. split; [eexists [_; _; _]; split; reflexivity |].
      split; [intros id Hid; apply lookup_alter_ne; congruence |].
      right. split; [exact Hcur |]. apply agent_state_after_put. rewrite Hl. eauto. }
  set (wa := mk_world (clock (_process_nurturing_lead l v).1)
               (crm (_process_nurturing_lead l v).1)
               (es ++ trace (_process_nurturing_lead l v).1)
               (tick (_process_nurturing_lead l v).1)) in *.
  assert (Forall (λ l', crm wa !! l_id l' = Some l') rest) as Hrest'.
  { apply Forall_forall. intros l' Hin. cbn [wa crm].
    rewrite Hframe; [exact (proj1 (Forall_forall _ _) Hrest l' Hin) |].
    intros Heq'. apply Hfresh. rewrite <- Heq'.
    apply list_elem_of_fmap_2. exact Hin. }
  destruct (IH res' wa Hnd Hq Hclock Hrest') as ((es2 & Htrace2 & Hes2) & Hout & Hin).
  split; [| split].
  - exists (es2 ++ es ++ es1). split.
    + rewrite Htrace2. cbn [wa trace]. rewrite Htrace, <- !app_assoc. reflexivity.
    + rewrite !List.filter_app, Hes2, Hes, Hes1. reflexivity.
  - intros id Hid. rewrite fmap_cons in Hid. apply not_elem_of_cons in Hid as [Hne Hid].
    rewrite (Hout id Hid). cbn [wa crm]. apply Hframe. exact Hne.
  - apply Forall_cons. split.
    + rewrite (Hout (l_id l) Hfresh). cbn [wa crm]. exact Hhead.
    + apply Forall_forall. intros l' Hl'.
      pose proof (proj1 (Forall_forall _ _) Hin l' Hl') as Hcase.
      assert (l_id l' ≠ l_id l) as Hne.
      { intros Heq'. apply Hfresh. rewrite <- Heq'.
        apply list_elem_of_fmap_2. exact Hl'. }
      cbn [wa crm] in Hcase. rewrite (Hframe _ Hne) in Hcase. exact Hcase.
Qed.

Lemma run_over_world (leads : list lead) (w : world) :
  ∃ res,
    run_scheduled_tasks_over leads w
    = (mk_world (clock (process_leads leads (mk_sweep_result 0 0 0 0) w).1)
         (crm (process_leads leads (mk_sweep_result 0 0 0 0) w).1)
         (SlackPost
            (ScheduledRunComplete (leads_processed res) (emails_sent res)
               (bookings_detected res) (escalations res)) None
          :: trace (process_leads leads (mk_sweep_result 0 0 0 0) w).1)
         (tick (process_leads leads (mk_sweep_result 0 0 0 0) w).1),
       Ok res).
Proof.
  assert (∀ ls res0 w0, ∃ res, (process_leads ls res0 w0).2 = Ok res) as Hok.
  { induction ls as [| l rest IH]; intros res0 w0; [eexists; reflexivity |].
    destruct (process_leads_cons l rest res0 w0) as (res' & es & Heq & _).
    rewrite Heq. apply IH. }
  destruct (Hok leads (mk_sweep_result 0 0 0 0) w) as [res Hres].
  exists res. unfold run_scheduled_tasks_over. unfold bind at 1.
  destruct (process_leads leads (mk_sweep_result 0 0 0 0) w) as [wf r].
  cbn [snd] in Hres. subst r. reflexivity.
Qed.

(** C5, as the code has it. The sweep runs over leads held by the CRM
    (first run), and then again, at the same clock reading, over leads of
    the first run that are still in NURTURING, as the CRM holds them now
    (second run). Every request of both runs succeeds, no booking is
    detected, and no stored cursor is negative. Then the second run sends
    no e-mail, and every lead of the CRM is left as it was, except leads
    whose stored cursor is 8: these are moved to SEQUENCE_COMPLETE. *)
Theorem rerun_sweep_sends_nothing (w : world) (leads : list lead) :
  NoDup (l_id <$> leads) →
  Forall (λ l, crm w !! l_id l = Some l) leads →
  in_range (clock w) = true →
  isoformat (utcnow (clock w)) ≠ "" →
  fromisoformat (isoformat (utcnow (clock w))) = Some (utcnow (clock w)) →
  Forall (λ l, ∀ s, int (custom_get (l_custom l) "email_sequence_step" "0") = Ok s
               → 0 ≤ s) leads →
  let w1 := (run_scheduled_tasks_over leads w).1 in
  ∀ leads1 : list lead,
    NoDup (l_id <$> leads1) →
    Forall (λ l1, l_id l1 ∈ l_id <$> leads
                  ∧ crm w1 !! l_id l1 = Some l1
                  ∧ custom_get (l_custom l1) "agent_state" "" = "NURTURING") leads1 →
    let w2 := (run_scheduled_tasks_over leads1 w1).1 in
    List.filter is_email_send (new_events w1 w2) = []
    ∧ ∀ id, crm w2 !! id = crm w1 !! id
            ∨ (int (cursor_of w1 id) = Ok 8
               ∧ agent_state_of w2 id = "SEQUENCE_COMPLETE").
Proof.
  intros Hnd Hst Hrange Hne Hiso Hcur. cbv zeta. intros leads1 Hnd1 Hl1.
  destruct (run_over_world leads w) as [res Hrun].
  rewrite Hrun in Hl1 |- *. cbn [fst] in Hl1 |- *.
  destruct (first_sweep leads (mk_sweep_result 0 0 0 0) w Hnd Hst)
    as (Hclock & _ & Hper).
  set (pf := (process_leads leads (mk_sweep_result 0 0 0 0) w).1) in *.
  set (w1 := mk_world (clock pf) (crm pf) _ (tick pf)) in *.
  assert (Forall (quiet_or_completes (clock w)) leads1) as Hq.
  { apply Forall_forall. intros l1 Hin.
    destruct (proj1 (Forall_forall _ _) Hl1 l1 Hin) as (Hid & Hstored & Hstate).
    apply list_elem_of_fmap in Hid as (l & Hideq & Hlin).
    destruct (proj1 (Forall_forall _ _) Hper l Hlin) as (w_l & Hcl & Hsl & Hfl).
    cbn [w1 crm] in Hstored.
    destruct (rerun_step w_l l l1) as [_ Hql]; try assumption.
    - rewrite Hcl. exact Hrange.
    - rewrite Hcl. exact Hne.
    - rewrite Hcl. exact Hiso.
    - exact (proj1 (Forall_forall _ _) Hcur l Hlin).
    - rewrite <- Hfl, <- Hideq. exact Hstored.
    - rewrite <- Hcl. exact Hql. }
  assert (Forall (λ l1, crm w1 !! l_id l1 = Some l1) leads1) as Hst1.
  { apply (Forall_impl _ _ _ Hl1). intros l1 (_ & Hstored & _). exact Hstored. }
  destruct (run_over_world leads1 w1) as [res2 Hrun2]. rewrite Hrun2. cbn [fst].
  destruct (second_sweep (clock w) leads1 (mk_sweep_result 0 0 0 0) w1 Hnd1 Hq
              Hclock Hst1) as ((es & Htr & Hes) & Hout & Hin).
  split.
  - match goal with
    | |- List.filter _ (new_events w1 ?w2) = _ =>
        assert (new_events w1 w2
                = SlackPost
                    (ScheduledRunComplete (leads_processed res2) (emails_sent res2)
                       (bookings_detected res2) (escalations res2)) None :: es)
          as Hev by (apply new_events_app; cbn [trace]; rewrite Htr; reflexivity)
    end.
    rewrite Hev. cbn [List.filter is_email_send]. exact Hes.
  - intros id. cbn [crm].
    destruct (decide (id ∈ l_id <$> leads1)) as [Hid | Hid].
    + apply list_elem_of_fmap in Hid as (l1 & -> & Hl1in).
      pose proof (proj1 (Forall_forall _ _) Hst1 l1 Hl1in) as Hstored.
      destruct (proj1 (Forall_forall _ _) Hin l1 Hl1in) as [Hsame | [Hc Hs]].
      * left. exact Hsame.
      * right. split; [| exact Hs].
        unfold cursor_of. rewrite Hstored. exact Hc.
    + left. apply Hout. exact Hid.
Qed.

End sweep_rerun.

(** A lead at cursor 1 whose second e-mail is due: the first run sends it,
    the second run, over the lead as stored, sends nothing. *)
Lemma rerun_sweep_sends_nothing_witness :
  let R := examples.remote_of examples.always_ok None examples.escalate_and_book in
  let l := examples.ada "1" "2024-03-01T09:00:00" "NURTURING" in
  let w := examples.world_of examples.t_mar04 l in
  let w1 := (agent.run_scheduled_tasks_over (D := iso8601) (R := R) [l] w).1 in
  ∃ l1, crm w1 !! "lead_1" = Some l1
    ∧ custom_get (l_custom l1) "email_sequence_step" "0" = "2"
    ∧ List.filter is_email_send
        (new_events w1
           (agent.run_scheduled_tasks_over (D := iso8601) (R := R) [l1] w1).1)
      = [].
Proof.
  cbv zeta.
  destruct (crm (agent.run_scheduled_tasks_over (D := iso8601)
                   (R := examples.remote_of examples.always_ok None
                           examples.escalate_and_book)
                   [examples.ada "1" "2024-03-01T09:00:00" "NURTURING"]
                   (examples.world_of examples.t_mar04
                      (examples.ada "1" "2024-03-01T09:00:00" "NURTURING"))).1
            !! "lead_1") as [l1 |] eqn:Hl1; [| vm_compute in Hl1; discriminate].
  exists l1. split; [reflexivity |].
  assert (l_id l1 = "lead_1"
          ∧ custom_get (l_custom l1) "agent_state" "" = "NURTURING"
          ∧ custom_get (l_custom l1) "email_sequence_step" "0" = "2")
    as (Hid & Hstate & Hstep).
  { pose proof Hl1 as Hl1'. vm_compute in Hl1'. injection Hl1' as <-.
    repeat split; vm_compute; reflexivity. }
  split; [exact Hstep |].
  apply (rerun_sweep_sends_nothing (D := iso8601)
           (R := examples.remote_of examples.always_ok None examples.escalate_and_book)
           (fun n => eq_refl)
           (fun a b (H : Ok None = Ok (Some b)) =>
              eq_ind (Ok None)
                (fun r => match r with Ok None => True | _ => False end) I _ H)
           (examples.world_of examples.t_mar04
              (examples.ada "1" "2024-03-01T09:00:00" "NURTURING"))
           [examples.ada "1" "2024-03-01T09:00:00" "NURTURING"]).
  - repeat constructor. vm_compute. intros H. inversion H.
  - repeat constructor.
  - vm_compute. reflexivity.
  - vm_compute. discriminate.
  - vm_compute. reflexivity.
  - repeat constructor. intros s Hs. vm_compute in Hs. injection Hs as <-. lia.
  - repeat constructor. rewrite Hid. vm_compute. intros H. inversion H.
  - apply Forall_cons. split; [| constructor].
    split; [rewrite Hid; vm_compute; constructor |].
    rewrite Hid. split; [exact Hl1 | exact Hstate].
Defined.

(** * More of the code: lookups, formatting, intake and the calendar *)

(** ** Symbolic runs *)

Ltac run_all :=
  unfold pass;
  unfold bind, ret, raise, lift, emit, request, get_world, set_crm,
    try_except;
  cbn [clock crm trace tick fst snd].

(** Case analysis on the innermost scrutinee of the goal. *)
Ltac case_step :=
  match goal with
  | |- context [match ?x with _ => _ end] =>
      lazymatch x with
      | context [match _ with _ => _ end] => fail
      | _ => destruct x eqn:?
      end
  end.

Ltac run_cases := repeat (case_step; cbn [clock crm trace tick fst snd]).

Ltac prefix_of t base :=
  lazymatch t with
  | base => constr:(@nil event)
  | ?e :: ?r => let p := prefix_of r base in constr:(e :: p)
  end.

(** Rewrites [new_events w w'] into the list of events [w'] has on top of [w]. *)
Ltac events :=
  repeat match goal with
         | |- context [new_events ?w ?w'] =>
             let t := eval cbn [trace] in (trace w') in
             let p := prefix_of t (trace w) in
             rewrite (new_events_app w w' p) by reflexivity
         end.

Ltac give_events :=
  cbn [trace fst snd];
  match goal with
  | |- ∃ es, ?t = es ++ ?base ∧ _ =>
      let p := prefix_of t base in exists p; split; [reflexivity |]
  end.

Ltac unfold_clients :=
  unfold close_sync.get_lead_by_email, email_engine.send_nurture_email,
    email_engine.send_booked_asset_pack, close_sync.update_lead_state,
    close_sync.mark_as_booked, close_sync.update_email_tracking;
  unfold close_sync.search_first, close_sync.put_lead, close_sync._log_activity,
    slack_bot.send_notification, email_engine._send_email, email_engine.item.

(** ** The cadence scheduler over time *)

Section scheduler_time.
Context `{D : DatetimeLib}.
Import email_engine.

(** X1: once the scheduler answers ready for a step of a lead record, it
    answers ready at every later clock reading, as long as the record is
    not changed: a due step is never skipped by waiting. *)
Theorem should_send_email_stays_due (now later : Z) (ld : lead_data) (step : Z) :
  now ≤ later →
  should_send_email now ld step = true →
  should_send_email later ld step = true.
Proof.
  intros Hle. unfold should_send_email.
  destruct (negb (truthy _)); [tauto |].
  destruct (fromisoformat _) as [last_sent |]; [| tauto].
  unfold get_next_email_date.
  destruct (add_days last_sent _) as [next_send |]; [| tauto].
  unfold ge, utcnow. cbn [tzinfo us].
  destruct (tzinfo next_send); [tauto |].
  intros Hdue. apply Z.leb_le in Hdue. apply Z.leb_le. lia.
Qed.

End scheduler_time.

(** Step 2 of a lead welcomed on 2024-03-01T09:00:00 is due on 03-04 and
    still due a day later. *)
Lemma should_send_email_stays_due_witness :
  (examples.t_mar04 ≤ examples.t_mar04 + us_per_day
   ∧ email_engine.should_send_email (D := iso8601) examples.t_mar04 examples.ld_step1 2
     = true)
  ∧ email_engine.should_send_email (D := iso8601)
      (examples.t_mar04 + us_per_day) examples.ld_step1 2 = true.
Proof.
  assert (examples.t_mar04 ≤ examples.t_mar04 + us_per_day) as Hle
    by (unfold us_per_day; lia).
  assert (email_engine.should_send_email (D := iso8601) examples.t_mar04
            examples.ld_step1 2 = true) as Hdue by (vm_compute; reflexivity).
  split; [split; assumption |].
  exact (should_send_email_stays_due (D := iso8601) examples.t_mar04
           (examples.t_mar04 + us_per_day) examples.ld_step1 2 Hle Hdue).
Defined.

Section sweep_timestamp.
Context `{D : DatetimeLib} `{R : Remote}.
Import agent.

Lemma extract_custom (l : lead) (ld : lead_data) :
  _extract_lead_data l = Ok ld → custom ld = Some (default ∅ (l_custom l)).
Proof.
  unfold _extract_lead_data.
  destruct (default [empty_contact] _); [discriminate |].
  destruct (_get_lead_email l); [| discriminate].
  destruct (default [None] _); [discriminate |].
  intros [= <-]. reflexivity.
Qed.

Lemma extract_address (l : lead) (ld : lead_data) :
  _extract_lead_data l = Ok ld →
  ∃ addr, _get_lead_email l = Ok addr ∧ default "" addr = first_address l.
Proof.
  unfold _extract_lead_data, first_address.
  destruct (default [empty_contact] _); [discriminate |].
  destruct (_get_lead_email l) as [addr |]; [| discriminate].
  intros _. exists addr. split; [reflexivity |]. destruct addr; reflexivity.
Qed.

(** X2: a lead below cursor 8 whose stored last-sent timestamp is not
    empty and parses only to a datetime with a UTC offset (for instance a
    timestamp ending in +00:00 written by another tool) is skipped by the
    sweep's per-lead step at every clock reading: nothing is sent, written
    or notified and no flag is set, so the sequence stalls silently. *)
Theorem sweep_skips_unusable_timestamp (l : lead) (ld : lead_data) (s : Z) :
  _extract_lead_data l = Ok ld →
  int (custom_get (l_custom l) "email_sequence_step" "0") = Ok s →
  s < 8 →
  check_booking (first_address l) = Ok None →
  custom_get (l_custom l) "last_email_sent" "" ≠ "" →
  (∀ d, fromisoformat (custom_get (l_custom l) "last_email_sent" "") = Some d →
        tzinfo d ≠ None) →
  ∀ w, _process_nurturing_lead l w = (w, Ok (mk_lead_result false false false)).
Proof.
  intros Hld Hs Hlt Hnb Hne Haware w.
  destruct (extract_address l ld Hld) as (addr & Haddr & Hfirst).
  rewrite (process_without_booking l w addr s Haddr Hs)
    by (intros _; rewrite Hfirst; exact Hnb).
  apply (next_step_not_due l s w ld); [lia | exact Hld |].
  assert (custom_get (custom ld) "last_email_sent" ""
          = custom_get (l_custom l) "last_email_sent" "") as Hc.
  { rewrite (extract_custom l ld Hld). unfold custom_get.
    destruct (l_custom l); reflexivity. }
  apply should_send_email_aware; rewrite Hc; assumption.
Qed.

End sweep_timestamp.

(** Three days after a welcome e-mail stamped 2024-03-01T09:00:00+00:00
    the sweep still does nothing for the lead. *)
Lemma sweep_skips_unusable_timestamp_witness :
  agent._process_nurturing_lead (D := iso8601)
    (R := examples.remote_of examples.always_ok None examples.escalate_and_book)
    samples.utc_stamped (examples.world_of examples.t_mar04 samples.utc_stamped)
  = (examples.world_of examples.t_mar04 samples.utc_stamped,
     Ok (agent.mk_lead_result false false false)).
Proof.
  destruct (agent._extract_lead_data samples.utc_stamped) as [ld |] eqn:Hld;
    [| vm_compute in Hld; discriminate].
  apply (sweep_skips_unusable_timestamp (D := iso8601)
           (R := examples.remote_of examples.always_ok None examples.escalate_and_book)
           samples.utc_stamped ld 2 Hld).
  - vm_compute. reflexivity.
  - lia.
  - reflexivity.
  - vm_compute. discriminate.
  - intros d Hd. vm_compute in Hd. injection Hd as <-. discriminate.
Defined.

(** ** Sender normalisation *)

Section strings.

Lemma prefix_empty (s : string) : String.prefix "" s = true.
Proof. destruct s; reflexivity. Qed.

Lemma prefix_char (c a : ascii) (r : string) :
  String.prefix (String c "") (String a r) = Ascii.eqb c a.
Proof.
  cbn. destruct (ascii_dec c a) as [-> | Hne].
  - rewrite prefix_empty, Ascii.eqb_refl. reflexivity.
  - symmetry. apply Ascii.eqb_neq. exact Hne.
Qed.

(** [c in s] for a character [c] *)
Lemma contains_char_cons (c a : ascii) (r : string) :
  contains (String c "") (String a r)
  = Ascii.eqb c a || contains (String c "") r.
Proof. cbn [contains]. rewrite prefix_char. reflexivity. Qed.

Lemma contains_char_empty (c : ascii) : contains (String c "") "" = false.
Proof. reflexivity. Qed.

Lemma contains_char_app (c : ascii) (s t : string) :
  contains (String c "") (s +:+ t)
  = contains (String c "") s || contains (String c "") t.
Proof.
  induction s as [| a r IH].
  - reflexivity.
  - change (String a r +:+ t) with (String a (r +:+ t)).
    rewrite !contains_char_cons, IH, orb_assoc. reflexivity.
Qed.

Lemma before_first_app (sep : ascii) (s rest : string) :
  contains (String sep "") s = false →
  before_first sep (s +:+ String sep rest) = s.
Proof.
  induction s as [| a r IH]; intros Hs.
  - change ("" +:+ String sep rest) with (String sep rest).
    cbn [before_first]. rewrite Ascii.eqb_refl. reflexivity.
  - rewrite contains_char_cons in Hs. apply orb_false_iff in Hs as [Ha Hr].
    change (String a r +:+ String sep rest) with (String a (r +:+ String sep rest)).
    cbn [before_first]. rewrite Ascii.eqb_sym, Ha, (IH Hr). reflexivity.
Qed.

Lemma before_first_none (sep : ascii) (s : string) :
  contains (String sep "") s = false → before_first sep s = s.
Proof.
  induction s as [| a r IH]; intros Hs; [reflexivity |].
  rewrite contains_char_cons in Hs. apply orb_false_iff in Hs as [Ha Hr].
  cbn [before_first]. rewrite Ascii.eqb_sym, Ha, (IH Hr). reflexivity.
Qed.

Lemma before_first_skip (sep : ascii) (s t : string) :
  contains (String sep "") s = false →
  before_first sep (s +:+ t) = s +:+ before_first sep t.
Proof.
  induction s as [| a r IH]; intros Hs; [reflexivity |].
  rewrite contains_char_cons in Hs. apply orb_false_iff in Hs as [Ha Hr].
  change (String a r +:+ t) with (String a (r +:+ t)).
  cbn [before_first]. rewrite Ascii.eqb_sym, Ha, (IH Hr). reflexivity.
Qed.

Lemma after_first_app (sep : ascii) (s rest : string) :
  contains (String sep "") s = false →
  after_first sep (s +:+ String sep rest) = Some rest.
Proof.
  induction s as [| a r IH]; intros Hs.
  - change ("" +:+ String sep rest) with (String sep rest).
    cbn [after_first]. rewrite Ascii.eqb_refl. reflexivity.
  - rewrite contains_char_cons in Hs. apply orb_false_iff in Hs as [Ha Hr].
    change (String a r +:+ String sep rest) with (String a (r +:+ String sep rest)).
    cbn [after_first]. rewrite Ascii.eqb_sym, Ha. exact (IH Hr).
Qed.

Lemma after_first_none (sep : ascii) (s : string) :
  contains (String sep "") s = false → after_first sep s = None.
Proof.
  induction s as [| a r IH]; intros Hs; [reflexivity |].
  rewrite contains_char_cons in Hs. apply orb_false_iff in Hs as [Ha Hr].
  cbn [after_first]. rewrite Ascii.eqb_sym, Ha. exact (IH Hr).
Qed.

Lemma lower_app (s t : string) : lower (s +:+ t) = lower s +:+ lower t.
Proof.
  induction s as [| a r IH]; [reflexivity |].
  change (String a r +:+ t) with (String a (r +:+ t)).
  cbn [lower]. rewrite IH. reflexivity.
Qed.

Lemma lower_char_idem (c : ascii) : lower_char (lower_char c) = lower_char c.
Proof. destruct c as [[] [] [] [] [] [] [] []]; reflexivity. Qed.

Lemma lower_idem (s : string) : lower (lower s) = lower s.
Proof.
  induction s as [| a r IH]; [reflexivity |].
  cbn [lower]. rewrite lower_char_idem, IH. reflexivity.
Qed.

(** Lowering creates no angle bracket. *)
Lemma lower_char_lt (c : ascii) : Ascii.eqb "<" (lower_char c) = Ascii.eqb "<" c.
Proof. destruct c as [[] [] [] [] [] [] [] []]; reflexivity. Qed.

Lemma lower_char_gt (c : ascii) : Ascii.eqb ">" (lower_char c) = Ascii.eqb ">" c.
Proof. destruct c as [[] [] [] [] [] [] [] []]; reflexivity. Qed.

Lemma contains_lt_lower (s : string) : contains "<" (lower s) = contains "<" s.
Proof.
  induction s as [| a r IH]; [reflexivity |].
  cbn [lower]. rewrite !contains_char_cons, lower_char_lt, IH. reflexivity.
Qed.

Lemma contains_gt_lower (s : string) : contains ">" (lower s) = contains ">" s.
Proof.
  induction s as [| a r IH]; [reflexivity |].
  cbn [lower]. rewrite !contains_char_cons, lower_char_gt, IH. reflexivity.
Qed.

End strings.

Section sender_address.
Import email_reply_handler.

Lemma clean_address_bracketed (display addr rest : string) :
  contains "<" display = false →
  contains "<" addr = false →
  contains ">" addr = false →
  clean_address (display +:+ "<" +:+ addr +:+ ">" +:+ rest) = addr.
Proof.
  intros Hd Ha Hg. unfold clean_address.
  change (display +:+ "<" +:+ addr +:+ ">" +:+ rest)
    with (display +:+ String "<" (addr +:+ String ">" rest)).
  rewrite (after_first_app "<" display _ Hd).
  rewrite (before_first_skip "<" addr _ Ha).
  change (String ">" rest) with (String ">" "" +:+ rest) at 1.
  cbn [before_first]. change (Ascii.eqb ">" "<") with false. cbn iota.
  apply before_first_app. exact Hg.
Qed.

Lemma clean_address_plain (addr : string) :
  contains "<" addr = false → clean_address addr = addr.
Proof.
  intros Ha. unfold clean_address. rewrite (after_first_none "<" addr Ha). reflexivity.
Qed.

Context `{D : DatetimeLib} `{R : Remote}.

(** X3: the inbound e-mail router treats a sender written with a display
    name, [Display <Addr>trailer], exactly like the bare address in lower
    case: the lookup, every effect and the result are the same (the display
    name holds no [<] and the address no angle bracket). *)
Theorem inbound_email_sender_normalised (display addr rest : string)
    (subj text html : option string) :
  contains "<" display = false →
  contains "<" addr = false →
  contains ">" addr = false →
  handle_inbound_email
    (mk_inbound_email (Some (display +:+ "<" +:+ addr +:+ ">" +:+ rest)) subj text html)
  = handle_inbound_email (mk_inbound_email (Some (lower addr)) subj text html).
Proof.
  intros Hd Ha Hg. unfold handle_inbound_email. cbn [from_ subject_ text_ html_].
  change (default "" (Some (display +:+ "<" +:+ addr +:+ ">" +:+ rest)))
    with (display +:+ "<" +:+ addr +:+ ">" +:+ rest).
  change (default "" (Some (lower addr))) with (lower addr).
  assert (clean_address (lower (display +:+ "<" +:+ addr +:+ ">" +:+ rest))
          = lower addr) as ->.
  { rewrite !lower_app. change (lower "<") with "<". change (lower ">") with ">".
    apply clean_address_bracketed; rewrite ?contains_lt_lower, ?contains_gt_lower;
      assumption. }
  rewrite lower_idem.
  rewrite (clean_address_plain (lower addr))
    by (rewrite contains_lt_lower; exact Ha).
  reflexivity.
Qed.

End sender_address.

Lemma inbound_email_sender_normalised_witness :
  email_reply_handler.handle_inbound_email (D := iso8601)
    (R := examples.remote_of examples.always_ok None examples.escalate_and_book)
    (email_reply_handler.mk_inbound_email (Some "Ada Lovelace <Ada@Example.com>")
       (Some "Re: pricing") (Some "What does it cost?") None)
  = email_reply_handler.handle_inbound_email (D := iso8601)
      (R := examples.remote_of examples.always_ok None examples.escalate_and_book)
      (email_reply_handler.mk_inbound_email (Some "ada@example.com")
         (Some "Re: pricing") (Some "What does it cost?") None).
Proof.
  exact (inbound_email_sender_normalised (D := iso8601)
           (R := examples.remote_of examples.always_ok None examples.escalate_and_book)
           "Ada Lovelace " "Ada@Example.com" ""
           (Some "Re: pricing") (Some "What does it cost?") None
           eq_refl eq_refl eq_refl).
Defined.

(** ** Phone numbers *)

Section phone.
Import sms_handler.

Lemma replace_char (c : ascii) (s : string) :
  replace (String c "") "" s = string_filter (fun a => negb (Ascii.eqb c a)) s.
Proof.
  unfold replace. induction s as [| a r IH]; [reflexivity |].
  cbn [replace_from string_filter]. rewrite prefix_char.
  destruct (Ascii.eqb c a); cbn [negb].
  - exact IH.
  - rewrite IH. reflexivity.
Qed.

Lemma phone_char_not_plus (c : ascii) : phone_char c = true → "+"%char ≠ c.
Proof. intros Hc <-. discriminate Hc. Qed.

Lemma replace_plus_one_none (s : string) :
  string_forall phone_char s = true → replace "+1" "" s = s.
Proof.
  unfold replace. induction s as [| a r IH]; intros Hs; [reflexivity |].
  cbn [string_forall] in Hs. apply andb_true_iff in Hs as [Ha Hr].
  cbn [replace_from String.prefix].
  destruct (ascii_dec "+" a) as [Heq | _];
    [exfalso; exact (phone_char_not_plus a Ha Heq) |].
  rewrite (IH Hr). reflexivity.
Qed.

Lemma string_filter_twice (p q : ascii → bool) (s : string) :
  string_filter p (string_filter q s) = string_filter (fun c => q c && p c) s.
Proof.
  induction s as [| a r IH]; [reflexivity |].
  cbn [string_filter]. destruct (q a); cbn [andb string_filter].
  - destruct (p a); rewrite IH; reflexivity.
  - exact IH.
Qed.

Lemma string_filter_ext (p q : ascii → bool) (ok : ascii → bool) (s : string) :
  (∀ c, ok c = true → p c = q c) →
  string_forall ok s = true → string_filter p s = string_filter q s.
Proof.
  intros Hpq. induction s as [| a r IH]; intros Hs; [reflexivity |].
  cbn [string_forall] in Hs. apply andb_true_iff in Hs as [Ha Hr].
  cbn [string_filter]. rewrite (Hpq a Ha), (IH Hr). reflexivity.
Qed.

Lemma phone_char_digit (c : ascii) :
  phone_char c = true →
  negb (Ascii.eqb "-" c) && negb (Ascii.eqb " " c) = is_digit c.
Proof.
  unfold phone_char. intros Hc.
  destruct (Ascii.eqb_spec "-" c) as [<- | Hd]; [reflexivity |].
  destruct (Ascii.eqb_spec " " c) as [<- | Hs]; [reflexivity |].
  cbn [negb andb].
  destruct (is_digit c); [reflexivity |].
  cbn [orb] in Hc. apply orb_true_iff in Hc as [Hc | Hc];
    apply Ascii.eqb_eq in Hc; congruence.
Qed.

Lemma clean_phone_digits (s : string) :
  string_forall phone_char s = true →
  clean_phone s = string_filter is_digit s.
Proof.
  intros Hs. unfold clean_phone. rewrite (replace_plus_one_none s Hs).
  change "-" with (String "-" ""). change " " with (String " " "").
  rewrite !replace_char, string_filter_twice.
  apply (string_filter_ext _ _ phone_char); [| exact Hs].
  intros c Hc. apply phone_char_digit. exact Hc.
Qed.

Lemma clean_phone_country_code (s : string) :
  clean_phone ("+1" +:+ s) = clean_phone s.
Proof.
  unfold clean_phone. f_equal. f_equal. unfold replace.
  change ("+1" +:+ s) with (String "+" (String "1" s)).
  cbn. rewrite prefix_empty. reflexivity.
Qed.

Context `{R : Remote}.

(** X4: a phone number written with digits, dashes and spaces is looked
    up by its digits alone, with or without a leading +1, and the SMS router
    and the call webhook build the same CRM query for it. *)
Theorem phone_lookup_normalised (s : string) :
  string_forall phone_char s = true →
  clean_phone s = string_filter is_digit s
  ∧ clean_phone ("+1" +:+ s) = string_filter is_digit s
  ∧ sms_handler._find_lead_by_phone ("+1" +:+ s)
    = sms_handler._find_lead_by_phone (string_filter is_digit s)
  ∧ vapi_handler._find_lead_by_phone ("+1" +:+ s)
    = sms_handler._find_lead_by_phone s.
Proof.
  intros Hs.
  assert (string_forall phone_char (string_filter is_digit s) = true) as Hd.
  { clear Hs. induction s as [| a r IH]; [reflexivity |].
    cbn [string_filter]. destruct (is_digit a) eqn:Ha; [| exact IH].
    cbn [string_forall]. unfold phone_char at 1. rewrite Ha, IH. reflexivity. }
  assert (string_filter is_digit (string_filter is_digit s)
          = string_filter is_digit s) as Hidem.
  { rewrite string_filter_twice. apply (string_filter_ext _ _ (fun _ => true)).
    - intros c _. destruct (is_digit c); reflexivity.
    - clear. induction s; [reflexivity | assumption]. }
  split; [apply clean_phone_digits; exact Hs |].
  split; [rewrite clean_phone_country_code; apply clean_phone_digits; exact Hs |].
  unfold sms_handler._find_lead_by_phone, vapi_handler._find_lead_by_phone.
  rewrite clean_phone_country_code, (clean_phone_digits s Hs),
    (clean_phone_digits _ Hd), Hidem.
  split; reflexivity.
Qed.

End phone.

Lemma phone_lookup_normalised_witness :
  string_forall phone_char "555-123 4567" = true
  ∧ sms_handler.clean_phone "+1555-123 4567" = "5551234567"
  ∧ vapi_handler._find_lead_by_phone
      (R := examples.remote_of examples.always_ok None examples.escalate_and_book)
      "+1555-123 4567"
    = sms_handler._find_lead_by_phone
        (R := examples.remote_of examples.always_ok None examples.escalate_and_book)
        "555-123 4567".
Proof.
  split; [reflexivity |].
  pose proof (phone_lookup_normalised
                (R := examples.remote_of examples.always_ok None
                        examples.escalate_and_book)
                "555-123 4567" eq_refl) as (_ & Hclean & _ & Hsame).
  split; [exact Hclean | exact Hsame].
Defined.

(** ** The conversation window *)

Section window.
Import conversation_intelligence ConversationIntelligence.

Lemma last_n_app {A} (n : nat) (old recent : list A) :
  (n ≤ length recent)%nat → last_n n (old ++ recent) = last_n n recent.
Proof.
  intros Hn. unfold last_n. rewrite length_app.
  replace (length old + length recent - n)%nat
    with (length old + (length recent - n))%nat by lia.
  rewrite <- drop_drop. rewrite drop_app_length. reflexivity.
Qed.

(** X5: both readers of a conversation history look at its end only: the
    call-trigger policy decides on the last 5 messages and the history
    handed to the model holds the last 10, so older messages change
    neither. *)
Theorem conversation_window (lead_context : lead_data) (old recent : list message) :
  ((5 ≤ length recent)%nat →
   should_make_call lead_context (old ++ recent)
   = should_make_call lead_context recent)
  ∧ ((10 ≤ length recent)%nat →
     _format_history (old ++ recent) = _format_history recent).
Proof.
  split; intros Hn.
  - unfold should_make_call. rewrite (last_n_app 5 old recent Hn). reflexivity.
  - unfold _format_history. rewrite (last_n_app 10 old recent Hn).
    destruct recent as [| m recent']; [cbn in Hn; lia |].
    destruct old; reflexivity.
Qed.

End window.

(** ** Activity notes *)

Section notes.
Import CloseClient.
Context `{D : DatetimeLib}.

Lemma format_metadata_pii (a b : list (string * string)) :
  same_but_pii a b →
  List.filter (fun kv => truthy kv.2 && negb (pii_key kv.1)) a
  = List.filter (fun kv => truthy kv.2 && negb (pii_key kv.1)) b.
Proof.
  induction 1 as [| [k v] [k' v'] a b [Hk Hv] _ IH]; [reflexivity |].
  cbn [fst snd] in Hk, Hv. subst k'. cbn [List.filter fst snd].
  destruct (pii_key k) eqn:Hp.
  - rewrite !andb_false_r. exact IH.
  - rewrite (Hv eq_refl), IH. reflexivity.
Qed.

(** X6: the metadata section of an activity note never shows the values
    of the keys [email] and [phone]: two metadata dicts that differ only in
    these values give the same note text. *)
Theorem note_content_hides_pii (now : Z) (note : string)
    (a b : list (string * string)) :
  same_but_pii a b →
  _format_metadata a = _format_metadata b
  ∧ note_content now note a = note_content now note b.
Proof.
  intros Hab.
  assert (_format_metadata a = _format_metadata b) as Hf.
  { unfold _format_metadata. rewrite (format_metadata_pii a b Hab). reflexivity. }
  split; [exact Hf |].
  unfold note_content. rewrite Hf.
  destruct Hab; reflexivity.
Qed.

End notes.

Lemma note_content_hides_pii_witness :
  same_but_pii [("email", "ada@example.com"); ("priority", "high")]
    [("email", "bob@example.com"); ("priority", "high")]
  ∧ CloseClient.note_content (D := iso8601) examples.t_mar01 "Lead created"
      [("email", "ada@example.com"); ("priority", "high")]
    = CloseClient.note_content (D := iso8601) examples.t_mar01 "Lead created"
        [("email", "bob@example.com"); ("priority", "high")].
Proof.
  assert (same_but_pii [("email", "ada@example.com"); ("priority", "high")]
            [("email", "bob@example.com"); ("priority", "high")]) as Hsame.
  { repeat constructor. cbn. discriminate. }
  split; [exact Hsame |].
  exact (proj2 (note_content_hides_pii (D := iso8601) examples.t_mar01 "Lead created"
                  _ _ Hsame)).
Defined.

(** ** The HTML of an AI response *)

Section html.
Import EmailReplyHandler.

Lemma split_on_nonempty (sep : ascii) (s : string) : split_on sep s ≠ [].
Proof.
  destruct s as [| c r]; [discriminate |]. cbn [split_on].
  destruct (Ascii.eqb c sep); [discriminate |].
  destruct (split_on sep r); discriminate.
Qed.

Lemma append_cons (c : ascii) (r t : string) : String c r +:+ t = String c (r +:+ t).
Proof. reflexivity. Qed.

Lemma append_nil_r (s : string) : s +:+ "" = s.
Proof.
  induction s as [| c r IH]; [reflexivity |]. rewrite append_cons, IH. reflexivity.
Qed.

Lemma append_assoc (a b c : string) : (a +:+ b) +:+ c = a +:+ (b +:+ c).
Proof.
  induction a as [| x r IH]; [reflexivity |]. rewrite !append_cons, IH. reflexivity.
Qed.

Lemma split_on_app (sep : ascii) (a b : string) :
  split_on sep (a +:+ String sep b) = split_on sep a ++ split_on sep b.
Proof.
  induction a as [| c r IH].
  - change ("" +:+ String sep b) with (String sep b).
    cbn [split_on]. rewrite Ascii.eqb_refl. reflexivity.
  - change (String c r +:+ String sep b) with (String c (r +:+ String sep b)).
    cbn [split_on]. rewrite IH.
    destruct (Ascii.eqb c sep); [reflexivity |].
    pose proof (split_on_nonempty sep r) as Hne.
    destruct (split_on sep r); [contradiction | reflexivity].
Qed.

Lemma split_on_single (sep : ascii) (p : string) :
  contains (String sep "") p = false → split_on sep p = [p].
Proof.
  induction p as [| c r IH]; intros Hp; [reflexivity |].
  cbn [contains] in Hp. apply orb_false_iff in Hp as [Hc Hr].
  assert (Ascii.eqb c sep = false) as Hne.
  { cbn in Hc. destruct (ascii_dec sep c) as [-> | Hne].
    - destruct r; discriminate Hc.
    - apply Ascii.eqb_neq. congruence. }
  cbn [split_on]. rewrite Hne, (IH Hr). reflexivity.
Qed.

Lemma join_empty_app (l1 l2 : list string) :
  join "" (l1 ++ l2) = join "" l1 +:+ join "" l2.
Proof.
  induction l1 as [| x l1 IH]; [reflexivity |].
  change ((x :: l1) ++ l2) with (x :: (l1 ++ l2)).
  assert (∀ l, join "" (x :: l) = x +:+ join "" l) as Hcons.
  { intros [| y l]; cbn [join]; [rewrite append_nil_r; reflexivity | reflexivity]. }
  rewrite !Hcons, IH, append_assoc. reflexivity.
Qed.

(** X7: the HTML of an AI answer is built line by line: the HTML of two
    texts joined by a newline is the concatenation of their HTML, and a
    single line becomes one paragraph, or nothing when it is blank. *)
Theorem format_for_email_by_line :
  (∀ a b : string,
     _format_for_email (a +:+ newline +:+ b)
     = _format_for_email a +:+ _format_for_email b)
  ∧ (∀ p : string,
       contains newline p = false →
       _format_for_email p
       = if truthy (strip p) then "<p>" +:+ p +:+ "</p>" else "").
Proof.
  split.
  - intros a b. unfold _format_for_email.
    change (a +:+ newline +:+ b) with (a +:+ String (ascii_of_nat 10) b).
    rewrite split_on_app, List.filter_app, fmap_app, join_empty_app. reflexivity.
  - intros p Hp. unfold _format_for_email.
    rewrite (split_on_single (ascii_of_nat 10) p Hp). cbn [List.filter].
    destruct (truthy (strip p)); reflexivity.
Qed.

End html.

(** ** The length of an SMS answer *)

Section sms_length.
Import sms_handler.
Context `{R : Remote}.

Lemma length_append (a b : string) :
  String.length (a +:+ b) = (String.length a + String.length b)%nat.
Proof.
  induction a as [| c r IH]; [reflexivity |].
  rewrite append_cons. cbn [String.length]. rewrite IH. reflexivity.
Qed.

Lemma length_take_str (n : nat) (s : string) :
  (n ≤ String.length s)%nat → String.length (take_str n s) = n.
Proof.
  unfold take_str. revert s. induction n as [| n IH]; intros s Hn.
  - destruct s; reflexivity.
  - destruct s as [| c r]; [cbn in Hn; lia |].
    cbn [substring String.length]. rewrite IH; [reflexivity | cbn in Hn; lia].
Qed.

(** X8: on the plain-answer branch the SMS router answers with at most
    300 characters and changes nothing: a suggested response of up to 300
    characters is sent as it is, a longer one is cut to its first 297
    characters followed by three dots. *)
Theorem sms_answer_at_most_300 (l : lead) (ld : lead_data) (analysis : classification)
    (history : list message) (w : world) :
  should_escalate analysis = false →
  next_action analysis = "send_response" →
  ∃ reply,
    _handle_sms_analysis l ld analysis history w = (w, Ok reply)
    ∧ (String.length reply ≤ 300)%nat
    ∧ ((String.length (suggested_response analysis) ≤ 300)%nat →
       reply = suggested_response analysis)
    ∧ ((300 < String.length (suggested_response analysis))%nat →
       reply = take_str 297 (suggested_response analysis) +:+ "..."
       ∧ String.length reply = 300%nat).
Proof.
  intros Hesc Hact. unfold _handle_sms_analysis. rewrite Hesc, Hact.
  change ("send_response" =? "book_call")%string with false.
  change ("send_response" =? "send_response")%string with true. cbv iota.
  destruct (Nat.ltb_spec 300 (String.length (suggested_response analysis))) as [Hlong | Hshort].
  - eexists. split; [reflexivity |].
    assert (String.length (take_str 297 (suggested_response analysis) +:+ "...") = 300%nat) as Hlen.
    { rewrite length_append, length_take_str by lia. reflexivity. }
    split; [lia |]. split; [lia |]. intros _. split; [reflexivity | exact Hlen].
  - eexists. split; [reflexivity |]. split; [exact Hshort |].
    split; [reflexivity | lia].
Qed.

End sms_length.

Lemma sms_answer_at_most_300_witness :
  ∃ reply,
    sms_handler._handle_sms_analysis
      (R := examples.remote_of examples.always_ok None samples.plain_answer)
      (examples.ada "1" "2024-03-01T09:00:00" "NURTURING") examples.ld_step1
      samples.plain_answer [] (examples.world_of examples.t_mar04
                                 (examples.ada "1" "2024-03-01T09:00:00" "NURTURING"))
    = (examples.world_of examples.t_mar04
         (examples.ada "1" "2024-03-01T09:00:00" "NURTURING"), Ok reply)
    ∧ (String.length reply ≤ 300)%nat.
Proof.
  destruct (sms_answer_at_most_300
              (R := examples.remote_of examples.always_ok None samples.plain_answer)
              (examples.ada "1" "2024-03-01T09:00:00" "NURTURING") examples.ld_step1
              samples.plain_answer []
              (examples.world_of examples.t_mar04
                 (examples.ada "1" "2024-03-01T09:00:00" "NURTURING"))
              eq_refl eq_refl) as (reply & Hrun & Hlen & _).
  exists reply. split; [exact Hrun | exact Hlen].
Defined.

(** ** More on the classifier *)

Section classifier_more.
Import classifier.

(** X9: the wholesale bonus lifts the priority by exactly one level: the
    same answers rated low without it are rated medium with it, and those
    rated medium are rated high; a wholesale submission is never rated low. *)
Theorem wholesale_priority_one_above (extracted : gmap string string) :
  (_calculate_priority extracted false = "low"
   ∧ _calculate_priority extracted true = "medium")
  ∨ (_calculate_priority extracted false = "medium"
     ∧ _calculate_priority extracted true = "high").
Proof.
  unfold _calculate_priority, priority_signals.
  destruct (truthy_opt (extracted !! "phone"));
    destruct (truthy_opt (extracted !! "company") && _);
    destruct (truthy_opt (extracted !! "goals") && _);
    cbn; tauto.
Qed.

Lemma extract_step_field_key (extracted : gmap string string) (a : answer) :
  extract_step extracted a
  = match field_key a with
    | Some k => <[k := answer_value a]> extracted
    | None => extracted
    end.
Proof.
  unfold extract_step, field_key.
  repeat match goal with
         | |- context [if ?b then _ else _] => destruct b; try reflexivity
         end.
Qed.

Lemma extract_answers_snoc (l : list answer) (a : answer) :
  _extract_answers (l ++ [a]) = extract_step (_extract_answers l) a.
Proof. unfold _extract_answers. rewrite fold_left_app. reflexivity. Qed.

(** X10: in the extracted fields the last answer filed under a key wins,
    where an answer is filed under the first of email, name, phone, company
    (or organization), industry, goals (goal or looking for) that its
    lower-cased title contains; a key no answer is filed under is absent. *)
Theorem extract_answers_last_wins (answers : list answer) (k : string) :
  _extract_answers answers !! k
  = answer_value <$> last (List.filter (fun a => bool_decide (field_key a = Some k)) answers).
Proof.
  induction answers as [| a l IH] using rev_ind.
  - reflexivity.
  - rewrite extract_answers_snoc, extract_step_field_key, List.filter_app.
    cbn [List.filter].
    destruct (field_key a) as [k' |] eqn:Hk.
    + destruct (decide (k' = k)) as [-> | Hne].
      * rewrite lookup_insert_eq, bool_decide_eq_true_2 by reflexivity.
        rewrite last_snoc. reflexivity.
      * rewrite lookup_insert_ne by exact Hne.
        rewrite bool_decide_eq_false_2 by congruence.
        rewrite app_nil_r. exact IH.
    + rewrite bool_decide_eq_false_2 by discriminate.
      rewrite app_nil_r. exact IH.
Qed.

End classifier_more.
(** ** The cursor's round trip through the CRM *)

Section cursor_text.

Lemma string_forall_rev_onto (p : ascii → bool) (s acc : string) :
  string_forall p (rev_onto s acc) = string_forall p s && string_forall p acc.
Proof.
  revert acc. induction s as [| c r IH]; intros acc; [reflexivity |].
  cbn [rev_onto string_forall]. rewrite IH. cbn [string_forall].
  destruct (p c), (string_forall p r); reflexivity.
Qed.

Lemma rev_onto_rev_onto (s acc acc' : string) :
  rev_onto (rev_onto s acc) acc' = rev_onto acc (s +:+ acc').
Proof.
  revert acc acc'. induction s as [| c r IH]; intros acc acc'; [reflexivity |].
  cbn [rev_onto]. rewrite IH. reflexivity.
Qed.

Lemma lstrip_no_space (s : string) :
  string_forall (fun c => negb (is_space c)) s = true → lstrip s = s.
Proof.
  destruct s as [| c r]; [reflexivity |]. cbn [string_forall lstrip].
  destruct (is_space c); [discriminate | reflexivity].
Qed.

Lemma strip_no_space (s : string) :
  string_forall (fun c => negb (is_space c)) s = true → strip s = s.
Proof.
  intros Hs. unfold strip. rewrite (lstrip_no_space s Hs).
  rewrite lstrip_no_space
    by (rewrite string_forall_rev_onto, Hs; reflexivity).
  rewrite rev_onto_rev_onto. cbn [rev_onto]. apply append_nil_r.
Qed.

Lemma uint_no_space (d : Decimal.uint) :
  string_forall (fun c => negb (is_space c)) (NilEmpty.string_of_uint d) = true.
Proof. induction d; cbn [NilEmpty.string_of_uint string_forall]; try exact IHd; reflexivity. Qed.

Lemma digits_acc (d : Decimal.uint) (acc : positive) :
  digits (Z.pos acc) true (NilEmpty.string_of_uint d)
  = Some (Z.pos (Pos.of_uint_acc d acc)).
Proof.
  revert acc. induction d; intros acc; [reflexivity | ..];
    cbn [NilEmpty.string_of_uint digits Pos.of_uint_acc];
    change (is_digit _) with true; cbv iota;
    match goal with
    | |- digits ?z _ _ = Some (Z.pos (Pos.of_uint_acc _ ?q)) =>
        replace z with (Z.pos q)
          by (match goal with
              | |- context [digit_val ?c] =>
                  let v := eval vm_compute in (digit_val c) in
                  change (digit_val c) with v
              end; lia)
    end; apply IHd.
Qed.

Lemma digits_zero (d : Decimal.uint) (b : bool) :
  d ≠ Decimal.Nil →
  digits 0 b (NilEmpty.string_of_uint d) = Some (Z.of_N (Pos.of_uint d)).
Proof.
  revert b. induction d; intros b Hd; [contradiction | ..];
    cbn [NilEmpty.string_of_uint digits Pos.of_uint];
    change (is_digit _) with true; cbv iota.
  - change (10 * 0 + digit_val "0") with 0.
    destruct d; [reflexivity | ..]; apply IHd; discriminate.
  - change (10 * 0 + digit_val "1") with (Z.pos 1). rewrite digits_acc. reflexivity.
  - change (10 * 0 + digit_val "2") with (Z.pos 2). rewrite digits_acc. reflexivity.
  - change (10 * 0 + digit_val "3") with (Z.pos 3). rewrite digits_acc. reflexivity.
  - change (10 * 0 + digit_val "4") with (Z.pos 4). rewrite digits_acc. reflexivity.
  - change (10 * 0 + digit_val "5") with (Z.pos 5). rewrite digits_acc. reflexivity.
  - change (10 * 0 + digit_val "6") with (Z.pos 6). rewrite digits_acc. reflexivity.
  - change (10 * 0 + digit_val "7") with (Z.pos 7). rewrite digits_acc. reflexivity.
  - change (10 * 0 + digit_val "8") with (Z.pos 8). rewrite digits_acc. reflexivity.
  - change (10 * 0 + digit_val "9") with (Z.pos 9). rewrite digits_acc. reflexivity.
Qed.

Lemma to_uint_not_nil (p : positive) : Pos.to_uint p ≠ Decimal.Nil.
Proof.
  intros Hnil. pose proof (DecimalPos.Unsigned.of_to p) as Hof.
  rewrite Hnil in Hof. discriminate Hof.
Qed.

Lemma int_uint (p : positive) :
  int (NilEmpty.string_of_uint (Pos.to_uint p)) = Ok (Z.pos p).
Proof.
  unfold int. rewrite (strip_no_space _ (uint_no_space _)).
  pose proof (digits_zero (Pos.to_uint p) false (to_uint_not_nil p)) as Hd.
  rewrite DecimalPos.Unsigned.of_to in Hd. cbn [Z.of_N] in Hd.
  destruct (Pos.to_uint p) eqn:Hu;
    [exfalso; exact (to_uint_not_nil p Hu) | ..];
    cbn [NilEmpty.string_of_uint] in *; rewrite Hd; reflexivity.
Qed.

(** The texts [str] produces are read back by [int]. *)
Lemma int_str (n : Z) : int (str n) = Ok n.
Proof.
  unfold str. destruct n as [| p | p]; [reflexivity | |].
  - cbn [Z.to_int NilZero.string_of_int].
    pose proof (to_uint_not_nil p) as Hne. unfold NilZero.string_of_uint.
    destruct (Pos.to_uint p) eqn:Hu; [contradiction | ..]; rewrite <- Hu; apply int_uint.
  - cbn [Z.to_int NilZero.string_of_int].
    pose proof (to_uint_not_nil p) as Hne.
    assert (NilZero.string_of_uint (Pos.to_uint p)
            = NilEmpty.string_of_uint (Pos.to_uint p)) as ->.
    { unfold NilZero.string_of_uint. destruct (Pos.to_uint p); [contradiction | ..]; reflexivity. }
    unfold int. rewrite strip_no_space
      by (cbn [string_forall]; rewrite uint_no_space; reflexivity).
    pose proof (digits_zero (Pos.to_uint p) false Hne) as Hd.
    rewrite DecimalPos.Unsigned.of_to in Hd. cbn [Z.of_N] in Hd.
    rewrite Hd. reflexivity.
Qed.

End cursor_text.

Section cursor_in_crm.
Context `{D : DatetimeLib} `{R : Remote}.


(** X11: the cursor survives its round trip through the CRM: for a step
    [n] of at most 4300 decimal digits (the bound within which CPython's
    [str] and [int] convert without raising), after an applied
    [update_email_tracking] for step [n] the stored cursor is the text
    [str(n)], which [int] reads back as [n]; the cursor of every other
    lead is unchanged. *)
Theorem cursor_round_trip (w : world) (lead_id : string) (step : Z) (subj : string) :
  Z.abs step < 10 ^ 4300 →
  close_sync.put_applies w lead_id = true →
  let after := (close_sync.update_email_tracking lead_id step subj w).1 in
  cursor_of after lead_id = str step
  ∧ int (cursor_of after lead_id) = Ok step
  ∧ (∀ other, other ≠ lead_id → cursor_of after other = cursor_of w other).
Proof.
  intros _ Hput. cbv zeta.
  rewrite (update_email_tracking_applied w lead_id step subj Hput). cbn [fst].
  unfold close_sync.put_applies in Hput. apply andb_true_iff in Hput as [_ Hsome].
  apply bool_decide_eq_true_1 in Hsome as [l Hl].
  assert (cursor_of
            (mk_world (clock w)
               (alter (apply_fields (close_sync.tracking_payload (clock w) step subj))
                  lead_id (crm w))
               (CloseNote lead_id ("Sent email: " +:+ subj) (http_ok (S (tick w)))
                :: ClosePut lead_id (close_sync.tracking_payload (clock w) step subj) true
                :: trace w)
               (S (S (tick w)))) lead_id = str step) as Hc.
  { unfold cursor_of. cbn [crm]. rewrite lookup_alter_eq, Hl.
    apply cursor_after_tracking. }
  split; [exact Hc |]. split; [rewrite Hc; apply int_str |].
  intros other Hne. unfold cursor_of. cbn [crm].
  rewrite lookup_alter_ne by congruence. reflexivity.
Qed.

End cursor_in_crm.

Lemma cursor_round_trip_witness :
  (Z.abs 2 < 10 ^ 4300
   ∧ close_sync.put_applies
       (R := examples.remote_of examples.always_ok None examples.escalate_and_book)
       (examples.world_of examples.t_mar04
          (examples.ada "1" "2024-03-01T09:00:00" "NURTURING")) "lead_1" = true)
  ∧ int (cursor_of
           (close_sync.update_email_tracking (D := iso8601)
              (R := examples.remote_of examples.always_ok None examples.escalate_and_book)
              "lead_1" 2 "Nurture step 2"
              (examples.world_of examples.t_mar04
                 (examples.ada "1" "2024-03-01T09:00:00" "NURTURING"))).1 "lead_1")
    = Ok 2.
Proof.
  assert (Z.abs 2 < 10 ^ 4300) as Hdigits by (vm_compute; reflexivity).
  assert (close_sync.put_applies
            (R := examples.remote_of examples.always_ok None examples.escalate_and_book)
            (examples.world_of examples.t_mar04
               (examples.ada "1" "2024-03-01T09:00:00" "NURTURING")) "lead_1" = true)
    as Hput by (vm_compute; reflexivity).
  split; [split; [exact Hdigits | exact Hput] |].
  exact (proj1 (proj2 (cursor_round_trip (D := iso8601)
                         (R := examples.remote_of examples.always_ok None
                                 examples.escalate_and_book)
                         _ "lead_1" 2 "Nurture step 2" Hdigits Hput))).
Defined.

(** ** What the sweep touches *)

Section footprint_rules.
Context {A : Type} (P : event → Prop) (ids : string → Prop).

Lemma footprint_same (m : M A) :
  (∀ w, (m w).1 = w) → footprint P ids m.
Proof.
  intros Hm w. exists []. rewrite (Hm w). repeat split. constructor.
Qed.

Lemma footprint_ret (a : A) : footprint P ids (ret a).
Proof. apply footprint_same. reflexivity. Qed.

Lemma footprint_lift (r : result A) : footprint P ids (lift r).
Proof. apply footprint_same. reflexivity. Qed.

Lemma footprint_raise (e : exn) : footprint P ids (raise (A := A) e).
Proof. apply footprint_same. reflexivity. Qed.

Lemma footprint_weaken (P' : event → Prop) (ids' : string → Prop) (m : M A) :
  (∀ e, P' e → P e) → (∀ id, ids' id → ids id) →
  footprint P' ids' m → footprint P ids m.
Proof.
  intros HP Hids Hm w. destruct (Hm w) as (es & Ht & Hes & Hc & Hd & Hf).
  exists es. repeat split; try assumption.
  - eapply Forall_impl; [exact Hes | exact HP].
  - intros id Hid. apply Hf. intros Hid'. apply Hid, Hids, Hid'.
Qed.

End footprint_rules.

Section footprint_more.
Context (P : event → Prop) (ids : string → Prop).

Lemma footprint_get_world : footprint P ids get_world.
Proof. apply footprint_same. reflexivity. Qed.

Lemma footprint_request `{R : Remote} : footprint P ids request.
Proof. intros w. exists []. repeat split. constructor. Qed.

Lemma footprint_emit (e : event) : P e → footprint P ids (emit e).
Proof.
  intros He w. exists [e]. repeat split. constructor; [exact He | constructor].
Qed.

Lemma footprint_bind {A B} (m : M A) (f : A → M B) :
  footprint P ids m →
  (∀ a w, (m w).2 = Ok a → footprint P ids (f a)) →
  footprint P ids (bind m f).
Proof.
  intros Hm Hf w. destruct (Hm w) as (es & Ht & Hes & Hc & Hd & Hfr).
  unfold bind. destruct (m w) as [w1 [a | e]] eqn:Hmw; cbn [fst snd] in *.
  - destruct (Hf a w ltac:(rewrite Hmw; reflexivity) w1)
      as (es' & Ht' & Hes' & Hc' & Hd' & Hfr').
    exists (es' ++ es). repeat split.
    + rewrite Ht', Ht, app_assoc. reflexivity.
    + apply Forall_app. split; assumption.
    + congruence.
    + congruence.
    + intros id Hid. rewrite (Hfr' id Hid). apply Hfr. exact Hid.
  - exists es. repeat split; assumption.
Qed.

Lemma footprint_try {A} (m : M A) (h : exn → M A) :
  footprint P ids m → (∀ e, footprint P ids (h e)) →
  footprint P ids (try_except m h).
Proof.
  intros Hm Hh w. destruct (Hm w) as (es & Ht & Hes & Hc & Hd & Hfr).
  unfold try_except. destruct (m w) as [w1 [a | e]] eqn:Hmw; cbn [fst snd] in *.
  - exists es. repeat split; assumption.
  - destruct (Hh e w1) as (es' & Ht' & Hes' & Hc' & Hd' & Hfr').
    exists (es' ++ es). repeat split.
    + rewrite Ht', Ht, app_assoc. reflexivity.
    + apply Forall_app. split; assumption.
    + congruence.
    + congruence.
    + intros id Hid. rewrite (Hfr' id Hid). apply Hfr. exact Hid.
Qed.

Lemma footprint_put_lead `{R : Remote} (lead_id : string)
    (payload : list (string * string)) :
  ids lead_id → (∀ applied, P (ClosePut lead_id payload applied)) →
  footprint P ids (close_sync.put_lead lead_id payload).
Proof.
  intros Hid HP w. unfold close_sync.put_lead.
  unfold bind, get_world, request, set_crm, pass, ret, emit. cbn [fst snd crm trace clock tick].
  destruct (http_ok (tick w) && bool_decide (is_Some (crm w !! lead_id)));
    cbn [fst snd crm trace clock tick].
  - exists [ClosePut lead_id payload true]. repeat split.
    + constructor; [apply HP | constructor].
    + apply dom_alter_L.
    + intros id Hne. apply lookup_alter_ne. intros ->. contradiction.
  - exists [ClosePut lead_id payload false]. repeat split.
    constructor; [apply HP | constructor].
Qed.

End footprint_more.

Ltac footprint_step :=
  lazymatch goal with
  | |- footprint _ _ (bind _ _) =>
      apply footprint_bind; [| let a := fresh "a" in let v := fresh "v" in
                               let Hv := fresh "Hv" in intros a v Hv]
  | |- footprint _ _ (ret _) => apply footprint_ret
  | |- footprint _ _ pass => apply footprint_ret
  | |- footprint _ _ (lift _) => apply footprint_lift
  | |- footprint _ _ (raise _) => apply footprint_raise
  | |- footprint _ _ get_world => apply footprint_get_world
  | |- footprint _ _ request => apply footprint_request
  | |- footprint _ _ (emit _) => apply footprint_emit
  | |- footprint _ _ (try_except _ _) => apply footprint_try; [| intros ?]
  | |- footprint _ _ (close_sync.put_lead _ _) => apply footprint_put_lead; [| intros ?]
  | |- footprint _ _ (if ?b then _ else _) => destruct b eqn:?
  | |- footprint _ _ (match ?x with _ => _ end) => destruct x eqn:?
  end.

Ltac footprint_unfold :=
  unfold slack_bot.send_notification, close_sync._log_activity,
    close_sync.update_lead_state, close_sync.mark_as_booked,
    close_sync.update_email_tracking, email_engine._send_email,
    email_engine.send_nurture_email, email_engine.send_booked_asset_pack,
    email_engine.item.

Section sweep_footprint.
Context `{D : DatetimeLib} `{R : Remote}.
Import agent.

Lemma extract_email (l : lead) (ld : lead_data) (v : world) :
  (lift (_extract_lead_data l) v).2 = Ok ld → email ld = Some (first_address l).
Proof.
  cbn [lift snd]. unfold _extract_lead_data, first_address.
  destruct (default [empty_contact] _); [discriminate |].
  destruct (_get_lead_email l) as [addr |]; [| discriminate].
  destruct (default [None] _); [discriminate |].
  intros [= <-]. cbn [email]. destruct addr; reflexivity.
Qed.

Lemma process_footprint (l : lead) :
  footprint (lead_scope l) (eq (l_id l)) (_process_nurturing_lead l).
Proof.
  unfold _process_nurturing_lead, next_nurture_step, _convert_to_booked.
  repeat first [footprint_step | progress footprint_unfold].
  all: try reflexivity.
  all: unfold lead_scope; cbn [scoped]; unfold nurture_notice; try tauto.
  all: repeat match goal with
         | H : (lift (_extract_lead_data _) _).2 = Ok _ |- _ =>
             apply extract_email in H
         end.
  all: match goal with
       | H : email ?x = Some _, H' : (match email ?x with _ => _ end _).2 = _ |- _ =>
           rewrite H in H'; cbn [ret snd] in H'; congruence
       end.
Qed.

End sweep_footprint.

Section returns_rules.

Lemma returns_ret {A} (Q : A → Prop) (a : A) : Q a → returns Q (ret a).
Proof. intros Ha w a' [= <-]. exact Ha. Qed.

Lemma returns_raise {A} (Q : A → Prop) (e : exn) : returns Q (raise e).
Proof. intros w a' [=]. Qed.

Lemma returns_bind {A B} (Q : B → Prop) (m : M A) (f : A → M B) :
  (∀ a, returns Q (f a)) → returns Q (bind m f).
Proof.
  intros Hf w b. unfold bind. destruct (m w) as [w1 [a | e]].
  - apply Hf.
  - discriminate.
Qed.

End returns_rules.

Ltac returns_step :=
  lazymatch goal with
  | |- returns _ (bind _ _) => apply returns_bind; intros ?
  | |- returns _ (ret _) => apply returns_ret
  | |- returns _ (raise _) => apply returns_raise
  | |- returns _ (if ?b then _ else _) => destruct b
  | |- returns _ (match ?x with _ => _ end) => destruct x
  end.

Section sweep_loop.
Context `{D : DatetimeLib} `{R : Remote}.
Import agent.

Lemma process_flags (l : lead) :
  returns (fun r => 0 ≤ flags r ≤ 1) (_process_nurturing_lead l).
Proof.
  unfold _process_nurturing_lead, next_nurture_step.
  repeat returns_step; cbv; split; discriminate.
Qed.

Lemma scoped_weaken (ids ids' : string → Prop) (slack slack' : notice → Prop)
    (mail mail' sms sms' : string → Prop) (e : event) :
  (∀ x, ids x → ids' x) → (∀ x, slack x → slack' x) →
  (∀ x, mail x → mail' x) → (∀ x, sms x → sms' x) →
  scoped ids slack mail sms e → scoped ids' slack' mail' sms' e.
Proof. intros Hi Hs Hm Ht. destruct e; cbn [scoped]; auto. Qed.

Lemma lead_scope_sweep (l : lead) (rest : list lead) (e : event) :
  lead_scope l e → sweep_scope (l :: rest) e.
Proof.
  apply scoped_weaken.
  - intros x <-. rewrite fmap_cons. apply list_elem_of_here.
  - intros n Hn. left. exact Hn.
  - intros x <-. rewrite fmap_cons. apply list_elem_of_here.
  - tauto.
Qed.

Lemma sweep_scope_cons (l : lead) (rest : list lead) (e : event) :
  sweep_scope rest e → sweep_scope (l :: rest) e.
Proof.
  apply scoped_weaken; try tauto; intros x Hx; rewrite fmap_cons;
    apply list_elem_of_further; exact Hx.
Qed.

Lemma lead_scope_no_error (l : lead) (es : list event) :
  Forall (lead_scope l) es → List.filter is_error_notice es = [].
Proof.
  induction 1 as [| e es He _ IH]; [reflexivity |].
  cbn [List.filter]. rewrite IH.
  destruct e as [n who | | | | | | | |]; try reflexivity.
  destruct n; try reflexivity.
  cbn in He. destruct He as [He | [He | He]]; discriminate He.
Qed.

Lemma process_leads_step (l : lead) (rest : list lead) (res : sweep_result)
    (w : world) :
  process_leads (l :: rest) res w
  = match _process_nurturing_lead l w with
    | (w1, Ok r) =>
        process_leads rest
          (mk_sweep_result
             (emails_sent res + count (email_sent r))
             (bookings_detected res + count (booking_detected r))
             (escalations res + count (escalated r))
             (leads_processed res + 1)) w1
    | (w1, Raise e) =>
        process_leads rest res
          (mk_world (clock w1) (crm w1)
             (SlackPost (ErrorProcessingLead e) None :: trace w1) (tick w1))
    end.
Proof.
  cbn [process_leads].
  unfold bind, try_except, slack_bot.send_notification, emit, ret.
  destruct (_process_nurturing_lead l w) as [w1 [r | e]]; reflexivity.
Qed.

(** The loop of the sweep: it returns normally; every lead is either
    counted as processed or reported by one error notification. *)
Lemma process_leads_spec (leads : list lead) :
  ∀ (res : sweep_result) (w : world),
    ∃ (res' : sweep_result) (es : list event),
      (process_leads leads res w).2 = Ok res'
      ∧ trace (process_leads leads res w).1 = es ++ trace w
      ∧ Forall (sweep_scope leads) es
      ∧ dom (crm (process_leads leads res w).1) = dom (crm w)
      ∧ (∀ id, id ∉ l_id <$> leads →
               crm (process_leads leads res w).1 !! id = crm w !! id)
      ∧ leads_processed res' + Z.of_nat (length (List.filter is_error_notice es))
        = leads_processed res + Z.of_nat (length leads)
      ∧ emails_sent res ≤ emails_sent res'
      ∧ bookings_detected res ≤ bookings_detected res'
      ∧ escalations res ≤ escalations res'
      ∧ (emails_sent res' + bookings_detected res' + escalations res')
        - (emails_sent res + bookings_detected res + escalations res)
        ≤ leads_processed res' - leads_processed res.
Proof.
  induction leads as [| l rest IH]; intros res w.
  - exists res, []. cbn [process_leads ret fst snd length List.filter].
    repeat split; try lia. constructor.
  - rewrite process_leads_step.
    destruct (process_footprint l w) as (es1 & Ht1 & Hes1 & _ & Hd1 & Hf1).
    pose proof (process_flags l w) as Hflags.
    destruct (_process_nurturing_lead l w) as [w1 [r | e]] eqn:Hrun;
      cbn [fst snd] in *.
    + specialize (Hflags r eq_refl). unfold flags in Hflags.
      match goal with
      | |- context [process_leads rest ?r1 w1] =>
          destruct (IH r1 w1) as (res' & es & Hr & Ht & Hes & Hd & Hf & Hn & He & Hb & Hx & Hs)
      end.
      cbn [emails_sent bookings_detected escalations leads_processed] in *.
      exists res', (es ++ es1). rewrite Hr, Ht, Ht1, app_assoc.
      split; [reflexivity |]. split; [reflexivity |].
      split.
      { apply Forall_app. split.
        - eapply Forall_impl; [exact Hes | apply sweep_scope_cons].
        - eapply Forall_impl; [exact Hes1 | apply lead_scope_sweep]. }
      split; [congruence |].
      split.
      { intros id Hid. rewrite fmap_cons in Hid. apply not_elem_of_cons in Hid as [Hne Hid].
        rewrite (Hf id Hid). apply Hf1. congruence. }
      rewrite List.filter_app, length_app, (lead_scope_no_error l es1 Hes1).
      cbn [length].
      assert (0 ≤ count (email_sent r) ∧ 0 ≤ count (booking_detected r)
              ∧ 0 ≤ count (escalated r)) as (? & ? & ?)
        by (unfold count; destruct (email_sent r), (booking_detected r), (escalated r); lia).
      repeat split; lia.
    + match goal with
      | |- context [process_leads rest res ?w2] =>
          destruct (IH res w2) as (res' & es & Hr & Ht & Hes & Hd & Hf & Hn & He & Hb & Hx & Hs)
      end.
      cbn [trace crm] in *.
      exists res', (es ++ SlackPost (ErrorProcessingLead e) None :: es1).
      rewrite Hr, Ht.
      split; [reflexivity |].
      split; [rewrite Ht1, <- app_assoc; reflexivity |].
      split.
      { apply Forall_app. split.
        - eapply Forall_impl; [exact Hes | apply sweep_scope_cons].
        - constructor.
          + cbn. right. left. eauto.
          + eapply Forall_impl; [exact Hes1 | apply lead_scope_sweep]. }
      split; [congruence |].
      split.
      { intros id Hid. rewrite fmap_cons in Hid. apply not_elem_of_cons in Hid as [Hne Hid].
        rewrite (Hf id Hid). apply Hf1. congruence. }
      rewrite List.filter_app, length_app. cbn [List.filter is_error_notice length].
      rewrite (lead_scope_no_error l es1 Hes1). cbn [length].
      repeat split; lia.
Qed.

End sweep_loop.

Section sweep_theorems.
Context `{D : DatetimeLib} `{R : Remote}.
Import agent.

Lemma run_over_eq (leads : list lead) (w : world) :
  ∃ (res : sweep_result) (es : list event),
    run_scheduled_tasks_over leads w
    = (mk_world (clock (process_leads leads (mk_sweep_result 0 0 0 0) w).1)
         (crm (process_leads leads (mk_sweep_result 0 0 0 0) w).1)
         (SlackPost
            (ScheduledRunComplete (leads_processed res) (emails_sent res)
               (bookings_detected res) (escalations res)) None
          :: es ++ trace w)
         (tick (process_leads leads (mk_sweep_result 0 0 0 0) w).1),
       Ok res)
    ∧ (process_leads leads (mk_sweep_result 0 0 0 0) w).2 = Ok res
    ∧ trace (process_leads leads (mk_sweep_result 0 0 0 0) w).1 = es ++ trace w.
Proof.
  destruct (process_leads_spec leads (mk_sweep_result 0 0 0 0) w)
    as (res & es & Hr & Ht & _).
  exists res, es. split; [| split; assumption].
  unfold run_scheduled_tasks_over, bind, slack_bot.send_notification, emit, ret.
  destruct (process_leads leads _ w) as [w1 r]. cbn [fst snd] in *.
  rewrite Hr, Ht. reflexivity.
Qed.

(** X12: a sweep over a list of leads stays within these leads, whatever
    the services answer: it creates and deletes no lead, changes no lead
    outside the list, sends e-mails to first addresses of listed leads only,
    writes and notes on listed leads only, sends no text, places no call and
    posts only its own notifications (completion, milestone, conversion,
    per-lead error, run summary). *)
Theorem sweep_stays_in_scope (leads : list lead) (w : world) :
  let after := (run_scheduled_tasks_over leads w).1 in
  Forall (sweep_scope leads) (new_events w after)
  ∧ dom (crm after) = dom (crm w)
  ∧ (∀ id, id ∉ l_id <$> leads → crm after !! id = crm w !! id).
Proof.
  cbv zeta.
  destruct (process_leads_spec leads (mk_sweep_result 0 0 0 0) w)
    as (res & es & Hr & Ht & Hes & Hd & Hf & _).
  destruct (run_over_eq leads w) as (res' & es' & Hrun & _ & Ht').
  rewrite Hrun. cbn [fst crm].
  assert (es' = es) as -> by (rewrite Ht in Ht'; apply app_inv_tail in Ht'; congruence).
  split; [| split; assumption].
  rewrite (new_events_app w _ (SlackPost _ None :: es)) by reflexivity.
  constructor; [| exact Hes].
  cbn. right. right. eauto 6.
Qed.

(** X13: when a sweep returns its counters, they account for every lead:
    the number of leads processed plus the number of per-lead error
    notifications is the length of the list; the three other counters are not
    negative and together never exceed the number processed (a lead sets at
    most one flag); the last event is the run summary with these counters. *)
Theorem sweep_accounts_for_every_lead (leads : list lead) (w : world)
    (res : sweep_result) :
  let run := run_scheduled_tasks_over leads w in
  run.2 = Ok res →
  leads_processed res
  + Z.of_nat (length (List.filter is_error_notice (new_events w run.1)))
  = Z.of_nat (length leads)
  ∧ 0 ≤ emails_sent res ∧ 0 ≤ bookings_detected res ∧ 0 ≤ escalations res
  ∧ emails_sent res + bookings_detected res + escalations res
    ≤ leads_processed res
  ∧ head (new_events w run.1)
    = Some (SlackPost
              (ScheduledRunComplete (leads_processed res) (emails_sent res)
                 (bookings_detected res) (escalations res)) None).
Proof.
  cbv zeta.
  destruct (process_leads_spec leads (mk_sweep_result 0 0 0 0) w)
    as (res0 & es & Hr & Ht & Hes & Hd & Hf & Hn & He & Hb & Hx & Hs).
  destruct (run_over_eq leads w) as (res' & es' & Hrun & Hr' & Ht').
  assert (res' = res0) as -> by congruence.
  assert (es' = es) as -> by (rewrite Ht in Ht'; apply app_inv_tail in Ht'; congruence).
  rewrite Hrun. cbn [fst snd]. intros [= <-].
  rewrite (new_events_app w _ (SlackPost _ None :: es)) by reflexivity.
  cbn [List.filter is_error_notice head].
  cbn [emails_sent bookings_detected escalations leads_processed] in *.
  repeat split; try lia.
Qed.

End sweep_theorems.

(** On 2024-03-04 a sweep over one lead welcomed three days before sends
    step 2 and counts one lead and one e-mail. *)
Lemma sweep_accounts_for_every_lead_witness :
  let leads := [examples.ada "1" "2024-03-01T09:00:00" "NURTURING"] in
  let w := examples.world_of examples.t_mar04
             (examples.ada "1" "2024-03-01T09:00:00" "NURTURING") in
  let run := agent.run_scheduled_tasks_over (D := iso8601)
               (R := examples.remote_of examples.always_ok None
                       examples.escalate_and_book) leads w in
  run.2 = Ok (agent.mk_sweep_result 1 0 0 1)
  ∧ 1 + Z.of_nat (length (List.filter is_error_notice (new_events w run.1)))
    = Z.of_nat (length leads).
Proof.
  cbv zeta.
  assert ((agent.run_scheduled_tasks_over (D := iso8601)
             (R := examples.remote_of examples.always_ok None
                     examples.escalate_and_book)
             [examples.ada "1" "2024-03-01T09:00:00" "NURTURING"]
             (examples.world_of examples.t_mar04
                (examples.ada "1" "2024-03-01T09:00:00" "NURTURING"))).2
          = Ok (agent.mk_sweep_result 1 0 0 1)) as Hres by (vm_compute; reflexivity).
  split; [exact Hres |].
  exact (proj1 (sweep_accounts_for_every_lead (D := iso8601)
                  (R := examples.remote_of examples.always_ok None
                          examples.escalate_and_book)
                  _ _ _ Hres)).
Defined.

(** ** The inbound routers and the call webhook *)

Section sms_reply.
Context `{D : DatetimeLib} `{R : Remote}.
Import sms_handler.

(** X14: an inbound SMS is answered through one channel only. When the
    handler returns, either its TwiML carries the unknown-number text and
    nothing was sent through the API, or its TwiML is empty and exactly one
    text was sent through the API, to the number the message came from. In
    every run, returning or not, at most one text is sent through the API,
    and only to that number. *)
Theorem inbound_sms_one_reply (payload : inbound_sms) (w : world) :
  let run := handle_inbound_sms payload w in
  let sent := List.filter is_sms_send (new_events w run.1) in
  (sent = []
   ∨ ∃ body accepted, sent = [SmsSend (default "" (From payload)) body accepted])
  ∧ match run.2 with
    | Ok (Twiml msgs) =>
        (msgs = [unknown_number_reply] ∧ sent = [])
        ∨ (msgs = []
           ∧ ∃ body accepted,
               sent = [SmsSend (default "" (From payload)) body accepted])
    | Raise _ => True
    end.
Proof.
  cbv zeta. unfold handle_inbound_sms, sms_handler._find_lead_by_phone,
    _handle_sms_analysis, _send_sms, _create_twiml_response.
  unfold_clients. run_all.
  change (truthy "") with false. change (truthy unknown_number_reply) with true.
  cbv iota.
  run_cases; events; cbn [List.filter is_sms_send]; try (split; eauto).
  all: match goal with
       | H : _extract_lead_data _ = Ok _ |- _ =>
           apply extract_lead_data_keys in H as [_ Hname]; congruence
       end.
Qed.

End sms_reply.

Section inbound_frame.
Context `{D : DatetimeLib} `{R : Remote}.
Import email_reply_handler.

Ltac frame :=
  repeat first
    [ rewrite dom_alter_L
    | rewrite lookup_alter_ne
        by (match goal with
            | H : ∀ l0, _ = _ → l_id l0 ≠ _ |- _ => apply H; reflexivity
            end) ];
  try reflexivity.

Lemma router_extract_email (l : lead) (ld : lead_data) :
  _extract_lead_data l = Ok ld → email ld = Some (first_address l).
Proof.
  unfold _extract_lead_data, first_address, _get_lead_email.
  destruct (agent._get_lead_email l) as [addr |]; [| discriminate].
  destruct (default [None] _); [discriminate |].
  intros [= <-]. cbn [email]. destruct addr; reflexivity.
Qed.

(** X15: an inbound e-mail triggers at most one outgoing e-mail, and that
    one goes to the first address of the lead the sender was matched to:
    never to the raw sender, and never to anyone when no lead matched. *)
Theorem inbound_email_at_most_one_reply (payload : inbound_email) (w : world) :
  let run := handle_inbound_email payload w in
  let sent := List.filter is_email_send (new_events w run.1) in
  sent = []
  ∨ ∃ l to_name subj body accepted,
      (close_sync.get_lead_by_email
         (clean_address (lower (default "" (from_ payload)))) w).2 = Ok (Some l)
      ∧ sent = [EmailSend (first_address l) to_name subj body accepted].
Proof.
  cbv zeta. unfold handle_inbound_email, _handle_based_on_analysis, _save_to_history.
  unfold_clients. run_all.
  run_cases; events; cbn [List.filter is_email_send]; eauto.
  all: match goal with
       | H : _extract_lead_data _ = Ok _, H' : email _ = Some _ |- _ =>
           apply router_extract_email in H; rewrite H in H';
           injection H' as <-; right; eauto 10
       end.
Qed.

(** X16: the three inbound handlers (e-mail reply, SMS, ended call)
    create and delete no lead, and change no lead other than the one their
    lookup returned, whatever the services answer. *)
Theorem inbound_writes_only_the_matched_lead (w : world) :
  (∀ payload : inbound_email,
     let run := handle_inbound_email payload w in
     dom (crm run.1) = dom (crm w)
     ∧ ∀ id,
         (∀ l, (close_sync.get_lead_by_email
                  (clean_address (lower (default "" (from_ payload)))) w).2
               = Ok (Some l) → l_id l ≠ id) →
         crm run.1 !! id = crm w !! id)
  ∧ (∀ payload : sms_handler.inbound_sms,
       let run := sms_handler.handle_inbound_sms payload w in
       dom (crm run.1) = dom (crm w)
       ∧ ∀ id,
           (∀ l, (sms_handler._find_lead_by_phone
                    (default "" (sms_handler.From payload)) w).2
                 = Ok (Some l) → l_id l ≠ id) →
           crm run.1 !! id = crm w !! id)
  ∧ (∀ payload : vapi_handler.call_ended,
       let run := vapi_handler.handle_call_ended payload w in
       dom (crm run.1) = dom (crm w)
       ∧ ∀ id,
           (∀ l, (vapi_handler._find_lead_by_phone
                    (default "" (vapi_handler.customer_number payload)) w).2
                 = Ok (Some l) → l_id l ≠ id) →
           crm run.1 !! id = crm w !! id).
Proof.
  split; [| split]; intros payload; cbv zeta.
  - unfold handle_inbound_email, _handle_based_on_analysis, _save_to_history.
    unfold_clients. run_all.
    run_cases; (split; [frame | intros id Hid; frame]).
  - unfold sms_handler.handle_inbound_sms, sms_handler._find_lead_by_phone,
      sms_handler._handle_sms_analysis, sms_handler._send_sms.
    unfold_clients. run_all.
    run_cases; (split; [frame | intros id Hid; frame]).
  - unfold vapi_handler.handle_call_ended, vapi_handler._find_lead_by_phone.
    unfold_clients. run_all.
    run_cases; (split; [frame | intros id Hid; frame]).
Qed.

End inbound_frame.

Section call_webhook.
Context `{D : DatetimeLib} `{R : Remote}.
Import vapi_handler.

(** X17: a call-ended webhook without a customer number, or whose number
    matches no lead, is dropped without a trace: the handler answers that
    no lead was found, changes no lead, appends no note and, unlike the
    e-mail and SMS routers, notifies nobody. *)
Theorem call_without_lead_leaves_no_trace (payload : call_ended) (w : world) :
  truthy (default "" (customer_number payload)) = false
  ∨ (_find_lead_by_phone (default "" (customer_number payload)) w).2 = Ok None →
  let run := handle_call_ended payload w in
  run.2 = Ok NoLeadFound ∧ crm run.1 = crm w ∧ new_events w run.1 = [].
Proof.
  cbv zeta. unfold handle_call_ended, _find_lead_by_phone.
  unfold_clients. run_all.
  intros [Hphone | Hnone].
  - rewrite Hphone. cbn [fst snd]. events. auto.
  - destruct (truthy _); [| cbn [fst snd]; events; auto].
    injection Hnone as Hnone. rewrite Hnone. cbn [fst snd crm]. events. auto.
Qed.

(** X18: after an ended call of a known lead whose state write succeeds,
    the stored state follows the fallback classifier, booking first:
    CALL_BOOKED when the lower-cased transcript contains calendar or book,
    else CLOSED_LOST when it contains not interested or no thanks, else
    unchanged. *)
Theorem call_outcome_sets_state (payload : call_ended) (w : world) (l : lead) :
  truthy (default "" (customer_number payload)) = true →
  (_find_lead_by_phone (default "" (customer_number payload)) w).2 = Ok (Some l) →
  is_Some (crm w !! l_id l) →
  http_ok (S (S (tick w))) = true →
  let t := lower (default "" (transcript payload)) in
  agent_state_of (handle_call_ended payload w).1 (l_id l)
  = if contains "calendar" t || contains "book" t then "CALL_BOOKED"
    else if contains "not interested" t || contains "no thanks" t then "CLOSED_LOST"
    else agent_state_of w (l_id l).
Proof.
  intros Hphone Hfound Hsome Hok. cbv zeta.
  unfold handle_call_ended, _find_lead_by_phone, _analyze_call_outcome in *.
  revert Hfound. unfold_clients. run_all. intros [= Hfound].
  rewrite Hphone, Hfound. cbn [fst snd].
  destruct (contains "calendar" _ || contains "book" _);
    [| destruct (contains "not interested" _ || contains "no thanks" _)];
    cbn [booked_call not_interested fst snd clock crm trace tick];
    rewrite ?Hok, ?(bool_decide_eq_true_2 _ Hsome);
    cbn [andb fst snd clock crm trace tick];
    first [reflexivity | apply (agent_state_after_put w); exact Hsome].
Qed.

End call_webhook.

Lemma call_without_lead_leaves_no_trace_witness :
  let w := examples.world_of examples.t_mar04
             (examples.ada "4" "2024-03-01T09:00:00" "CALLING") in
  let run := vapi_handler.handle_call_ended (D := iso8601)
               (R := examples.remote_of examples.always_ok None
                       examples.escalate_and_book)
               samples.anonymous_call w in
  run.2 = Ok vapi_handler.NoLeadFound ∧ crm run.1 = crm w ∧ new_events w run.1 = [].
Proof.
  exact (call_without_lead_leaves_no_trace (D := iso8601)
           (R := examples.remote_of examples.always_ok None examples.escalate_and_book)
           samples.anonymous_call
           (examples.world_of examples.t_mar04
              (examples.ada "4" "2024-03-01T09:00:00" "CALLING"))
           (or_introl eq_refl)).
Defined.

Lemma call_outcome_sets_state_witness :
  agent_state_of
    (vapi_handler.handle_call_ended (D := iso8601)
       (R := examples.remote_of examples.always_ok None examples.escalate_and_book)
       samples.booking_call
       (examples.world_of examples.t_mar04
          (examples.ada "4" "2024-03-01T09:00:00" "CALLING"))).1 "lead_1"
  = "CALL_BOOKED".
Proof.
  refine (call_outcome_sets_state (D := iso8601)
            (R := examples.remote_of examples.always_ok None examples.escalate_and_book)
            samples.booking_call
            (examples.world_of examples.t_mar04
               (examples.ada "4" "2024-03-01T09:00:00" "CALLING"))
            (examples.ada "4" "2024-03-01T09:00:00" "CALLING") eq_refl _ _ eq_refl).
  - vm_compute. reflexivity.
  - vm_compute. eauto.
Defined.

(** ** The Typeform entry point *)

Section intake.
Context `{D : DatetimeLib} `{R : Remote} `{S : CloseServer}.
Import classifier CloseClient LeadAgent.

Variables (hc_form_id hw_form_id : string)
  (_classify_with_llm : typeform_payload → result classified_lead).

Lemma alter_present {A} (f : A → A) (k : string) (m : gmap string A) (a : A) :
  m !! k = Some a → alter f k m = <[k := f a]> m.
Proof.
  intros Hk. apply map_eq. intros j. destruct (decide (j = k)) as [-> | Hne].
  - rewrite lookup_alter_eq, lookup_insert_eq, Hk. reflexivity.
  - rewrite lookup_alter_ne, lookup_insert_ne by congruence. reflexivity.
Qed.

Lemma upsert_creates (c : classified_lead) (tid : string) (w : world) :
  (∀ n, http_ok n = true) →
  head (close_search (crm w) (external_query ("typeform_" +:+ tid))) = None →
  upsert_lead c tid w
  = (mk_world (clock w)
       (<[new_lead_id (crm w) := with_contact c ("typeform_" +:+ tid) w]> (crm w))
       (CloseNote (new_lead_id (crm w)) "Lead created from Typeform submission" true
        :: CloseContactPost (new_lead_id (crm w)) (contact_payload c) true
        :: CloseCreate (create_payload c ("typeform_" +:+ tid))
             (Some (new_lead_id (crm w)))
        :: trace w)
       (5 + tick w)%nat,
     Ok (created_lead c ("typeform_" +:+ tid) w)).
Proof.
  intros Hok Hnone.
  unfold upsert_lead, _find_lead_by_external_id, _create_lead, _create_contact,
    post_lead, post_contact, put_contact.
  unfold_clients. run_all.
  rewrite Hok, Hnone. cbn [fst snd clock crm trace tick].
  rewrite Hok. cbn [fst snd clock crm trace tick].
  rewrite Hok. cbn [fst snd clock crm trace tick apply_fields l_id].
  rewrite lookup_insert_eq. cbn [mbind option_bind l_contacts apply_fields default].
  cbv beta iota delta [id]. cbn [fst snd clock crm trace tick].
  rewrite Hok, lookup_insert_eq.
  rewrite (bool_decide_eq_true_2 (is_Some (Some _))) by eauto.
  cbn [andb fst snd clock crm trace tick]. rewrite Hok.
  rewrite (alter_present _ _ _ _ (lookup_insert_eq _ _ _)), insert_insert_eq.
  reflexivity.
Qed.

Lemma upsert_updates (c : classified_lead) (tid : string) (w : world)
    (found stored : lead) :
  (∀ n, http_ok n = true) →
  head (close_search (crm w) (external_query ("typeform_" +:+ tid))) = Some found →
  crm w !! l_id found = Some stored →
  upsert_lead c tid w
  = (mk_world (clock w)
       (<[l_id found := apply_fields (update_payload c) stored]> (crm w))
       (CloseNote (l_id found) "Lead updated from new Typeform submission" true
        :: ClosePut (l_id found) (update_payload c) true :: trace w)
       (3 + tick w)%nat,
     Ok (apply_fields (update_payload c) stored)).
Proof.
  intros Hok Hfound Hstored.
  unfold upsert_lead, _find_lead_by_external_id, _update_lead, put_lead_json.
  unfold_clients. run_all.
  rewrite Hok, Hfound. cbn [fst snd clock crm trace tick].
  rewrite Hok, Hstored, (bool_decide_eq_true_2 (is_Some (Some stored))) by eauto.
  cbn [andb fst snd clock crm trace tick].
  rewrite lookup_alter_eq, Hstored. cbn [fmap option_fmap option_map fst snd crm].
  rewrite Hok, (alter_present _ _ _ _ Hstored). reflexivity.
Qed.

Lemma handle_unbooked_run (lead_id : string) (c : classified_lead) (w : world)
    (l : lead) :
  (∀ n, http_ok n = true) →
  crm w !! lead_id = Some l →
  _handle_unbooked_lead lead_id c w
  = (mk_world (clock w) (<[lead_id := nurtured (clock w) l]> (crm w))
       (SlackPost NewLeadEnteredNurture (Some (as_lead_data c))
        :: CloseNote lead_id "Sent email: Nurture: Welcome email" true
        :: ClosePut lead_id
             (close_sync.tracking_payload (clock w) 1 "Nurture: Welcome email") true
        :: EmailSend (cl_email c) (cl_name c) "Welcome - Let's transform your practice"
             (Nurture 1 "") true
        :: CloseNote lead_id "Agent state changed to: NURTURING" true
        :: ClosePut lead_id (close_sync.state_payload (clock w) "NURTURING") true
        :: trace w)
       (5 + tick w)%nat,
     Ok (mk_intake_result "nurture" lead_id true)).
Proof.
  intros Hok Hl. unfold _handle_unbooked_lead, as_lead_data.
  unfold_clients. cbn [email name]. run_all.
  rewrite Hok, Hl, (bool_decide_eq_true_2 (is_Some (Some l))) by eauto.
  cbn [andb fst snd clock crm trace tick]. rewrite !Hok.
  cbn [andb fst snd clock crm trace tick].
  rewrite lookup_alter_eq, Hl.
  rewrite (bool_decide_eq_true_2 (is_Some _)) by (cbn; eauto).
  cbn [andb fst snd clock crm trace tick]. rewrite Hok.
  rewrite (alter_present _ _ _ _ Hl).
  rewrite (alter_present _ _ _ _ (lookup_insert_eq _ _ _)), insert_insert_eq.
  reflexivity.
Qed.

Lemma handle_booked_run (lead_id : string) (c : classified_lead) (b : booking)
    (w : world) (l : lead) :
  (∀ n, http_ok n = true) →
  crm w !! lead_id = Some l →
  _handle_booked_lead lead_id c b w
  = (mk_world (clock w) (<[lead_id := booked (clock w) b l]> (crm w))
       (SlackPost (NewBookedLead (b_start_time b)) (Some (as_lead_data c))
        :: CloseNote lead_id "Sent email: Booked: Asset pack sent" true
        :: ClosePut lead_id
             (close_sync.tracking_payload (clock w) 0 "Booked: Asset pack sent") true
        :: EmailSend (cl_email c) (cl_name c)
             ("Looking forward to our call on "
              +:+ email_engine._format_date (b_start_time b))
             (BookedAssets b) true
        :: CloseNote lead_id "Agent state changed to: BOOKED" true
        :: ClosePut lead_id (close_sync.state_payload (clock w) "BOOKED") true
        :: CloseNote lead_id "Calendly booking detected" true
        :: ClosePut lead_id
             [("custom.booked", "yes");
              ("custom.calendly_event_uri", b_uri b);
              ("custom.call_scheduled_at", b_start_time b);
              ("status_id", close_sync._get_status_id "Qualified")] true
        :: trace w)
       (7 + tick w)%nat,
     Ok (mk_intake_result "booked" lead_id true)).
Proof.
  intros Hok Hl. unfold _handle_booked_lead, as_lead_data.
  unfold_clients. cbn [email name]. run_all.
  rewrite Hok, Hl, (bool_decide_eq_true_2 (is_Some (Some l))) by eauto.
  cbn [andb fst snd clock crm trace tick]. rewrite !Hok.
  cbn [andb fst snd clock crm trace tick].
  rewrite lookup_alter_eq, Hl.
  rewrite (bool_decide_eq_true_2 (is_Some _)) by (cbn; eauto).
  cbn [andb fst snd clock crm trace tick]. rewrite !Hok.
  cbn [andb fst snd clock crm trace tick].
  rewrite !lookup_alter_eq, Hl.
  rewrite (bool_decide_eq_true_2 (is_Some _)) by (cbn; eauto).
  cbn [andb fst snd clock crm trace tick]. rewrite Hok.
  rewrite (alter_present _ _ _ _ Hl).
  rewrite (alter_present _ _ _ _ (lookup_insert_eq _ _ _)), insert_insert_eq.
  rewrite (alter_present _ _ _ _ (lookup_insert_eq _ _ _)), insert_insert_eq.
  reflexivity.
Qed.

Lemma process_typeform_submission_eq (s : submission) (w : world) :
  process_typeform_submission hc_form_id hw_form_id _classify_with_llm s w
  = match classify hc_form_id hw_form_id _classify_with_llm (form s) with
    | Raise e => (w, Raise e)
    | Ok c =>
        match upsert_lead c (typeform_id s) w with
        | (w1, Raise e) => (w1, Raise e)
        | (w1, Ok close_lead) =>
            match (if truthy (cl_email c) then check_booking (cl_email c) else Ok None) with
            | Raise e => (w1, Raise e)
            | Ok (Some b) => _handle_booked_lead (l_id close_lead) c b w1
            | Ok None => _handle_unbooked_lead (l_id close_lead) c w1
            end
        end
    end.
Proof.
  unfold process_typeform_submission. fold (typeform_id s).
  destruct (classify _ _ _ (form s)) as [c | e]; [| reflexivity].
  rewrite (bind_ok _ _ w w c eq_refl). unfold bind at 1.
  destruct (upsert_lead c (typeform_id s) w) as [w1 [l | e]]; [| reflexivity].
  unfold bind at 1.
  destruct (truthy (cl_email c)); [| reflexivity].
  unfold lift. destruct (check_booking (cl_email c)) as [[b |] | e]; reflexivity.
Qed.

Lemma update_keeps_other_fields (c : classified_lead) (stored : lead) (key dflt : string) :
  key ≠ "priority" → key ≠ "goals" →
  custom_get (l_custom (apply_fields (update_payload c) stored)) key dflt
  = custom_get (l_custom stored) key dflt.
Proof.
  intros Hp Hg. unfold custom_get.
  change (default ∅ (l_custom (apply_fields (update_payload c) stored)))
    with (<["goals" := cl_goals c]>
            (<["priority" := cl_priority c]> (default ∅ (l_custom stored)))).
  rewrite !lookup_insert_ne by congruence. reflexivity.
Qed.

Lemma created_custom (c : classified_lead) (ext : string) (w : world) :
  default ∅ (l_custom (created_lead c ext w))
  = <["email_sequence_step" := "0"]>
      (<["last_email_sent" := ""]>
         (<["booked" := "no"]>
            (<["form_id" := ""]>
               (<["source" := "typeform"]>
                  (<["goals" := cl_goals c]>
                     (<["industry" := cl_industry c]>
                        (<["agent_state" := "NEW"]>
                           (<["priority" := cl_priority c]>
                              (<["lead_type" := cl_leadType c]>
                                 (<["external_id" := ext]> ∅)))))))))).
Proof. reflexivity. Qed.

Lemma state_custom (now : Z) (state : string) (l : lead) :
  default ∅ (l_custom (apply_fields (close_sync.state_payload now state) l))
  = <["state_updated_at" := isoformat (utcnow now)]>
      (<["agent_state" := state]> (default ∅ (l_custom l))).
Proof. reflexivity. Qed.

Lemma custom_get_lookup (l : lead) (key dflt : string) :
  custom_get (Some l ≫= l_custom) key dflt
  = default dflt (default ∅ (l_custom l) !! key).
Proof. reflexivity. Qed.


Lemma with_contact_custom (c : classified_lead) (ext : string) (w : world) :
  l_custom (with_contact c ext w) = l_custom (created_lead c ext w).
Proof. reflexivity. Qed.

Lemma nurtured_custom (now : Z) (l : lead) :
  default ∅ (l_custom (nurtured now l))
  = <["last_email_subject" := "Nurture: Welcome email"]>
      (<["last_email_sent" := isoformat (utcnow now)]>
         (<["email_sequence_step" := "1"]>
            (<["state_updated_at" := isoformat (utcnow now)]>
               (<["agent_state" := "NURTURING"]> (default ∅ (l_custom l)))))).
Proof. reflexivity. Qed.

Lemma booked_custom (now : Z) (b : booking) (l : lead) :
  default ∅ (l_custom (booked now b l))
  = <["last_email_subject" := "Booked: Asset pack sent"]>
      (<["last_email_sent" := isoformat (utcnow now)]>
         (<["email_sequence_step" := "0"]>
            (<["state_updated_at" := isoformat (utcnow now)]>
               (<["agent_state" := "BOOKED"]>
                  (<["call_scheduled_at" := b_start_time b]>
                     (<["calendly_event_uri" := b_uri b]>
                        (<["booked" := "yes"]> (default ∅ (l_custom l))))))))).
Proof. reflexivity. Qed.

Lemma no_booking (c : classified_lead) :
  (truthy (cl_email c) = true → check_booking (cl_email c) = Ok None) →
  (if truthy (cl_email c) then check_booking (cl_email c) else Ok None) = Ok None.
Proof. intros H. destruct (truthy (cl_email c)); [apply H |]; reflexivity. Qed.

(** X19: a submission for which the CRM holds no lead and the calendar no
    booking, every request succeeding, creates exactly one lead and leaves
    the others alone; the new lead is stored in NURTURING with cursor 1, the
    time of the welcome e-mail, its external id, [booked] = no and one
    contact; exactly one e-mail is sent, the welcome e-mail to the
    submitted address; the result names the nurture path. *)
Theorem intake_enters_nurture (s : submission) (c : classified_lead) (w : world) :
  (∀ n, http_ok n = true) →
  classify hc_form_id hw_form_id _classify_with_llm (form s) = Ok c →
  head (close_search (crm w) (external_query ("typeform_" +:+ typeform_id s))) = None →
  (truthy (cl_email c) = true → check_booking (cl_email c) = Ok None) →
  let run := process_typeform_submission hc_form_id hw_form_id _classify_with_llm s w in
  let id := new_lead_id (crm w) in
  run.2 = Ok (mk_intake_result "nurture" id true)
  ∧ dom (crm run.1) = {[id]} ∪ dom (crm w)
  ∧ (∀ other, other ≠ id → crm run.1 !! other = crm w !! other)
  ∧ agent_state_of run.1 id = "NURTURING"
  ∧ cursor_of run.1 id = "1"
  ∧ stored_custom run.1 id "last_email_sent" "" = isoformat (utcnow (clock w))
  ∧ stored_custom run.1 id "external_id" "" = "typeform_" +:+ typeform_id s
  ∧ stored_custom run.1 id "booked" "" = "no"
  ∧ (crm run.1 !! id ≫= l_contacts) = Some [contact_payload c]
  ∧ List.filter is_email_send (new_events w run.1)
    = [EmailSend (cl_email c) (cl_name c) "Welcome - Let's transform your practice"
         (Nurture 1 "") true].
Proof.
  intros Hok Hc Hnone Hnb. cbv zeta.
  rewrite process_typeform_submission_eq, Hc, (upsert_creates c _ w Hok Hnone),
    (no_booking c Hnb).
  cbn [l_id created_lead apply_fields].
  rewrite (handle_unbooked_run _ c _ _ Hok (lookup_insert_eq _ _ _)).
  cbn [fst snd crm clock trace]. rewrite insert_insert_eq.
  unfold agent_state_of, cursor_of, stored_custom. cbn [crm].
  rewrite lookup_insert_eq, !custom_get_lookup, nurtured_custom, with_contact_custom,
    created_custom.
  split; [reflexivity |].
  split; [apply dom_insert_L |].
  split; [intros other Hne; apply lookup_insert_ne; congruence |].
  events. repeat split.
Qed.

(** X20: a submission whose address already has a booking, every request
    succeeding, stores the new lead in BOOKED with [booked] = yes, the
    booking's start time and URI and cursor 0; the only e-mail is the asset
    pack, and the operator is told once; no nurture e-mail is sent. *)
Theorem intake_of_booked_lead (s : submission) (c : classified_lead) (b : booking)
    (w : world) :
  (∀ n, http_ok n = true) →
  classify hc_form_id hw_form_id _classify_with_llm (form s) = Ok c →
  head (close_search (crm w) (external_query ("typeform_" +:+ typeform_id s))) = None →
  truthy (cl_email c) = true →
  check_booking (cl_email c) = Ok (Some b) →
  let run := process_typeform_submission hc_form_id hw_form_id _classify_with_llm s w in
  let id := new_lead_id (crm w) in
  run.2 = Ok (mk_intake_result "booked" id true)
  ∧ agent_state_of run.1 id = "BOOKED"
  ∧ cursor_of run.1 id = "0"
  ∧ stored_custom run.1 id "booked" "" = "yes"
  ∧ stored_custom run.1 id "call_scheduled_at" "" = b_start_time b
  ∧ stored_custom run.1 id "calendly_event_uri" "" = b_uri b
  ∧ List.filter is_email_send (new_events w run.1)
    = [EmailSend (cl_email c) (cl_name c)
         ("Looking forward to our call on " +:+ email_engine._format_date (b_start_time b))
         (BookedAssets b) true]
  ∧ List.filter is_outreach (new_events w run.1)
    = [SlackPost (NewBookedLead (b_start_time b)) (Some (as_lead_data c));
       EmailSend (cl_email c) (cl_name c)
         ("Looking forward to our call on " +:+ email_engine._format_date (b_start_time b))
         (BookedAssets b) true].
Proof.
  intros Hok Hc Hnone Hmail Hb. cbv zeta.
  rewrite process_typeform_submission_eq, Hc, (upsert_creates c _ w Hok Hnone),
    Hmail, Hb.
  cbn [l_id created_lead apply_fields].
  rewrite (handle_booked_run _ c b _ _ Hok (lookup_insert_eq _ _ _)).
  cbn [fst snd crm clock trace]. rewrite insert_insert_eq.
  unfold agent_state_of, cursor_of, stored_custom. cbn [crm].
  rewrite lookup_insert_eq, !custom_get_lookup, booked_custom, with_contact_custom,
    created_custom.
  split; [reflexivity |].
  events. repeat split.
Qed.

(** X21: a second submission under an external id the CRM already holds
    creates no lead but restarts the sequence of the existing one, whatever
    its stored state and cursor were: without a booking the lead is put in
    NURTURING with cursor 1 and a fresh last-sent time, its priority is
    overwritten, and the welcome e-mail is sent again. *)
Theorem resubmission_restarts_sequence (s : submission) (c : classified_lead)
    (w : world) (found stored : lead) :
  (∀ n, http_ok n = true) →
  classify hc_form_id hw_form_id _classify_with_llm (form s) = Ok c →
  head (close_search (crm w) (external_query ("typeform_" +:+ typeform_id s)))
  = Some found →
  crm w !! l_id found = Some stored →
  l_id stored = l_id found →
  (truthy (cl_email c) = true → check_booking (cl_email c) = Ok None) →
  let run := process_typeform_submission hc_form_id hw_form_id _classify_with_llm s w in
  let id := l_id found in
  run.2 = Ok (mk_intake_result "nurture" id true)
  ∧ dom (crm run.1) = dom (crm w)
  ∧ (∀ other, other ≠ id → crm run.1 !! other = crm w !! other)
  ∧ agent_state_of run.1 id = "NURTURING"
  ∧ cursor_of run.1 id = "1"
  ∧ stored_custom run.1 id "last_email_sent" "" = isoformat (utcnow (clock w))
  ∧ stored_custom run.1 id "priority" "" = cl_priority c
  ∧ List.filter is_email_send (new_events w run.1)
    = [EmailSend (cl_email c) (cl_name c) "Welcome - Let's transform your practice"
         (Nurture 1 "") true].
Proof.
  intros Hok Hc Hfound Hstored Hid Hnb. cbv zeta.
  rewrite process_typeform_submission_eq, Hc,
    (upsert_updates c _ w found stored Hok Hfound Hstored), (no_booking c Hnb).
  cbn [l_id apply_fields]. rewrite Hid.
  rewrite (handle_unbooked_run _ c _ _ Hok (lookup_insert_eq _ _ _)).
  cbn [fst snd crm clock trace]. rewrite insert_insert_eq.
  unfold agent_state_of, cursor_of, stored_custom. cbn [crm].
  rewrite lookup_insert_eq, !custom_get_lookup, nurtured_custom.
  split; [reflexivity |].
  split; [apply dom_insert_lookup_L; eauto |].
  split; [intros other Hne; apply lookup_insert_ne; congruence |].
  change (default ∅ (l_custom (apply_fields (update_payload c) stored)))
    with (<["goals" := cl_goals c]>
            (<["priority" := cl_priority c]> (default ∅ (l_custom stored)))).
  events.
  repeat split;
    repeat first [rewrite lookup_insert_eq | rewrite lookup_insert_ne by discriminate];
    reflexivity.
Qed.

(** X23: [upsert_lead] on an external id the CRM already holds overwrites
    the priority and the goals of the stored lead and nothing else: no lead
    is added, state, cursor and every other custom field keep their values,
    and the updated lead is returned. *)
Theorem upsert_updates_existing (c : classified_lead) (tid : string) (w : world)
    (found stored : lead) :
  http_ok (tick w) = true →
  http_ok (Datatypes.S (tick w)) = true →
  head (close_search (crm w) (external_query ("typeform_" +:+ tid))) = Some found →
  crm w !! l_id found = Some stored →
  let run := upsert_lead c tid w in
  let updated := apply_fields (update_payload c) stored in
  run.2 = Ok updated
  ∧ crm run.1 = <[l_id found := updated]> (crm w)
  ∧ dom (crm run.1) = dom (crm w)
  ∧ new_events w run.1
    = [CloseNote (l_id found) "Lead updated from new Typeform submission"
         (http_ok (Datatypes.S (Datatypes.S (tick w))));
       ClosePut (l_id found) (update_payload c) true]
  ∧ custom_get (l_custom updated) "priority" "" = cl_priority c
  ∧ custom_get (l_custom updated) "goals" "" = cl_goals c
  ∧ ∀ key dflt, key ≠ "priority" → key ≠ "goals" →
      custom_get (l_custom updated) key dflt = custom_get (l_custom stored) key dflt.
Proof.
  intros Hsearch Hput Hfound Hstored. cbv zeta.
  unfold upsert_lead, _find_lead_by_external_id, _update_lead, put_lead_json.
  unfold_clients. run_all.
  rewrite Hsearch, Hfound. cbn [fst snd clock crm trace tick].
  rewrite Hput, Hstored, (bool_decide_eq_true_2 (is_Some (Some stored))) by eauto.
  cbn [andb fst snd clock crm trace tick].
  rewrite lookup_alter_eq, Hstored. cbn [fmap option_fmap option_map fst snd crm].
  split; [reflexivity |].
  assert (alter (apply_fields (update_payload c)) (l_id found) (crm w)
          = <[l_id found := apply_fields (update_payload c) stored]> (crm w)) as Halter.
  { apply map_eq. intros k. destruct (decide (k = l_id found)) as [-> | Hne].
    - rewrite lookup_alter_eq, lookup_insert_eq, Hstored. reflexivity.
    - rewrite lookup_alter_ne, lookup_insert_ne by congruence. reflexivity. }
  split; [exact Halter |].
  split; [apply dom_alter_L |].
  split; [events; reflexivity |].
  assert (default ∅ (l_custom (apply_fields (update_payload c) stored))
          = <["goals" := cl_goals c]>
              (<["priority" := cl_priority c]> (default ∅ (l_custom stored)))) as Hcustom
    by reflexivity.
  split; [unfold custom_get; rewrite Hcustom, lookup_insert_ne, lookup_insert_eq
            by discriminate; reflexivity |].
  split; [unfold custom_get; rewrite Hcustom, lookup_insert_eq; reflexivity |].
  intros key dflt. apply update_keeps_other_fields.
Qed.

Lemma upsert_quiet (c : classified_lead) (tid : string) (w : world) :
  ∃ es, trace (upsert_lead c tid w).1 = es ++ trace w
        ∧ List.filter is_outreach es = [].
Proof.
  unfold upsert_lead, _find_lead_by_external_id, _update_lead, put_lead_json,
    _create_lead, _create_contact, post_lead, post_contact, put_contact.
  unfold_clients. run_all.
  run_cases; try (give_events; reflexivity).
Qed.

(** Splits a list of events at its applied state write. *)
Ltac split_at_state p :=
  lazymatch p with
  | ClosePut ?i (close_sync.state_payload ?n ?st) true :: ?older =>
      constr:((@nil event, close_sync.state_payload n st, older))
  | ?e :: ?r =>
      let t := split_at_state r in
      lazymatch t with (?nw, ?f, ?o) => constr:((e :: nw, f, o)) end
  end.

Ltac give_order :=
  cbn [trace fst snd];
  match goal with
  | |- ∃ es, ?t = es ++ ?base ∧ _ =>
      let p := prefix_of t base in
      exists p; split; [reflexivity |];
      first
        [ left; reflexivity
        | right;
          let t := split_at_state p in
          lazymatch t with
          | (?nw, ?f, ?o) => exists f, nw, o; repeat split
          end ]
  end.

Lemma unbooked_order (lead_id : string) (c : classified_lead) (w : world) :
  ∃ es, trace (_handle_unbooked_lead lead_id c w).1 = es ++ trace w
        ∧ after_state_write lead_id "NURTURING" es.
Proof.
  unfold after_state_write, _handle_unbooked_lead, as_lead_data.
  unfold_clients. cbn [email name]. run_all.
  run_cases; try give_order.
Qed.

Lemma booked_order (lead_id : string) (c : classified_lead) (b : booking)
    (w : world) :
  ∃ es, trace (_handle_booked_lead lead_id c b w).1 = es ++ trace w
        ∧ after_state_write lead_id "BOOKED" es.
Proof.
  unfold after_state_write, _handle_booked_lead, as_lead_data.
  unfold_clients. cbn [email name]. run_all.
  run_cases; try give_order.
Qed.

Lemma after_state_write_app (lead_id state : string) (es older : list event) :
  after_state_write lead_id state es →
  List.filter is_outreach older = [] →
  after_state_write lead_id state (es ++ older).
Proof.
  intros [Hquiet | (fields & newer & old & -> & Hstate & Hold)] Holder.
  - left. rewrite List.filter_app, Hquiet, Holder. reflexivity.
  - right. exists fields, newer, (old ++ older). split; [| split].
    + rewrite <- app_assoc. reflexivity.
    + exact Hstate.
    + rewrite List.filter_app, Hold, Holder. reflexivity.
Qed.

(** X24: the intake contacts nobody before the lead is in the CRM and its
    state is written. In every run, returning or not: when classification
    fails nothing at all has happened; when the CRM refuses to create or
    update the lead there is no e-mail, text, call or operator
    notification; otherwise every such event comes after an applied write
    of the lead's state, NURTURING or BOOKED, on the lead that [upsert_lead]
    returned (or there is none). *)
Theorem intake_outreach_follows_state_write (s : submission) (w : world) :
  let run := process_typeform_submission hc_form_id hw_form_id _classify_with_llm s w in
  let es := new_events w run.1 in
  match classify hc_form_id hw_form_id _classify_with_llm (form s) with
  | Raise _ => es = []
  | Ok c =>
      match (upsert_lead c (typeform_id s) w).2 with
      | Raise _ => List.filter is_outreach es = []
      | Ok l =>
          after_state_write (l_id l) "NURTURING" es
          ∨ after_state_write (l_id l) "BOOKED" es
      end
  end.
Proof.
  cbv zeta. rewrite process_typeform_submission_eq.
  destruct (classify _ _ _ (form s)) as [c | e0];
    [| cbn [fst]; apply new_events_same].
  destruct (upsert_quiet c (typeform_id s) w) as (es1 & Ht1 & Hq1).
  destruct (upsert_lead c (typeform_id s) w) as [w1 [l | e1]]; cbn [fst snd] in *.
  2: { rewrite (new_events_app w w1 es1 Ht1). exact Hq1. }
  destruct (if truthy (cl_email c) then check_booking (cl_email c) else Ok None)
    as [[b |] | e2].
  - destruct (booked_order (l_id l) c b w1) as (es2 & Ht2 & Hq2).
    rewrite (new_events_app w _ (es2 ++ es1))
      by (rewrite Ht2, Ht1, app_assoc; reflexivity).
    right. apply after_state_write_app; assumption.
  - destruct (unbooked_order (l_id l) c w1) as (es2 & Ht2 & Hq2).
    rewrite (new_events_app w _ (es2 ++ es1))
      by (rewrite Ht2, Ht1, app_assoc; reflexivity).
    left. apply after_state_write_app; assumption.
  - cbn [fst]. rewrite (new_events_app w w1 es1 Ht1). left. left. exact Hq1.
Qed.

Lemma intake_stores (s : submission) (c : classified_lead) (w : world) :
  (∀ n, http_ok n = true) →
  classify hc_form_id hw_form_id _classify_with_llm (form s) = Ok c →
  head (close_search (crm w) (external_query ("typeform_" +:+ typeform_id s))) = None →
  (truthy (cl_email c) = true → check_booking (cl_email c) = Ok None) →
  crm (process_typeform_submission hc_form_id hw_form_id _classify_with_llm s w).1
    !! new_lead_id (crm w)
  = Some (nurtured (clock w) (with_contact c ("typeform_" +:+ typeform_id s) w)).
Proof.
  intros Hok Hc Hnone Hnb.
  rewrite process_typeform_submission_eq, Hc, (upsert_creates c _ w Hok Hnone),
    (no_booking c Hnb).
  cbn [l_id created_lead apply_fields].
  rewrite (handle_unbooked_run _ c _ _ Hok (lookup_insert_eq _ _ _)).
  cbn [fst crm]. apply lookup_insert_eq.
Qed.

(** X22: the lead the intake stores is what the sweep needs: for a
    submission with an address and a phone number, the sweep's per-lead
    step on the stored lead does nothing before three days have passed
    since the intake, and from then on sends step 2 (and only that) to
    the submitted address and stores cursor 2 with the time of the send. *)
Theorem sweep_after_intake (s : submission) (c : classified_lead) (w v : world)
    (l : lead) :
  (∀ n, http_ok n = true) →
  classify hc_form_id hw_form_id _classify_with_llm (form s) = Ok c →
  head (close_search (crm w) (external_query ("typeform_" +:+ typeform_id s))) = None →
  truthy (cl_email c) = true →
  truthy (cl_phone c) = true →
  check_booking (cl_email c) = Ok None →
  isoformat (utcnow (clock w)) ≠ "" →
  fromisoformat (isoformat (utcnow (clock w))) = Some (utcnow (clock w)) →
  in_range (clock w) = true →
  in_range (clock v) = true →
  crm (process_typeform_submission hc_form_id hw_form_id _classify_with_llm s w).1
    !! new_lead_id (crm w) = Some l →
  crm v !! new_lead_id (crm w) = Some l →
  let step := agent._process_nurturing_lead l v in
  if clock w + 3 * us_per_day <=? clock v
  then step.2 = Ok (agent.mk_lead_result true false false)
       ∧ cursor_of step.1 (new_lead_id (crm w)) = "2"
       ∧ agent_state_of step.1 (new_lead_id (crm w)) = "NURTURING"
       ∧ stored_custom step.1 (new_lead_id (crm w)) "last_email_sent" ""
         = isoformat (utcnow (clock v))
       ∧ List.filter is_outreach (new_events v step.1)
         = [EmailSend (cl_email c) (cl_name c)
              ("How " +:+ cl_company c +:+ " achieved results") (Nurture 2 "") true]
  else step = (v, Ok (agent.mk_lead_result false false false)).
Proof.
  intros Hok Hc Hnone Hmail Hphone Hnb Hne Hparse Hw Hv Hstored Hheld.
  rewrite (intake_stores s c w Hok Hc Hnone (fun _ => Hnb)) in Hstored.
  injection Hstored as <-.
  set (id := new_lead_id (crm w)) in *.
  set (l := nurtured (clock w) (with_contact c ("typeform_" +:+ typeform_id s) w)) in *.
  cbv zeta.
  assert (agent._get_lead_email l = Ok (Some (cl_email c))) as Haddr.
  { unfold agent._get_lead_email, l. cbn. rewrite Hmail. reflexivity. }
  assert (∃ ld, agent._extract_lead_data l = Ok ld
                ∧ email ld = Some (cl_email c) ∧ name ld = Some (cl_name c)
                ∧ company ld = Some (cl_company c)
                ∧ custom_get (custom ld) "last_email_sent" ""
                  = isoformat (utcnow (clock w))) as (ld & Hld & Hto & Hname & Hco & Hstamp).
  { unfold agent._extract_lead_data. rewrite Haddr. unfold l. cbn.
    rewrite Hphone. eexists. split; [reflexivity |]. repeat split. }
  rewrite (process_without_booking l v (Some (cl_email c)) 1 Haddr)
    by first [reflexivity | intros _; exact Hnb].
  assert (email_engine.should_send_email (clock v) ld (1 + 1) = true
          ↔ clock w + 3 * us_per_day ≤ clock v) as Hdue.
  { rewrite (should_send_recorded (clock v) ld 2 (utcnow (clock w)) Hv).
    - reflexivity.
    - unfold recorded_last_sent. rewrite Hstamp. repeat split; assumption.
    - cbn. lia. }
  destruct (Z.leb_spec (clock w + 3 * us_per_day) (clock v)) as [Hle | Hlt].
  - apply Hdue in Hle.
    unfold agent.next_nurture_step. change (1 + 1 >? 8) with false. cbv iota.
    rewrite Hld. change (l_id l) with id. unfold_clients. run_all. rewrite Hle, Hto, Hname. cbn [agent.report_step].
    change (agent.report_step (1 + 1)) with false. cbv iota.
    cbn [fst snd clock crm trace tick default].
    rewrite !Hok. cbn [fst snd clock crm trace tick].
    rewrite Hheld, (bool_decide_eq_true_2 (is_Some (Some l))) by eauto.
    cbn [andb fst snd clock crm trace tick]. rewrite Hok.
    change (1 + 1 =? 4) with false. cbv iota. cbn [fst snd clock crm trace tick].
    unfold cursor_of, agent_state_of, stored_custom. cbn [crm].
    rewrite lookup_alter_eq, Hheld. cbn [fmap option_fmap option_map].
    rewrite !custom_get_lookup, (tracking_custom (clock v) (1 + 1)).
    split; [reflexivity |]. events.
    unfold email_engine.nurture_subject. rewrite Hco.
    repeat split.
  - apply (next_step_not_due l 1 v ld); [lia | exact Hld |].
    destruct (email_engine.should_send_email (clock v) ld (1 + 1)); [| reflexivity].
    pose proof (proj1 Hdue eq_refl). lia.
Qed.


Lemma process_unbuildable (l : lead) :
  l_contacts l = Some []
  ∨ (∃ k rest, l_contacts l = Some (k :: rest) ∧ c_phones k = Some []) →
  ∀ w, ∃ e, agent._process_nurturing_lead l w = (w, Raise e).
Proof.
  intros Hl w.
  assert (∃ e, agent._extract_lead_data l = Raise e) as [e He].
  { unfold agent._extract_lead_data.
    destruct Hl as [Hk | (k & rest & Hk & Hp)]; rewrite Hk; cbn [default].
    - eauto.
    - change (id (k :: rest)) with (k :: rest). cbv iota.
      destruct (agent._get_lead_email l); [| eauto]. rewrite Hp. eauto. }
  unfold agent._process_nurturing_lead, agent._convert_to_booked. run_all.
  destruct (agent._get_lead_email l) as [addr |]; [| eauto].
  destruct (int _) as [k |]; [| eauto].
  assert (∃ e', agent.next_nurture_step l k w = (w, Raise e')) as Hnext
    by (rewrite (next_step_extract_fails l k w e He); eauto).
  destruct (truthy_opt addr); [| exact Hnext].
  destruct (check_booking _) as [[b |] |]; [| exact Hnext | eauto].
  rewrite He. eauto.
Qed.

(** X25: a submission without a phone number is taken in as usual
    (welcome e-mail, NURTURING), but the lead stored for it can never be
    processed by the sweep: its contact has an empty phone list, on which
    the per-lead step raises before doing anything, in every world; a sweep
    over it reports one error and counts nothing. *)
Theorem lead_without_phone_is_never_nurtured (s : submission) (c : classified_lead)
    (w : world) (l : lead) :
  (∀ n, http_ok n = true) →
  classify hc_form_id hw_form_id _classify_with_llm (form s) = Ok c →
  head (close_search (crm w) (external_query ("typeform_" +:+ typeform_id s))) = None →
  (truthy (cl_email c) = true → check_booking (cl_email c) = Ok None) →
  truthy (cl_phone c) = false →
  let run := process_typeform_submission hc_form_id hw_form_id _classify_with_llm s w in
  run.2 = Ok (mk_intake_result "nurture" (new_lead_id (crm w)) true)
  ∧ (crm run.1 !! new_lead_id (crm w) = Some l →
     ∀ v, ∃ e,
       agent._process_nurturing_lead l v = (v, Raise e)
       ∧ List.filter is_error_notice
           (new_events v (agent.run_scheduled_tasks_over [l] v).1)
         = [SlackPost (ErrorProcessingLead e) None]
       ∧ (agent.run_scheduled_tasks_over [l] v).2
         = Ok (agent.mk_sweep_result 0 0 0 0)).
Proof.
  intros Hok Hc Hnone Hnb Hphone. cbv zeta. split.
  - rewrite process_typeform_submission_eq, Hc, (upsert_creates c _ w Hok Hnone),
      (no_booking c Hnb).
    cbn [l_id created_lead apply_fields].
    rewrite (handle_unbooked_run _ c _ _ Hok (lookup_insert_eq _ _ _)). reflexivity.
  - rewrite (intake_stores s c w Hok Hc Hnone Hnb). intros [= <-] v.
    destruct (process_unbuildable
                (nurtured (clock w) (with_contact c ("typeform_" +:+ typeform_id s) w))
                ltac:(right; eexists _, _; split; [reflexivity |];
                      cbn [contact_payload c_phones]; rewrite Hphone; reflexivity) v)
      as [e He].
    exists e. split; [exact He |].
    unfold agent.run_scheduled_tasks_over. cbn [agent.process_leads].
    unfold slack_bot.send_notification. run_all. rewrite He.
    cbn [fst snd clock crm trace tick]. events. split; reflexivity.
Qed.

End intake.

Lemma intake_enters_nurture_witness :
  let run := LeadAgent.process_typeform_submission (D := iso8601)
               (R := samples.remote_of examples.always_ok None)
               (S := samples.one_new_lead)
               samples.hc_form samples.hw_form samples.no_llm
               samples.grace samples.empty_world in
  run.2 = Ok (LeadAgent.mk_intake_result "nurture" "lead_new" true)
  ∧ agent_state_of run.1 "lead_new" = "NURTURING"
  ∧ cursor_of run.1 "lead_new" = "1".
Proof.
  destruct (intake_enters_nurture (D := iso8601)
              (R := samples.remote_of examples.always_ok None)
              (S := samples.one_new_lead)
              samples.hc_form samples.hw_form samples.no_llm
              samples.grace samples.grace_classified samples.empty_world
              (fun n => eq_refl) eq_refl eq_refl (fun _ => eq_refl))
    as (Hres & _ & _ & Hstate & Hcursor & _).
  split; [exact Hres |]. split; [exact Hstate | exact Hcursor].
Defined.

Lemma intake_of_booked_lead_witness :
  let run := LeadAgent.process_typeform_submission (D := iso8601)
               (R := samples.remote_of examples.always_ok (Some samples.booking_tuesday))
               (S := samples.one_new_lead)
               samples.hc_form samples.hw_form samples.no_llm
               samples.grace samples.empty_world in
  run.2 = Ok (LeadAgent.mk_intake_result "booked" "lead_new" true)
  ∧ agent_state_of run.1 "lead_new" = "BOOKED"
  ∧ stored_custom run.1 "lead_new" "call_scheduled_at" "" = "2024-03-05T15:00:00Z".
Proof.
  destruct (intake_of_booked_lead (D := iso8601)
              (R := samples.remote_of examples.always_ok (Some samples.booking_tuesday))
              (S := samples.one_new_lead)
              samples.hc_form samples.hw_form samples.no_llm
              samples.grace samples.grace_classified samples.booking_tuesday
              samples.empty_world
              (fun n => eq_refl) eq_refl eq_refl eq_refl eq_refl)
    as (Hres & Hstate & _ & _ & Hcall & _).
  split; [exact Hres |]. split; [exact Hstate | exact Hcall].
Defined.

Lemma resubmission_restarts_sequence_witness :
  let w := examples.world_of examples.t_mar04 samples.grace_stored in
  let run := LeadAgent.process_typeform_submission (D := iso8601)
               (R := samples.remote_of examples.always_ok None)
               (S := samples.one_new_lead)
               samples.hc_form samples.hw_form samples.no_llm samples.grace w in
  agent_state_of w "lead_7" = "ENGAGED"
  ∧ cursor_of w "lead_7" = "3"
  ∧ run.2 = Ok (LeadAgent.mk_intake_result "nurture" "lead_7" true)
  ∧ agent_state_of run.1 "lead_7" = "NURTURING"
  ∧ cursor_of run.1 "lead_7" = "1".
Proof.
  destruct (resubmission_restarts_sequence (D := iso8601)
              (R := samples.remote_of examples.always_ok None)
              (S := samples.one_new_lead)
              samples.hc_form samples.hw_form samples.no_llm
              samples.grace samples.grace_classified
              (examples.world_of examples.t_mar04 samples.grace_stored)
              samples.grace_stored samples.grace_stored
              (fun n => eq_refl) eq_refl eq_refl eq_refl eq_refl (fun _ => eq_refl))
    as (Hres & _ & _ & Hstate & Hcursor & _).
  split; [reflexivity |]. split; [reflexivity |].
  split; [exact Hres |]. split; [exact Hstate | exact Hcursor].
Defined.

(** Grace submits on 2024-03-01T09:00:00; the sweep of 03-04 at the same
    hour sends her step 2. *)
Lemma sweep_after_intake_witness :
  let l := nurtured (D := iso8601) examples.t_mar01
             (with_contact (S := samples.one_new_lead) samples.grace_classified
                "typeform_resp_1" samples.empty_world) in
  let v := mk_world examples.t_mar04 {[ "lead_new" := l ]} [] 0 in
  let step := agent._process_nurturing_lead (D := iso8601)
                (R := samples.remote_of examples.always_ok None) l v in
  step.2 = Ok (agent.mk_lead_result true false false)
  ∧ cursor_of step.1 "lead_new" = "2".
Proof.
  cbv zeta.
  pose proof (sweep_after_intake (D := iso8601)
                (R := samples.remote_of examples.always_ok None)
                (S := samples.one_new_lead)
                samples.hc_form samples.hw_form samples.no_llm
                samples.grace samples.grace_classified samples.empty_world
                (mk_world examples.t_mar04
                   {[ "lead_new" :=
                        nurtured (D := iso8601) examples.t_mar01
                          (with_contact (S := samples.one_new_lead)
                             samples.grace_classified "typeform_resp_1"
                             samples.empty_world) ]} [] 0)
                (nurtured (D := iso8601) examples.t_mar01
                   (with_contact (S := samples.one_new_lead)
                      samples.grace_classified "typeform_resp_1" samples.empty_world))
                (fun n => eq_refl) eq_refl eq_refl eq_refl eq_refl eq_refl) as Hsweep.
  cbv zeta in Hsweep.
  change (clock samples.empty_world + 3 * us_per_day
          <=? clock (mk_world examples.t_mar04
                       {[ "lead_new" :=
                            nurtured (D := iso8601) examples.t_mar01
                              (with_contact (S := samples.one_new_lead)
                                 samples.grace_classified "typeform_resp_1"
                                 samples.empty_world) ]} [] 0))
    with true in Hsweep.
  cbv iota in Hsweep.
  destruct Hsweep as (Hres & Hcursor & _).
  - vm_compute. discriminate.
  - vm_compute. reflexivity.
  - vm_compute. reflexivity.
  - vm_compute. reflexivity.
  - apply (intake_stores (D := iso8601)
             (R := samples.remote_of examples.always_ok None)
             (S := samples.one_new_lead)
             samples.hc_form samples.hw_form samples.no_llm
             samples.grace samples.grace_classified samples.empty_world
             (fun n => eq_refl) eq_refl eq_refl (fun _ => eq_refl)).
  - apply lookup_singleton_eq.
  - split; [exact Hres | exact Hcursor].
Defined.

Lemma upsert_updates_existing_witness :
  let w := examples.world_of examples.t_mar04 samples.grace_stored in
  let run := CloseClient.upsert_lead
               (R := samples.remote_of examples.always_ok None)
               (S := samples.one_new_lead) samples.grace_classified "resp_1" w in
  stored_custom w "lead_7" "priority" "" = "low"
  ∧ stored_custom run.1 "lead_7" "priority" "" = "high"
  ∧ agent_state_of run.1 "lead_7" = "ENGAGED"
  ∧ dom (crm run.1) = dom (crm w).
Proof.
  destruct (upsert_updates_existing
              (R := samples.remote_of examples.always_ok None)
              (S := samples.one_new_lead) samples.grace_classified "resp_1"
              (examples.world_of examples.t_mar04 samples.grace_stored)
              samples.grace_stored samples.grace_stored
              eq_refl eq_refl eq_refl eq_refl)
    as (_ & Hcrm & Hdom & _ & Hprio & _ & Hkeep).
  split; [reflexivity |].
  split; [| split; [| exact Hdom]].
  - unfold stored_custom. rewrite Hcrm, lookup_insert_eq. exact Hprio.
  - unfold agent_state_of. rewrite Hcrm, lookup_insert_eq.
    refine (eq_trans (Hkeep "agent_state" "" _ _) _);
      [discriminate | discriminate | reflexivity].
Defined.

Lemma lead_without_phone_is_never_nurtured_witness :
  let l := nurtured (D := iso8601) examples.t_mar01
             (with_contact (S := samples.one_new_lead)
                samples.grace_without_phone_classified
                "typeform_resp_1" samples.empty_world) in
  let v := mk_world examples.t_mar04 {[ "lead_new" := l ]} [] 0 in
  ∃ e, agent._process_nurturing_lead (D := iso8601)
         (R := samples.remote_of examples.always_ok None) l v
       = (v, Raise e).
Proof.
  cbv zeta.
  destruct (lead_without_phone_is_never_nurtured (D := iso8601)
              (R := samples.remote_of examples.always_ok None)
              (S := samples.one_new_lead)
              samples.hc_form samples.hw_form samples.no_llm
              samples.grace_without_phone samples.grace_without_phone_classified
              samples.empty_world
              (nurtured (D := iso8601) examples.t_mar01
                 (with_contact (S := samples.one_new_lead)
                    samples.grace_without_phone_classified
                    "typeform_resp_1" samples.empty_world))
              (fun n => eq_refl) eq_refl eq_refl (fun _ => eq_refl) eq_refl)
    as (_ & Hsweep).
  destruct (Hsweep
              (intake_stores (D := iso8601)
                 (R := samples.remote_of examples.always_ok None)
                 (S := samples.one_new_lead)
                 samples.hc_form samples.hw_form samples.no_llm
                 samples.grace_without_phone samples.grace_without_phone_classified
                 samples.empty_world
                 (fun n => eq_refl) eq_refl eq_refl (fun _ => eq_refl))
              (mk_world examples.t_mar04
                 {[ "lead_new" :=
                      nurtured (D := iso8601) examples.t_mar01
                        (with_contact (S := samples.one_new_lead)
                           samples.grace_without_phone_classified
                           "typeform_resp_1" samples.empty_world) ]} [] 0))
    as (e & Hrun & _).
  exists e. exact Hrun.
Defined.

(** ** The calendar check *)

Section calendly.
Import calendly_check.
Context `{D : DatetimeLib} `{R : Remote} `{C : Calendly}.

Lemma matches_lower (e1 e2 : string) (i : invitee) :
  lower e1 = lower e2 → matches e1 i = matches e2 i.
Proof. intros H. unfold matches. rewrite H. reflexivity. Qed.

Lemma find_matches_lower (e1 e2 : string) (l : list invitee) :
  lower e1 = lower e2 → find (matches e1) l = find (matches e2) l.
Proof.
  intros H. induction l as [| i l IH]; [reflexivity |].
  cbn [find]. rewrite (matches_lower e1 e2 i H), IH. reflexivity.
Qed.

Lemma scan_events_lower (e1 e2 : string) (evs : list scheduled_event) (w : world) :
  lower e1 = lower e2 → scan_events e1 evs w = scan_events e2 evs w.
Proof.
  intros H. revert w. induction evs as [| ev rest IH]; intros w; [reflexivity |].
  cbn [scan_events]. unfold bind at 1 3.
  destruct (_get_event_invitees (e_uri ev) w) as [w1 [inv | e]]; [| reflexivity].
  rewrite (find_matches_lower e1 e2 inv H).
  destruct (find (matches e2) inv); [reflexivity | apply IH].
Qed.

(** X26: the booking check does not depend on the case of the address:
    two addresses that are equal in lower case get the same answer, with the
    same requests. *)
Theorem check_booking_ignores_case (e1 e2 : string) (since : option datetime) (w : world) :
  lower e1 = lower e2 →
  check_booking e1 since w = check_booking e2 since w.
Proof.
  intros H. unfold check_booking. unfold bind at 1 5.
  destruct (get_world w) as [w0 [v | e]]; [| reflexivity].
  unfold bind at 1 4.
  destruct (match since with Some d => ret d | None => lift (add_days (utcnow (clock v)) (-1)) end w0)
    as [w1 [d | e]]; [| reflexivity].
  unfold bind at 1 3.
  destruct (_get_user_uri w1) as [w2 [u | e]]; [| reflexivity].
  destruct (truthy_opt u); [| reflexivity].
  unfold bind at 1 2.
  destruct (_get_scheduled_events (default "" u) d w2) as [w3 [evs | e]]; [| reflexivity].
  apply scan_events_lower, H.
Qed.

Lemma scan_events_sound (email : string) (evs : list scheduled_event) (w w' : world)
    (b : calendly_booking) :
  scan_events email evs w = (w', Ok (Some b)) →
  ∃ ev i, ev ∈ evs ∧ i ∈ event_invitees (last_segment (e_uri ev))
    ∧ i_email i = Some (invitee_email b)
    ∧ lower (invitee_email b) = lower email
    ∧ uri b = e_uri ev ∧ start_time b = e_start_time ev
    ∧ invitee_name b = i_name i.
Proof.
  revert w. induction evs as [| ev rest IH]; intros w; [discriminate |].
  cbn [scan_events]. unfold _get_event_invitees. run_all.
  destruct (find (matches email) _) as [i |] eqn:Hfind.
  - apply find_some in Hfind as [Hin Hm].
    unfold email_engine.item. destruct (i_email i) as [addr |] eqn:Haddr; [| discriminate].
    unfold ret. intros [= <- <-]. exists ev, i. cbn.
    split; [apply list_elem_of_here |].
    destruct (http_ok (tick w)); [| destruct Hin].
    split; [apply list_elem_of_In, Hin |].
    split; [exact Haddr |].
    split; [| auto].
    unfold matches in Hm. rewrite Haddr in Hm. apply String.eqb_eq in Hm. exact Hm.
  - intros Hrest. apply IH in Hrest as (ev' & i & Hev & Hrest).
    exists ev', i. split; [apply list_elem_of_further, Hev | exact Hrest].
Qed.

(** X27: a booking returned by the check is one the calendar listed: it
    is an event of the account with an invitee whose address equals the
    queried one up to case, and it carries that event's URI and start time
    and that invitee's address and name. *)
Theorem check_booking_sound (email : string) (since : option datetime)
    (w w' : world) (b : calendly_booking) :
  check_booking email since w = (w', Ok (Some b)) →
  ∃ min_start ev i,
    ev ∈ scheduled_events user_uri min_start
    ∧ i ∈ event_invitees (last_segment (e_uri ev))
    ∧ i_email i = Some (invitee_email b)
    ∧ lower (invitee_email b) = lower email
    ∧ uri b = e_uri ev ∧ start_time b = e_start_time ev
    ∧ invitee_name b = i_name i.
Proof.
  unfold check_booking. unfold bind at 1. cbn [get_world].
  unfold bind at 1.
  destruct (match since with Some d => ret d | None => lift (add_days (utcnow (clock w)) (-1)) end w)
    as [w1 [d | e]]; [| discriminate].
  unfold _get_user_uri, _get_scheduled_events. run_all.
  destruct (http_ok (tick w1)); cbn [truthy_opt]; [| discriminate].
  destruct (truthy user_uri); [| discriminate].
  cbn [default]. cbv beta iota delta [id].
  intros Hscan. apply scan_events_sound in Hscan as (ev & i & Hev & Hrest).
  exists (isoformat d +:+ "Z"), ev, i. split; [| exact Hrest].
  destruct (http_ok _); [exact Hev | inversion Hev].
Qed.

Lemma scan_events_none (email : string) (evs : list scheduled_event) (w : world) :
  (∀ n, http_ok n = true) →
  (scan_events email evs w).2 = Ok None
  ↔ ∀ ev i, ev ∈ evs → i ∈ event_invitees (last_segment (e_uri ev)) →
      matches email i = false.
Proof.
  intros Hok. revert w. induction evs as [| ev rest IH]; intros w.
  - cbn. split; [| reflexivity]. intros _ ev i Hev. inversion Hev.
  - cbn [scan_events]. unfold _get_event_invitees. run_all. rewrite Hok.
    destruct (find (matches email) _) as [i |] eqn:Hfind.
    + apply find_some in Hfind as [Hin Hm]. split.
      * unfold email_engine.item. destruct (i_email i); cbn; discriminate.
      * intros Hall. rewrite (Hall ev i) in Hm; [discriminate | apply list_elem_of_here |].
        apply list_elem_of_In, Hin.
    + rewrite IH. split.
      * intros Hall ev' i Hev Hi. apply elem_of_cons in Hev as [-> | Hev].
        -- apply list_elem_of_In in Hi.
           destruct (matches email i) eqn:Hm; [| reflexivity].
           exfalso. eapply find_none in Hfind; [| exact Hi]. congruence.
        -- apply (Hall ev' i Hev Hi).
      * intros Hall ev' i Hev. apply Hall, list_elem_of_further, Hev.
Qed.

(** X28: when every request succeeds, the check answers no booking
    exactly when no invitee of any listed event matches the address up to
    case (an invitee without an address counts as the empty address). *)
Theorem check_booking_none_iff_no_match (email : string) (since : datetime) (w : world) :
  (∀ n, http_ok n = true) →
  truthy user_uri = true →
  (check_booking email (Some since) w).2 = Ok None
  ↔ ∀ ev i, ev ∈ scheduled_events user_uri (isoformat since +:+ "Z") →
      i ∈ event_invitees (last_segment (e_uri ev)) →
      matches email i = false.
Proof.
  intros Hok Huser. unfold check_booking, _get_user_uri, _get_scheduled_events.
  run_all. rewrite !Hok. cbn [truthy_opt]. rewrite Huser.
  cbn [default]. cbv beta iota delta [id]. rewrite Hok.
  apply scan_events_none, Hok.
Qed.

Lemma collect_calls_tick (email : string) (evs : list scheduled_event) (w : world) :
  ∃ calls, collect_calls email evs w
           = (mk_world (clock w) (crm w) (trace w) (length evs + tick w), Ok calls).
Proof.
  revert w. induction evs as [| ev rest IH]; intros w.
  - exists []. destruct w. reflexivity.
  - cbn [collect_calls]. unfold _get_event_invitees. run_all.
    destruct (IH (mk_world (clock w) (crm w) (trace w) (Datatypes.S (tick w))))
      as [calls Hc].
    rewrite Hc. cbn [clock crm trace tick]. eexists.
    rewrite Nat.add_succ_r. reflexivity.
Qed.

(** X29: when the request for the account is refused, the booking check
    raises after that one request while the list of upcoming calls is
    silently empty: the two readers of the calendar fail differently. *)
Theorem refused_user_lookup (email : string) (since : datetime) (w : world) :
  http_ok (tick w) = false →
  let after := mk_world (clock w) (crm w) (trace w) (Datatypes.S (tick w)) in
  check_booking email (Some since) w
  = (after, Raise (Exception "Could not fetch Calendly user URI"))
  ∧ get_upcoming_calls email w = (after, Ok []).
Proof.
  intros Hno. cbv zeta. unfold check_booking, get_upcoming_calls, _get_user_uri.
  run_all. rewrite Hno. split; reflexivity.
Qed.

Lemma collect_calls_nil (email : string) (evs : list scheduled_event) (w : world) :
  (∀ n, http_ok n = true) →
  (collect_calls email evs w).2 = Ok []
  ↔ ∀ ev i, ev ∈ evs → i ∈ event_invitees (last_segment (e_uri ev)) →
      matches email i = false.
Proof.
  intros Hok. revert w. induction evs as [| ev rest IH]; intros w.
  - cbn. split; [| reflexivity]. intros _ ev i Hev. inversion Hev.
  - cbn [collect_calls]. unfold _get_event_invitees. run_all. rewrite Hok.
    set (w1 := mk_world _ _ _ _).
    destruct (collect_calls_tick email rest w1) as [calls Hc].
    specialize (IH w1). rewrite Hc in IH |- *. cbn [snd] in IH |- *.
    split.
    + intros [= Happ]. apply app_eq_nil in Happ as [Hhere Hmore].
      apply fmap_nil_inv in Hhere. subst calls.
      intros ev' i Hev Hi. apply elem_of_cons in Hev as [-> | Hev].
      * destruct (matches email i) eqn:Hm; [| reflexivity]. exfalso.
        assert (i ∈ List.filter (matches email) (event_invitees (last_segment (e_uri ev))))
          as Hin by (apply list_elem_of_In, filter_In; split;
                     [apply list_elem_of_In, Hi | exact Hm]).
        rewrite Hhere in Hin. inversion Hin.
      * apply (proj1 IH eq_refl ev' i Hev Hi).
    + intros Hall.
      assert (calls = []) as ->.
      { assert (Ok calls = Ok []) as [= ->]; [| reflexivity].
        apply IH. intros ev' i Hev. apply Hall, list_elem_of_further, Hev. }
      rewrite app_nil_r. f_equal.
      destruct (List.filter _ _) as [| i rest'] eqn:Hf; [reflexivity |]. exfalso.
      assert (In i (List.filter (matches email) (event_invitees (last_segment (e_uri ev)))))
        as Hin by (rewrite Hf; left; reflexivity).
      apply filter_In in Hin as [Hin Hm].
      rewrite (Hall ev i) in Hm; [discriminate | apply list_elem_of_here |].
      apply list_elem_of_In, Hin.
Qed.

(** X30: over the same events (from now on) and with every request
    succeeding, the list of upcoming calls is empty exactly when the booking
    check finds nothing. *)
Theorem upcoming_calls_agree_with_booking_check (email : string) (w : world) :
  (∀ n, http_ok n = true) →
  truthy user_uri = true →
  (get_upcoming_calls email w).2 = Ok []
  ↔ (check_booking email (Some (utcnow (clock w))) w).2 = Ok None.
Proof.
  intros Hok Huser.
  unfold get_upcoming_calls, check_booking, _get_user_uri, _get_scheduled_events.
  run_all. rewrite !Hok. cbn [truthy_opt]. rewrite Huser.
  cbn [default]. cbv beta iota delta [id]. rewrite !Hok.
  rewrite (scan_events_none _ _ _ Hok). apply collect_calls_nil, Hok.
Qed.

End calendly.

Lemma check_booking_ignores_case_witness :
  calendly_check.check_booking (D := iso8601)
    (R := samples.remote_of examples.always_ok None) (C := samples.calendar)
    "ADA@example.com" None samples.empty_world
  = calendly_check.check_booking (D := iso8601)
      (R := samples.remote_of examples.always_ok None) (C := samples.calendar)
      "ada@example.com" None samples.empty_world.
Proof.
  exact (check_booking_ignores_case (D := iso8601)
           (R := samples.remote_of examples.always_ok None) (C := samples.calendar)
           "ADA@example.com" "ada@example.com" None samples.empty_world eq_refl).
Defined.

Lemma check_booking_sound_witness :
  calendly_check.check_booking (D := iso8601)
    (R := samples.remote_of examples.always_ok None) (C := samples.calendar)
    "ada@example.com" None samples.empty_world
  = (mk_world examples.t_mar01 ∅ [] 3, Ok (Some samples.ada_booking))
  ∧ ∃ min_start ev i,
      ev ∈ calendly_check.scheduled_events (Calendly := samples.calendar)
             (calendly_check.user_uri (Calendly := samples.calendar)) min_start
      ∧ i ∈ calendly_check.event_invitees (Calendly := samples.calendar)
              (calendly_check.last_segment (calendly_check.e_uri ev))
      ∧ calendly_check.i_email i = Some "Ada@Example.com".
Proof.
  assert (calendly_check.check_booking (D := iso8601)
            (R := samples.remote_of examples.always_ok None) (C := samples.calendar)
            "ada@example.com" None samples.empty_world
          = (mk_world examples.t_mar01 ∅ [] 3, Ok (Some samples.ada_booking))) as Hrun
    by (vm_compute; reflexivity).
  split; [exact Hrun |].
  destruct (check_booking_sound (D := iso8601)
              (R := samples.remote_of examples.always_ok None) (C := samples.calendar)
              "ada@example.com" None samples.empty_world _ _ Hrun)
    as (min_start & ev & i & Hev & Hi & Haddr & _).
  exists min_start, ev, i. split; [exact Hev |]. split; [exact Hi | exact Haddr].
Defined.

Lemma check_booking_none_iff_no_match_witness :
  (calendly_check.check_booking (D := iso8601)
     (R := samples.remote_of examples.always_ok None) (C := samples.calendar)
     "bob@example.com" (Some (utcnow examples.t_mar01)) samples.empty_world).2
  = Ok None.
Proof.
  apply (check_booking_none_iff_no_match (D := iso8601)
           (R := samples.remote_of examples.always_ok None) (C := samples.calendar)
           "bob@example.com" (utcnow examples.t_mar01) samples.empty_world
           (fun n => eq_refl) eq_refl).
  intros ev i Hev Hi.
  apply list_elem_of_In in Hev. destruct Hev as [<- | []].
  apply list_elem_of_In in Hi. destruct Hi as [<- | []].
  reflexivity.
Defined.

Lemma refused_user_lookup_witness :
  calendly_check.check_booking (D := iso8601)
    (R := samples.remote_of (examples.all_but 0) None) (C := samples.calendar)
    "ada@example.com" (Some (utcnow examples.t_mar01)) samples.empty_world
  = (mk_world examples.t_mar01 ∅ [] 1,
     Raise (Exception "Could not fetch Calendly user URI"))
  ∧ calendly_check.get_upcoming_calls (D := iso8601)
      (R := samples.remote_of (examples.all_but 0) None) (C := samples.calendar)
      "ada@example.com" samples.empty_world
    = (mk_world examples.t_mar01 ∅ [] 1, Ok []).
Proof.
  exact (refused_user_lookup (D := iso8601)
           (R := samples.remote_of (examples.all_but 0) None) (C := samples.calendar)
           "ada@example.com" (utcnow examples.t_mar01) samples.empty_world eq_refl).
Defined.

Lemma upcoming_calls_agree_with_booking_check_witness :
  (calendly_check.get_upcoming_calls (D := iso8601)
     (R := samples.remote_of examples.always_ok None) (C := samples.calendar)
     "bob@example.com" samples.empty_world).2 = Ok []
  ↔ (calendly_check.check_booking (D := iso8601)
       (R := samples.remote_of examples.always_ok None) (C := samples.calendar)
       "bob@example.com" (Some (utcnow examples.t_mar01)) samples.empty_world).2
    = Ok None.
Proof.
  exact (upcoming_calls_agree_with_booking_check (D := iso8601)
           (R := samples.remote_of examples.always_ok None) (C := samples.calendar)
           "bob@example.com" samples.empty_world (fun n => eq_refl) eq_refl).
Defined.

